(** * Assignly: the capacity and allocation computations of the React pages

    The pages of the front end (Dashboard, Analytics, Projects, Assignments,
    Timeline, EngineerDashboard) compute capacity, thresholds, durations,
    calendar buckets and skill statistics inline, over the arrays fetched from
    the REST back end.  Each page is a module below, with the records of its
    own [interface] declarations and one definition per computation.

    Module [JS] holds the part of the ECMAScript runtime those computations
    call: numbers with the two infinities and NaN, Date values, the default
    operators, [Array.prototype.sort], [Set] and plain objects used as
    counters. *)

From Stdlib Require Import ZArith QArith Qround Qminmax List String Ascii.
From Stdlib Require Import Bool Lia Permutation Sorted.
Import ListNotations.
Local Open Scope string_scope.
Local Open Scope list_scope.
Local Open Scope Z_scope.

(* ================================================================= *)
(** ** The runtime *)

Module JS.

(** A number is an exact rational, an infinity or NaN.  The rounding of
    doubles is not modelled, and every zero is the positive zero (the zeros
    that the pages divide by are a difference [x - x] and a [Set] size). *)
Inductive number : Type :=
| Fin (q : Q)
| PosInf
| NegInf
| NaN.

Definition of_Z (z : Z) : number := Fin (inject_Z z).

Definition neg (a : number) : number :=
  match a with
  | Fin q => Fin (- q)%Q
  | PosInf => NegInf
  | NegInf => PosInf
  | NaN => NaN
  end.

Definition add (a b : number) : number :=
  match a, b with
  | NaN, _ | _, NaN => NaN
  | Fin x, Fin y => Fin (x + y)%Q
  | PosInf, NegInf | NegInf, PosInf => NaN
  | PosInf, _ | _, PosInf => PosInf
  | NegInf, _ | _, NegInf => NegInf
  end.

Definition sub (a b : number) : number := add a (neg b).

(** The infinity of the sign of [c], NaN for a zero. *)
Definition signed_inf (c : comparison) : number :=
  match c with
  | Gt => PosInf
  | Lt => NegInf
  | Eq => NaN
  end.

Definition mul (a b : number) : number :=
  match a, b with
  | NaN, _ | _, NaN => NaN
  | Fin x, Fin y => Fin (x * y)%Q
  | Fin x, PosInf | PosInf, Fin x => signed_inf (x ?= 0)%Q
  | Fin x, NegInf | NegInf, Fin x => signed_inf (0 ?= x)%Q
  | PosInf, PosInf | NegInf, NegInf => PosInf
  | PosInf, NegInf | NegInf, PosInf => NegInf
  end.

(** [x / 0] is an infinity of the sign of [x], and [0 / 0] is NaN. *)
Definition div (a b : number) : number :=
  match a, b with
  | NaN, _ | _, NaN => NaN
  | Fin x, Fin y =>
      if Qeq_bool y 0 then signed_inf (x ?= 0)%Q else Fin (x / y)%Q
  | Fin _, _ => Fin 0
  | PosInf, Fin y => match (y ?= 0)%Q with Lt => NegInf | _ => PosInf end
  | NegInf, Fin y => match (y ?= 0)%Q with Lt => PosInf | _ => NegInf end
  | _, _ => NaN
  end.

(** [a > b]; every comparison with NaN is false. *)
Definition gt (a b : number) : bool :=
  match a, b with
  | NaN, _ | _, NaN => false
  | Fin x, Fin y => match (x ?= y)%Q with Gt => true | _ => false end
  | PosInf, PosInf => false
  | PosInf, _ => true
  | _, NegInf => match a with NegInf => false | _ => true end
  | _, _ => false
  end.

(** [Math.max] and [Math.min]: NaN as soon as one argument is NaN. *)
Definition Math_max (a b : number) : number :=
  match a, b with
  | NaN, _ | _, NaN => NaN
  | Fin x, Fin y => Fin (Qmax x y)
  | PosInf, _ | _, PosInf => PosInf
  | NegInf, c | c, NegInf => c
  end.

Definition Math_min (a b : number) : number :=
  match a, b with
  | NaN, _ | _, NaN => NaN
  | Fin x, Fin y => Fin (Qmin x y)
  | NegInf, _ | _, NegInf => NegInf
  | PosInf, c | c, PosInf => c
  end.

Definition Math_ceil (a : number) : number :=
  match a with
  | Fin q => of_Z (Qceiling q)
  | _ => a
  end.

(** Integer quantities that the pages only add, subtract and compare
    (percentages, milliseconds) stay in [Z]; a field that may be missing is an
    [option].  [x || d] replaces a missing or zero [x]; [x ?? d] replaces a
    missing one only. *)
Definition or_default (x : option Z) (d : Z) : Z :=
  match x with
  | Some v => if v =? 0 then d else v
  | None => d
  end.

Definition nullish (x : option Z) (d : Z) : Z :=
  match x with
  | Some v => v
  | None => d
  end.

(** *** Dates *)

(** A Date is its time value: milliseconds since the epoch, [None] for an
    Invalid Date (time value NaN). *)
Definition Date : Type := option Z.

Definition getTime (d : Date) : number :=
  match d with
  | Some t => of_Z t
  | None => NaN
  end.

(** The relational operators compare Dates by time value, and are false when
    one of them is invalid. *)
Definition date_le (a b : Date) : bool :=
  match a, b with
  | Some x, Some y => x <=? y
  | _, _ => false
  end.

Definition date_ge (a b : Date) : bool := date_le b a.

Definition msPerDay : Z := 86400000.

Definition TimeClip (t : Z) : Date :=
  if Z.abs t <=? 8640000000000000 then Some t else None.

(** Days from the epoch to a day of the proleptic Gregorian calendar
    ([m] from 1 to 12), and back. *)
Definition days_from_civil (y m d : Z) : Z :=
  let y' := if m <=? 2 then y - 1 else y in
  let era := y' / 400 in
  let yoe := y' - era * 400 in
  let mp := if 2 <? m then m - 3 else m + 9 in
  let doy := (153 * mp + 2) / 5 + d - 1 in
  let doe := yoe * 365 + yoe / 4 - yoe / 100 + doy in
  era * 146097 + doe - 719468.

Definition civil_from_days (z : Z) : Z * Z * Z :=
  let z' := z + 719468 in
  let era := z' / 146097 in
  let doe := z' - era * 146097 in
  let yoe := (doe - doe / 1460 + doe / 36524 - doe / 146096) / 365 in
  let doy := doe - (365 * yoe + yoe / 4 - yoe / 100) in
  let mp := (5 * doy + 2) / 153 in
  let d := doy - (153 * mp + 2) / 5 + 1 in
  let m := if mp <? 10 then mp + 3 else mp - 9 in
  let y := yoe + era * 400 in
  (if m <=? 2 then y + 1 else y, m, d).

(** [MakeDay]: the month index may leave 0..11 and the day may leave the
    month; both carry over. *)
Definition MakeDay (year month date : Z) : Z :=
  days_from_civil (year + month / 12) (month mod 12 + 1) 1 + date - 1.

Section LocalTime.

(** The offset of local time from UTC in milliseconds, taken as constant over
    the dates of one evaluation (no daylight-saving change among them). *)
Variable LocalTZA : Z.

(** [new Date(year, monthIndex, day)]: local midnight of that day.  A year
    from 0 to 99 stands for 1900 + year. *)
Definition Date_local (year month date : Z) : Date :=
  let yr := if (0 <=? year) && (year <=? 99) then 1900 + year else year in
  TimeClip (MakeDay yr month date * msPerDay - LocalTZA).

Definition local_civil (t : Z) : Z * Z * Z :=
  civil_from_days ((t + LocalTZA) / msPerDay).

Definition getFullYear (t : Z) : Z := fst (fst (local_civil t)).
Definition getMonth (t : Z) : Z := snd (fst (local_civil t)) - 1.
Definition getDate (t : Z) : Z := snd (local_civil t).

End LocalTime.

(** *** Arrays *)

(** [Array.prototype.sort] is stable, and orders [x] after [y] when the
    comparator is positive on [(x, y)]; a NaN from the comparator counts as 0.
    For a consistent comparator the stable sorted arrangement is unique, so
    insertion from the right computes it. *)
Definition positive_result (r : number) : bool := gt r (of_Z 0).

Fixpoint sort_insert {A : Type} (after : A -> A -> bool) (x : A) (l : list A)
  : list A :=
  match l with
  | [] => [x]
  | y :: l' => if after x y then y :: sort_insert after x l' else x :: l
  end.

Definition Array_sort {A : Type} (comparefn : A -> A -> number) (l : list A)
  : list A :=
  fold_right (sort_insert (fun x y => positive_result (comparefn x y))) [] l.

(** [slice(0, n)] *)
Definition slice0 {A : Type} (n : nat) (l : list A) : list A := firstn n l.

(** [reduce] with an initial value *)
Definition reduce {A B : Type} (f : B -> A -> B) (init : B) (l : list A) : B :=
  fold_left f l init.

(** *** Sets of strings *)

(** A [Set] keeps its members in insertion order, each once. *)
Definition JSet : Type := list string.

Definition Set_has (s : JSet) (x : string) : bool := existsb (String.eqb x) s.

Definition Set_add (s : JSet) (x : string) : JSet :=
  if Set_has s x then s else s ++ [x].

Definition Set_size (s : JSet) : Z := Z.of_nat (List.length s).


(** *** Date strings *)

Definition digit (c : ascii) : option Z :=
  let n := Z.of_nat (nat_of_ascii c) in
  if (48 <=? n) && (n <=? 57) then Some (n - 48) else None.

Fixpoint digits (acc : Z) (s : string) : option Z :=
  match s with
  | EmptyString => Some acc
  | String c s' =>
      match digit c with
      | Some d => digits (10 * acc + d) s'
      | None => None
      end
  end.

(** The date-only ISO form [YYYY-MM-DD], which the Date constructor reads as
    midnight UTC of that day.  The other string forms are left to the
    [Date_parse] that each page is given; this one reads them as invalid. *)
Definition Date_of_iso_day (s : string) : Date :=
  match s with
  | String y1 (String y2 (String y3 (String y4 (String "-"
      (String m1 (String m2 (String "-" (String d1 (String d2 EmptyString)))))))))
    =>
      match digits 0 (String y1 (String y2 (String y3 (String y4 EmptyString)))),
            digits 0 (String m1 (String m2 EmptyString)),
            digits 0 (String d1 (String d2 EmptyString)) with
      | Some y, Some m, Some d =>
          if (1 <=? m) && (m <=? 12) && (1 <=? d)
             && (d <=? MakeDay y m 1 - MakeDay y (m - 1) 1)
          then Some (days_from_civil y m d * msPerDay)
          else None
      | _, _, _ => None
      end
  | _ => None
  end.

(** *** Plain objects used as counters *)

(** A property value is a number, or a value that is not one: a member
    inherited from [Object.prototype], or the string that adding 1 to such a
    member (or to such a string) gives. *)
Inductive value : Type :=
| VNum (n : Z)
| VOther.

(** The own properties of an object created by [{}], in creation order. *)
Definition object : Type := list (string * value).

Definition Object_prototype : list string :=
  [ "constructor"; "__defineGetter__"; "__defineSetter__"; "hasOwnProperty";
    "__lookupGetter__"; "__lookupSetter__"; "isPrototypeOf";
    "propertyIsEnumerable"; "toString"; "valueOf"; "__proto__";
    "toLocaleString" ].

Definition inherited (k : string) : bool :=
  existsb (String.eqb k) Object_prototype.

Fixpoint own (o : object) (k : string) : option value :=
  match o with
  | [] => None
  | (k', v) :: o' => if (k' =? k)%string then Some v else own o' k
  end.

(** [o[k]]: the own property, else the inherited member, else undefined. *)
Definition get (o : object) (k : string) : option value :=
  match own o k with
  | Some v => Some v
  | None => if inherited k then Some VOther else None
  end.

Fixpoint put (o : object) (k : string) (v : value) : object :=
  match o with
  | [] => [(k, v)]
  | (k', v') :: o' =>
      if (k' =? k)%string then (k', v) :: o' else (k', v') :: put o' k v
  end.

(** [o[k] = v] for a number or a string [v].  The key [__proto__] reaches the
    setter of [Object.prototype], which ignores such a value. *)
Definition set (o : object) (k : string) (v : value) : object :=
  if (k =? "__proto__")%string then o else put o k v.

(** [x || 0] and [x + 1] on what [get] returns. *)
Definition or_zero (x : option value) : value :=
  match x with
  | Some (VNum n) => if n =? 0 then VNum 0 else VNum n
  | Some VOther => VOther
  | None => VNum 0
  end.

Definition plus_one (v : value) : value :=
  match v with
  | VNum n => VNum (n + 1)
  | VOther => VOther
  end.

(** [b - a] on property values: NaN unless both are numbers. *)
Definition value_sub (b a : value) : number :=
  match b, a with
  | VNum x, VNum y => of_Z (x - y)
  | _, _ => NaN
  end.

Definition value_lt (a : value) (n : Z) : bool :=
  match a with
  | VNum x => x <? n
  | VOther => false
  end.

(** An array index is a canonical decimal numeral below [2^32 - 1]. *)
Definition array_index (k : string) : option Z :=
  match k with
  | EmptyString => None
  | String c rest =>
      if (c =? "0")%char && negb (rest =? "")%string then None
      else
        match digits 0 k with
        | Some n => if n <? 4294967295 then Some n else None
        | None => None
        end
  end.

Definition is_index (p : string * value) : bool :=
  match array_index (fst p) with
  | Some _ => true
  | None => false
  end.

Definition index_of (p : string * value) : Z :=
  match array_index (fst p) with
  | Some n => n
  | None => -1
  end.

(** [Object.entries]: the properties whose key is an array index come first,
    in ascending order of the index; the others follow in creation order. *)
Definition Object_entries (o : object) : list (string * value) :=
  fold_right (sort_insert (fun x y => index_of y <? index_of x)) []
    (filter is_index o)
  ++ filter (fun p => negb (is_index p)) o.

(** *** More comparisons *)

(** [a >= b] and [a < b] on numbers, false when one of them is NaN. *)
Definition ge (a b : number) : bool :=
  match a, b with
  | NaN, _ | _, NaN => false
  | Fin x, Fin y => match (x ?= y)%Q with Lt => false | _ => true end
  | PosInf, _ => true
  | _, NegInf => true
  | _, _ => false
  end.

Definition lt (a b : number) : bool := gt b a.

(** [a < b] on Dates. *)
Definition date_lt (a b : Date) : bool :=
  match a, b with
  | Some x, Some y => x <? y
  | _, _ => false
  end.

(** *** Strings *)

(** A string stands for the bytes of its UTF-8 encoding.  The separators
    and the white space below are looked for byte by byte, which finds them
    exactly at the characters: no byte of an encoded character is the start
    of another one. *)

(** [s.split(c)] for a one-character separator [c]: the pieces between the
    separators, one piece for a string without separator (the empty string
    too). *)
Fixpoint split (separator : ascii) (s : string) : list string :=
  match s with
  | EmptyString => [EmptyString]
  | String c s' =>
      if (c =? separator)%char then EmptyString :: split separator s'
      else
        match split separator s' with
        | piece :: pieces => String c piece :: pieces
        | [] => [String c EmptyString]
        end
  end.

(** [l.join(separator)] *)
Definition join (separator : string) (l : list string) : string :=
  String.concat separator l.

(** The white space and the line terminators that [trim] removes, each by
    the bytes of its encoding: U+0009 to U+000D, U+0020, U+00A0, U+1680,
    U+2000 to U+200A, U+2028, U+2029, U+202F, U+205F, U+3000, U+FEFF. *)
Definition whiteSpace : list (list nat) :=
  [ [9]; [10]; [11]; [12]; [13]; [32]; [194; 160]; [225; 154; 128];
    [226; 128; 128]; [226; 128; 129]; [226; 128; 130]; [226; 128; 131];
    [226; 128; 132]; [226; 128; 133]; [226; 128; 134]; [226; 128; 135];
    [226; 128; 136]; [226; 128; 137]; [226; 128; 138]; [226; 128; 168];
    [226; 128; 169]; [226; 128; 175]; [226; 129; 159]; [227; 128; 128];
    [239; 187; 191] ]%nat.

Fixpoint strip_prefix (codes : list nat) (s : string) : option string :=
  match codes with
  | [] => Some s
  | n :: codes' =>
      match s with
      | String c s' =>
          if (nat_of_ascii c =? n)%nat then strip_prefix codes' s' else None
      | EmptyString => None
      end
  end.

Fixpoint strip_one (patterns : list (list nat)) (s : string) : option string :=
  match patterns with
  | [] => None
  | p :: patterns' =>
      match strip_prefix p s with
      | Some s' => Some s'
      | None => strip_one patterns' s
      end
  end.

(** Strips leading patterns; each step removes a byte at least, so the
    length of the string is fuel enough. *)
Fixpoint strip_all (fuel : nat) (patterns : list (list nat)) (s : string)
  : string :=
  match fuel with
  | O => s
  | S fuel' =>
      match strip_one patterns s with
      | Some s' => strip_all fuel' patterns s'
      | None => s
      end
  end.

Fixpoint reverse_onto (s acc : string) : string :=
  match s with
  | EmptyString => acc
  | String c s' => reverse_onto s' (String c acc)
  end.

Definition reverse (s : string) : string := reverse_onto s EmptyString.

Definition trimStart (s : string) : string :=
  strip_all (String.length s) whiteSpace s.

Definition trimEnd (s : string) : string :=
  reverse
    (strip_all (String.length s) (map (@rev nat) whiteSpace) (reverse s)).

Definition trim (s : string) : string := trimEnd (trimStart s).

End JS.

(* ================================================================= *)
(** ** The records shared by the pages *)

Module AuthContext.

(** Modelled from the spec: the [User] type of [context/AuthContext] is not
    among the sources.  An engineer has an identity, a display name, a role, skill
    labels, a seniority tier and a maximum capacity; the fields that the pages
    read with a default ([skills], [seniority], [maxCapacity], [department])
    may be missing, as in the [Engineer] interface of the Assignments page. *)
Record User : Type := {
  _id : string;
  name : string;
  email : string;
  role : string;
  skills : option (list string);
  seniority : option string;
  maxCapacity : option Z;
  department : option string
}.

End AuthContext.

(* ================================================================= *)
(** ** pages/Dashboard.tsx *)

Module Dashboard.

(** [engineerId] and [projectId] are an id, or the populated record. *)
Inductive Ref : Type :=
| Id (id : string)
| Populated (_id name : string).

Record Assignment : Type := {
  _id : string;
  engineerId : Ref;
  projectId : Ref;
  allocationPercentage : option Z;
  startDate : string;
  endDate : string;
  role : string
}.

(** [EngineerWithCapacity extends User]: the user's fields ([engineer]) and
    the three computed ones. *)
Record EngineerWithCapacity : Type := {
  engineer : AuthContext.User;
  currentCapacity : Z;
  availableCapacity : Z;
  assignments : list Assignment
}.

Definition getEngineerId (assignment : Assignment) : string :=
  match engineerId assignment with
  | Id id => id
  | Populated id _ => id
  end.

Section Page.

(** The Date constructor on the strings of the back end, and the reading of
    the clock by [new Date()], one instant for a whole pass. *)
Variable Date_parse : string -> JS.Date.
Variable now : Z.

Definition engineerAssignments (assigns : list Assignment)
  (engineer : AuthContext.User) : list Assignment :=
  filter
    (fun a =>
       (getEngineerId a =? AuthContext._id engineer)%string
       && JS.date_ge (Date_parse (endDate a)) (Some now))
    assigns.

Definition withCapacity (assigns : list Assignment)
  (engineer : AuthContext.User) : EngineerWithCapacity :=
  let engineerAssignments := engineerAssignments assigns engineer in
  let currentCapacity :=
    JS.reduce
      (fun sum a => sum + JS.or_default (allocationPercentage a) 0)
      0 engineerAssignments in
  let maxCapacity := JS.or_default (AuthContext.maxCapacity engineer) 100 in
  let availableCapacity := Z.max 0 (maxCapacity - currentCapacity) in
  {| engineer := engineer;
     currentCapacity := currentCapacity;
     availableCapacity := availableCapacity;
     assignments := engineerAssignments |}.

Definition engineersWithCapacity (engs : list AuthContext.User)
  (assigns : list Assignment) : list EngineerWithCapacity :=
  map (withCapacity assigns) engs.

(** The engineer's own view: the three cards over the engineer's
    assignments. *)
Definition currentAssignments (assignments : list Assignment) : nat :=
  List.length
    (filter (fun a => JS.date_ge (Date_parse (endDate a)) (Some now))
       assignments).

Definition totalAllocation (assignments : list Assignment) : Z :=
  JS.reduce (fun sum a => sum + JS.or_default (allocationPercentage a) 0) 0
    (filter (fun a => JS.date_ge (Date_parse (endDate a)) (Some now))
       assignments).

Definition myAvailableCapacity (user : AuthContext.User)
  (assignments : list Assignment) : Z :=
  Z.max 0
    (JS.or_default (AuthContext.maxCapacity user) 100
     - JS.reduce
         (fun sum a => sum + JS.or_default (allocationPercentage a) 0) 0
         (filter (fun a => JS.date_ge (Date_parse (endDate a)) (Some now))
            assignments)).

End Page.

(** The two summary cards. *)
Definition overloaded (e : EngineerWithCapacity) : bool :=
  JS.gt (JS.of_Z (currentCapacity e))
    (JS.mul
       (JS.of_Z (JS.or_default (AuthContext.maxCapacity (engineer e)) 100))
       (JS.Fin (9 # 10))).

Definition overloadedEngineers (engineers : list EngineerWithCapacity) : nat :=
  List.length (filter overloaded engineers).

Definition availableEngineers (engineers : list EngineerWithCapacity) : nat :=
  List.length (filter (fun e => 20 <? availableCapacity e) engineers).

(** The bar under an engineer's progress line, and the seniority badge. *)
Definition getCapacityColor (capacity maxCapacity : Z) : string :=
  let percentage :=
    JS.mul (JS.div (JS.of_Z capacity) (JS.of_Z maxCapacity)) (JS.of_Z 100) in
  if JS.ge percentage (JS.of_Z 90) then "bg-red-500"
  else if JS.ge percentage (JS.of_Z 75) then "bg-yellow-500"
  else "bg-green-500".

Definition capacityBar (e : EngineerWithCapacity) : string :=
  getCapacityColor (currentCapacity e)
    (JS.or_default (AuthContext.maxCapacity (engineer e)) 100).

Definition badgeVariant (e : EngineerWithCapacity) : string :=
  if 90 <? currentCapacity e then "destructive"
  else if 75 <? currentCapacity e then "secondary"
  else "default".

End Dashboard.

(* ================================================================= *)
(** ** pages/Analytics.tsx *)

Module Analytics.

Record Ref : Type := {
  _id : string;
  name : string
}.

Record Assignment : Type := {
  assignment_id : string;
  engineerId : Ref;
  projectId : Ref;
  allocationPercentage : option Z;
  startDate : string;
  endDate : string;
  role : string
}.

(** [Engineer], with the capacity fields filled in by the page. *)
Record Engineer : Type := {
  engineer_id : string;
  engineer_name : string;
  email : string;
  skills : list string;
  seniority : string;
  maxCapacity : Z;
  currentCapacity : Z;
  availableCapacity : Z
}.

Record Project : Type := {
  project_id : string;
  project_name : string;
  status : string;
  teamSize : Z;
  requiredSkills : option (list string)
}.

Section Page.

Variable Date_parse : string -> JS.Date.
Variable now : Z.

Definition engineerAssignments (assigns : list Assignment)
  (engineer : AuthContext.User) : list Assignment :=
  filter
    (fun a =>
       (_id (engineerId a) =? AuthContext._id engineer)%string
       && JS.date_ge (Date_parse (endDate a)) (Some now))
    assigns.

Definition withCapacity (assigns : list Assignment)
  (engineer : AuthContext.User) : Engineer :=
  let engineerAssignments := engineerAssignments assigns engineer in
  let currentCapacity :=
    JS.reduce
      (fun sum a => sum + JS.or_default (allocationPercentage a) 0)
      0 engineerAssignments in
  let maxCapacity := JS.nullish (AuthContext.maxCapacity engineer) 100 in
  let availableCapacity := Z.max 0 (maxCapacity - currentCapacity) in
  {| engineer_id := AuthContext._id engineer;
     engineer_name := AuthContext.name engineer;
     email := AuthContext.email engineer;
     skills := match AuthContext.skills engineer with
               | Some l => l
               | None => []
               end;
     seniority := match AuthContext.seniority engineer with
                  | Some s => s
                  | None => ""
                  end;
     maxCapacity := maxCapacity;
     currentCapacity := currentCapacity;
     availableCapacity := availableCapacity |}.

Definition engineersWithCapacity (engs : list AuthContext.User)
  (assigns : list Assignment) : list Engineer :=
  map (withCapacity assigns) engs.

Definition totalAssignments (assignments : list Assignment) : nat :=
  List.length
    (filter (fun a => JS.date_ge (Date_parse (endDate a)) (Some now))
       assignments).

End Page.

Definition averageUtilization (engineers : list Engineer) : JS.number :=
  if (0 <? List.length engineers)%nat
  then JS.div
         (JS.of_Z (JS.reduce (fun sum e => sum + currentCapacity e) 0 engineers))
         (JS.of_Z (Z.of_nat (List.length engineers)))
  else JS.of_Z 0.

Definition overloaded (e : Engineer) : bool :=
  JS.gt (JS.of_Z (currentCapacity e))
    (JS.mul
       (JS.of_Z (JS.or_default (Some (maxCapacity e)) 100))
       (JS.Fin (9 # 10))).

Definition overloadedEngineers (engineers : list Engineer) : nat :=
  List.length (filter overloaded engineers).

Definition underutilizedEngineers (engineers : list Engineer) : nat :=
  List.length (filter (fun e => 20 <? availableCapacity e) engineers).

(** [forEach] over a list that may be missing ([?.]). *)
Definition forEach_opt {S : Type} (l : option (list string))
  (f : S -> string -> S) (s : S) : S :=
  match l with
  | Some skills => fold_left f skills s
  | None => s
  end.

Definition skillDemand (projects : list Project) : JS.object :=
  JS.reduce
    (fun acc project =>
       forEach_opt (requiredSkills project)
         (fun acc skill =>
            JS.set acc skill (JS.plus_one (JS.or_zero (JS.get acc skill))))
         acc)
    [] projects.

(** The entries of [skillDemand] by descending count, before the cut. *)
Definition skillRanking (projects : list Project) : list (string * JS.value) :=
  JS.Array_sort (fun x y => JS.value_sub (snd y) (snd x))
    (JS.Object_entries (skillDemand projects)).

Definition topSkills (projects : list Project) : list (string * JS.value) :=
  JS.slice0 5 (skillRanking projects).

Record SkillGap : Type := {
  missingSkills : list string;
  insufficientSkills : list string;
  totalRequired : Z;
  totalAvailable : Z;
  coverage : JS.number
}.

Definition allRequiredSkills (projects : list Project) : JS.JSet :=
  fold_left
    (fun required project =>
       forEach_opt (requiredSkills project) JS.Set_add required)
    projects [].

Definition allAvailableSkills (engineers : list Engineer) : JS.JSet :=
  fold_left
    (fun available engineer => fold_left JS.Set_add (skills engineer) available)
    engineers [].

Definition skillGapAnalysis (projects : list Project)
  (engineers : list Engineer) : SkillGap :=
  let requiredSkills := allRequiredSkills projects in
  let availableSkills := allAvailableSkills engineers in
  let missingSkills :=
    filter (fun skill => negb (JS.Set_has availableSkills skill))
      requiredSkills in
  let skillCoverage :=
    fold_left
      (fun (skillCoverage : JS.object) skill =>
         let engineersWithSkill :=
           filter (fun engineer => existsb (String.eqb skill) (skills engineer))
             engineers in
         JS.set skillCoverage skill
           (JS.VNum (Z.of_nat (List.length engineersWithSkill))))
      requiredSkills [] in
  let insufficientSkills :=
    map fst
      (filter (fun entry => JS.value_lt (snd entry) 2)
         (JS.Object_entries skillCoverage)) in
  {| missingSkills := missingSkills;
     insufficientSkills := insufficientSkills;
     totalRequired := JS.Set_size requiredSkills;
     totalAvailable := JS.Set_size availableSkills;
     coverage :=
       JS.mul
         (JS.div (JS.of_Z (JS.Set_size availableSkills))
            (JS.of_Z (JS.Set_size requiredSkills)))
         (JS.of_Z 100) |}.

Definition activeProjects (projects : list Project) : nat :=
  List.length (filter (fun p => (status p =? "active")%string) projects).

(** The three numbers of the project status chart. *)
Definition projectStatusData (projects : list Project) : list nat :=
  [ List.length (filter (fun p => (status p =? "active")%string) projects);
    List.length (filter (fun p => (status p =? "planning")%string) projects);
    List.length (filter (fun p => (status p =? "completed")%string) projects) ].

(** The colour of an engineer's bar in the utilization chart. *)
Definition utilizationColor (e : Engineer) : string :=
  if 90 <? currentCapacity e then "#f87171"
  else if 75 <? currentCapacity e then "#fbbf24"
  else "#34d399".

End Analytics.

(* ================================================================= *)
(** ** The Projects page *)

Module Projects.

Section Page.

Variable Date_parse : string -> JS.Date.
Variable now : Z.

Definition getDuration (startDate endDate : string) : JS.number :=
  let start := Date_parse startDate in
  let end_ := Date_parse endDate in
  let days :=
    JS.Math_ceil
      (JS.div (JS.sub (JS.getTime end_) (JS.getTime start))
         (JS.of_Z (1000 * 60 * 60 * 24))) in
  days.

Definition getProgress (startDate endDate : string) : JS.number :=
  let start := Date_parse startDate in
  let end_ := Date_parse endDate in
  let total := JS.sub (JS.getTime end_) (JS.getTime start) in
  let elapsed := JS.sub (JS.of_Z now) (JS.getTime start) in
  JS.Math_min
    (JS.Math_max (JS.mul (JS.div elapsed total) (JS.of_Z 100)) (JS.of_Z 0))
    (JS.of_Z 100).

(** The [requiredSkills] that [handleCreate] sends for the text of the
    form's field. *)
Definition handleCreate_requiredSkills (requiredSkills : string)
  : list string :=
  map (fun s => JS.trim s) (JS.split "," requiredSkills).

End Page.

End Projects.

(* ================================================================= *)
(** ** pages/Assignments.tsx *)

Module Assignments.

Record Ref : Type := {
  _id : string;
  name : string
}.

Record Assignment : Type := {
  assignment_id : string;
  projectId : Ref;
  engineerId : Ref;
  allocationPercentage : Z;
  startDate : string;
  endDate : string;
  role : string
}.

Section Page.

Variable Date_parse : string -> JS.Date.

(** The "Duration" row of a card: shown when both date strings are
    non-empty, with the number of days it prints. *)
Definition duration (assignment : Assignment) : option JS.number :=
  if negb (startDate assignment =? "")%string
     && negb (endDate assignment =? "")%string
  then
    Some
      (JS.Math_ceil
         (JS.div
            (JS.sub (JS.getTime (Date_parse (endDate assignment)))
               (JS.getTime (Date_parse (startDate assignment))))
            (JS.of_Z (1000 * 60 * 60 * 24))))
  else None.

End Page.

Section Status.

Variable Date_parse : string -> JS.Date.
Variable now : Z.

Definition getStatusColor (endDate : string) : string :=
  let end_ := Date_parse endDate in
  if JS.date_lt end_ (Some now) then "bg-gray-100 text-gray-800"
  else if JS.lt (JS.sub (JS.getTime end_) (JS.of_Z now))
            (JS.of_Z (7 * 24 * 60 * 60 * 1000))
  then "bg-yellow-100 text-yellow-800 hover:bg-yello-700 hover:text-white"
  else "bg-green-100 text-green-800 hover:bg-green-700 hover:text-white".

Definition getStatusText (endDate : string) : string :=
  let end_ := Date_parse endDate in
  if JS.date_lt end_ (Some now) then "Completed"
  else if JS.lt (JS.sub (JS.getTime end_) (JS.of_Z now))
            (JS.of_Z (7 * 24 * 60 * 60 * 1000))
  then "Ending Soon"
  else "Active".

End Status.

(** The date that [openEditModal] puts in the edit form: [split("T")[0]]. *)
Definition openEditModal_date (date : string) : string :=
  hd EmptyString (JS.split "T" date).

End Assignments.

(* ================================================================= *)
(** ** pages/Timeline.tsx *)

Module Timeline.

Inductive Ref : Type :=
| Id (id : string)
| Populated (_id name : string).

Record Assignment : Type := {
  _id : string;
  engineerId : Ref;
  projectId : Ref;
  allocationPercentage : Z;
  startDate : string;
  endDate : string;
  role : string
}.

Definition ref_id (r : Ref) : string :=
  match r with
  | Id id => id
  | Populated id _ => id
  end.

Section Page.

Variable Date_parse : string -> JS.Date.
Variable LocalTZA : Z.
Variable now : Z.

(** The page's state: the fetched assignments, the two selections (an id, or
    "all") and the month on display, a valid Date. *)
Variable assignments : list Assignment.
Variable selectedProject selectedEngineer : string.
Variable currentMonth : Z.

Definition filteredAssignments : list Assignment :=
  filter
    (fun assignment =>
       let projectMatch :=
         (selectedProject =? "all")%string
         || (ref_id (projectId assignment) =? selectedProject)%string in
       let engineerMatch :=
         (selectedEngineer =? "all")%string
         || (ref_id (engineerId assignment) =? selectedEngineer)%string in
       projectMatch && engineerMatch)
    assignments.

Definition getDaysInMonth (date : Z) : nat :=
  match JS.Date_local LocalTZA (JS.getFullYear LocalTZA date)
          (JS.getMonth LocalTZA date + 1) 0 with
  | Some t => Z.to_nat (JS.getDate LocalTZA t)
  | None => 0%nat
  end.

Definition getAssignmentsForDate (date : JS.Date) : list Assignment :=
  filter
    (fun assignment =>
       let start := Date_parse (startDate assignment) in
       let end_ := Date_parse (endDate assignment) in
       JS.date_ge date start && JS.date_le date end_)
    filteredAssignments.

(** The calendar grid: for each [i] below the number of days, the day number
    [i + 1] with the assignments of its cell. *)
Definition calendarDays : list (Z * list Assignment) :=
  map
    (fun i : nat =>
       let date :=
         JS.Date_local LocalTZA (JS.getFullYear LocalTZA currentMonth)
           (JS.getMonth LocalTZA currentMonth) (Z.of_nat i + 1) in
       let dayAssignments := getAssignmentsForDate date in
       (Z.of_nat i + 1, dayAssignments))
    (seq 0 (getDaysInMonth currentMonth)).

(** The "Upcoming Assignments" list. *)
Definition upcomingAssignments : list Assignment :=
  JS.slice0 10
    (JS.Array_sort
       (fun a b =>
          JS.sub (JS.getTime (Date_parse (startDate a)))
            (JS.getTime (Date_parse (startDate b))))
       (filter
          (fun a => JS.date_ge (Date_parse (startDate a)) (Some now))
          filteredAssignments)).

Definition getStatusColor (endDate : string) : string :=
  let end_ := Date_parse endDate in
  if JS.date_lt end_ (Some now) then "bg-gray-100 text-gray-800"
  else if JS.lt (JS.sub (JS.getTime end_) (JS.of_Z now))
            (JS.of_Z (7 * 24 * 60 * 60 * 1000))
  then "bg-yellow-100 text-yellow-800"
  else "bg-green-100 text-green-800".

Definition getStatusText (endDate : string) : string :=
  let end_ := Date_parse endDate in
  if JS.date_lt end_ (Some now) then "Completed"
  else if JS.lt (JS.sub (JS.getTime end_) (JS.of_Z now))
            (JS.of_Z (7 * 24 * 60 * 60 * 1000))
  then "Ending Soon"
  else "Active".

End Page.

End Timeline.

(* ================================================================= *)
(** ** pages/EngineerDashboard.tsx *)

Module EngineerDashboard.

Record Ref : Type := {
  _id : string;
  name : string
}.

Record Assignment : Type := {
  assignment_id : string;
  projectId : Ref;
  engineerId : Ref;
  allocationPercentage : Z;
  startDate : string;
  endDate : string;
  role : string
}.


Section Page.

Variable Date_parse : string -> JS.Date.
Variable LocalTZA : Z.
Variable now : Z.
Variable assignments : list Assignment.





Definition activeAssignments : list Assignment :=
  filter (fun a => JS.date_ge (Date_parse (endDate a)) (Some now)) assignments.

Definition completedAssignments : list Assignment :=
  filter (fun a => JS.date_lt (Date_parse (endDate a)) (Some now)) assignments.

(** The two numbers of the assignment status chart. *)
Definition assignmentStatusData : list nat :=
  [List.length activeAssignments; List.length completedAssignments].

End Page.

End EngineerDashboard.

(* ================================================================= *)
(** ** The Profile page *)

Module Profile.

(** The text of the skills field when the form opens:
    [user?.skills?.join(', ') || '']. *)
Definition initialSkills (skills : option (list string)) : string :=
  match skills with
  | Some l =>
      let joined := JS.join ", " l in
      if (joined =? "")%string then "" else joined
  | None => ""
  end.

(** The [skills] that [handleSubmit] sends for the text of the field. *)
Definition handleSubmit_skills (skills : string) : list string :=
  filter (fun s => negb (s =? "")%string)
    (map (fun s => JS.trim s) (JS.split "," skills)).

End Profile.

(* ================================================================= *)
(** ** The suitability matcher *)

Module Engine.

(** Modelled from the spec: the page calls
    [GET /projects/:id/suitable-engineers] and shows the answer; the matcher
    itself runs in the back end and is not among the sources.  Per the spec,
    an engineer is a candidate when the engineer's skills and the project's
    required skills have a label in common, candidates keep the order of
    the engineer list, and a missing list counts as empty. *)
Definition skills_of (l : option (list string)) : list string :=
  match l with
  | Some skills => skills
  | None => []
  end.

(** Modelled from the spec: the match test of section 4.3, a non-empty
    intersection of the engineer's skills and the required skills. *)
Definition isCandidate (requiredSkills : option (list string))
  (engineer : AuthContext.User) : bool :=
  existsb
    (fun skill => existsb (String.eqb skill) (skills_of requiredSkills))
    (skills_of (AuthContext.skills engineer)).

(** Modelled from the spec: the candidates, in the order of the engineer
    list. *)
Definition findSuitableEngineers (requiredSkills : option (list string))
  (engineers : list AuthContext.User) : list AuthContext.User :=
  filter (isCandidate requiredSkills) engineers.

End Engine.

(* ================================================================= *)
(** ** The words of the specification *)

Module Spec.

Definition sum (l : list Z) : Z := fold_right Z.add 0 l.

(** A missing allocation percentage contributes 0. *)
Definition allocation (x : option Z) : Z :=
  match x with
  | Some v => v
  | None => 0
  end.

(** The maximum capacity, 100 when absent. *)
Definition maxCapacity (x : option Z) : Z :=
  match x with
  | Some m => m
  | None => 100
  end.

(** A date is on or after the instant [now]. *)
Definition onOrAfter (d : JS.Date) (now : Z) : Prop :=
  exists t, d = Some t /\ now <= t.

(** A comparator orders by a key: it puts [x] after [y] exactly when the key
    of [x] is the larger one, on the elements of [l]. *)
Definition by_key {A : Type} (after : A -> A -> bool) (key : A -> Z)
  (l : list A) : Prop :=
  forall x y, In x l -> In y l -> after x y = (key y <? key x).

(** The time value of a valid date; 0 stands in for an invalid one. *)
Definition instant (d : JS.Date) : Z :=
  match d with
  | Some t => t
  | None => 0
  end.

(** Two valid dates, the first not after the second. *)
Definition notAfter (x y : JS.Date) : Prop :=
  exists s t, x = Some s /\ y = Some t /\ s <= t.

(** [start <= instant <= end], both ends included. *)
Definition containsInstant (start end_ instant : JS.Date) : Prop :=
  exists s e i,
    start = Some s /\ end_ = Some e /\ instant = Some i /\ s <= i <= e.

(** The labels of a required-skills list, none when the list is missing. *)
Definition labels_of (l : option (list string)) : list string :=
  match l with
  | Some skills => skills
  | None => []
  end.

(** The labels of all the projects' lists, in order. *)
Definition requiredLabels (projects : list Analytics.Project) : list string :=
  List.concat (map (fun p => labels_of (Analytics.requiredSkills p)) projects).

(** How often a label occurs in the lists, and how many projects require
    it. *)
Definition occurrences (skill : string) (projects : list Analytics.Project)
  : Z :=
  Z.of_nat (count_occ string_dec (requiredLabels projects) skill).

Definition requires (skill : string) (p : Analytics.Project) : bool :=
  existsb (String.eqb skill) (labels_of (Analytics.requiredSkills p)).

Definition projectsRequiring (skill : string)
  (projects : list Analytics.Project) : Z :=
  Z.of_nat (List.length (filter (requires skill) projects)).

(** The distinct labels of a list, in the order of their first occurrence. *)
Fixpoint first_seen (l : list string) : list string :=
  match l with
  | [] => []
  | x :: l' => x :: filter (fun y => negb (y =? x)%string) (first_seen l')
  end.

(** The labels of all the engineers' skill lists, in order, and the number
    of engineers who list a label. *)
Definition availableLabels (engineers : list Analytics.Engineer)
  : list string :=
  List.concat (map Analytics.skills engineers).

Definition engineersWith (skill : string)
  (engineers : list Analytics.Engineer) : Z :=
  Z.of_nat
    (List.length
       (filter (fun e => existsb (String.eqb skill) (Analytics.skills e))
          engineers)).

(** A status that the project status chart has a slice for. *)
Definition knownStatus (p : Analytics.Project) : bool :=
  (Analytics.status p =? "active")%string
  || (Analytics.status p =? "planning")%string
  || (Analytics.status p =? "completed")%string.

(** The character [c] occurs in [s]. *)
Fixpoint contains (c : ascii) (s : string) : bool :=
  match s with
  | EmptyString => false
  | String c' s' => (c' =? c)%char || contains c s'
  end.

(** The number of occurrences of [c] in [s]. *)
Fixpoint countChar (c : ascii) (s : string) : nat :=
  match s with
  | EmptyString => 0%nat
  | String c' s' =>
      if (c' =? c)%char then S (countChar c s') else countChar c s'
  end.

(** A skill label as the profile form can hold it: not empty, without
    comma, without white space around it. *)
Definition cleanLabel (s : string) : Prop :=
  s <> "" /\ contains "," s = false /\ JS.trim s = s.

(** The count of an entry of the ranking. *)
Definition count (entry : string * JS.value) : Z :=
  match snd entry with
  | JS.VNum n => n
  | JS.VOther => 0
  end.

End Spec.

(* ================================================================= *)
(** ** Sample data *)

Module Sample.

(** 15 January 2024, midnight UTC. *)
Definition now : Z := 1705276800000.

Definition user (id : string) (maxCapacity : option Z)
  (skills : option (list string)) : AuthContext.User :=
  {| AuthContext._id := id;
     AuthContext.name := id;
     AuthContext.email := "";
     AuthContext.role := "engineer";
     AuthContext.skills := skills;
     AuthContext.seniority := None;
     AuthContext.maxCapacity := maxCapacity;
     AuthContext.department := None |}.

Definition partTime : AuthContext.User := user "e1" (Some 50) None.
Definition zeroCapacity : AuthContext.User := user "e1" (Some 0) None.

Definition dashboardAssignment (id : string) (engineerId : Dashboard.Ref)
  (allocation : option Z) (startDate endDate : string)
  : Dashboard.Assignment :=
  {| Dashboard._id := id;
     Dashboard.engineerId := engineerId;
     Dashboard.projectId := Dashboard.Id "p1";
     Dashboard.allocationPercentage := allocation;
     Dashboard.startDate := startDate;
     Dashboard.endDate := endDate;
     Dashboard.role := "Developer" |}.

(** Five assignments: one running, one without a percentage, one ended, one
    of another engineer, one that has not started. *)
Definition dashboardAssigns : list Dashboard.Assignment :=
  [ dashboardAssignment "a1" (Dashboard.Id "e1") (Some 40)
      "2024-01-01" "2024-01-31";
    dashboardAssignment "a2" (Dashboard.Populated "e1" "Alice") None
      "2024-01-05" "2024-03-01";
    dashboardAssignment "a3" (Dashboard.Id "e1") (Some 30)
      "2023-12-01" "2024-01-10";
    dashboardAssignment "a4" (Dashboard.Id "e2") (Some 70)
      "2024-01-01" "2024-12-31";
    dashboardAssignment "a5" (Dashboard.Id "e1") (Some 30)
      "2024-06-01" "2024-06-30" ].

Definition analyticsAssignment (id engineer : string) (allocation : option Z)
  (startDate endDate : string) : Analytics.Assignment :=
  {| Analytics.assignment_id := id;
     Analytics.engineerId :=
       {| Analytics._id := engineer; Analytics.name := engineer |};
     Analytics.projectId := {| Analytics._id := "p1"; Analytics.name := "p1" |};
     Analytics.allocationPercentage := allocation;
     Analytics.startDate := startDate;
     Analytics.endDate := endDate;
     Analytics.role := "Developer" |}.

Definition analyticsAssigns : list Analytics.Assignment :=
  [ analyticsAssignment "a1" "e1" (Some 40) "2024-01-01" "2024-01-31";
    analyticsAssignment "a3" "e1" (Some 30) "2023-12-01" "2024-01-10";
    analyticsAssignment "a5" "e1" (Some 30) "2024-06-01" "2024-06-30" ].

Definition fullTime : AuthContext.User := user "e2" (Some 100) None.

(** The assignments of a team of two: of "e1" one running, one ended and one
    to come; of "e2" one running; and one of "e3", who is not listed. *)
Definition teamAssigns : list Analytics.Assignment :=
  [ analyticsAssignment "a1" "e1" (Some 40) "2024-01-01" "2024-01-31";
    analyticsAssignment "a2" "e2" (Some 25) "2024-01-01" "2024-02-29";
    analyticsAssignment "a3" "e1" (Some 30) "2023-12-01" "2024-01-10";
    analyticsAssignment "a4" "e3" (Some 70) "2024-01-01" "2024-12-31";
    analyticsAssignment "a5" "e1" (Some 30) "2024-06-01" "2024-06-30" ].

End Sample.

Module SampleTeam.

Definition engineer (id : string) (skills : list string)
  (maxCapacity currentCapacity availableCapacity : Z) : Analytics.Engineer :=
  {| Analytics.engineer_id := id;
     Analytics.engineer_name := id;
     Analytics.email := "";
     Analytics.skills := skills;
     Analytics.seniority := "mid";
     Analytics.maxCapacity := maxCapacity;
     Analytics.currentCapacity := currentCapacity;
     Analytics.availableCapacity := availableCapacity |}.

Definition project (id : string) (requiredSkills : option (list string))
  : Analytics.Project :=
  {| Analytics.project_id := id;
     Analytics.project_name := id;
     Analytics.status := "active";
     Analytics.teamSize := 3;
     Analytics.requiredSkills := requiredSkills |}.

(** One engineer who knows Go, and two projects that require nothing. *)
Definition gopher : Analytics.Engineer := engineer "e1" ["Go"] 100 40 60.

Definition idleProjects : list Analytics.Project :=
  [project "p1" (Some []); project "p2" None].

(** A project that requires Go and an engineer who knows Rust only. *)
Definition goProject : Analytics.Project := project "p1" (Some ["Go"]).
Definition rustacean : Analytics.Engineer := engineer "e2" ["Rust"] 100 0 100.

(** Three projects; React is required three times, Node twice, Go and Rust
    once. *)
Definition projects : list Analytics.Project :=
  [ project "p1" (Some ["Go"; "React"]);
    project "p2" (Some ["Node"; "React"]);
    project "p3" (Some ["React"; "Rust"; "Node"]) ].

Definition dashboardEngineer (maxCapacity : option Z)
  (currentCapacity availableCapacity : Z) : Dashboard.EngineerWithCapacity :=
  {| Dashboard.engineer := Sample.user "e" maxCapacity None;
     Dashboard.currentCapacity := currentCapacity;
     Dashboard.availableCapacity := availableCapacity;
     Dashboard.assignments := [] |}.

End SampleTeam.

Module SampleDates.

Definition assignment (startDate endDate : string) : Assignments.Assignment :=
  {| Assignments.assignment_id := "a1";
     Assignments.projectId :=
       {| Assignments._id := "p1"; Assignments.name := "Apollo" |};
     Assignments.engineerId :=
       {| Assignments._id := "e1"; Assignments.name := "Alice" |};
     Assignments.allocationPercentage := 50;
     Assignments.startDate := startDate;
     Assignments.endDate := endDate;
     Assignments.role := "Developer" |}.

(** Midnight UTC of 10 and of 20 January 2024. *)
Definition jan10 : Z := 1704844800000.
Definition jan20 : Z := 1705708800000.

Definition timelineAssignment (id startDate endDate : string)
  : Timeline.Assignment :=
  {| Timeline._id := id;
     Timeline.engineerId := Timeline.Populated "e1" "Alice";
     Timeline.projectId := Timeline.Id "p1";
     Timeline.allocationPercentage := 50;
     Timeline.startDate := startDate;
     Timeline.endDate := endDate;
     Timeline.role := "Developer" |}.

Definition tenToTwenty : Timeline.Assignment :=
  timelineAssignment "a1" "2024-01-10" "2024-01-20".

(** One assignment under way on 15 January 2024 and two to come, the later
    one first. *)
Definition timelineAssigns : list Timeline.Assignment :=
  [ timelineAssignment "a1" "2024-01-01" "2024-03-31";
    timelineAssignment "a2" "2024-02-10" "2024-02-20";
    timelineAssignment "a3" "2024-02-01" "2024-02-05" ].




(** The day numbers of the cells that are not empty. *)
Definition busyDays (days : list (Z * list Timeline.Assignment)) : list Z :=
  map fst
    (filter
       (fun cell => match snd cell with [] => false | _ :: _ => true end)
       days).

End SampleDates.

(* ================================================================= *)
(** ** Facts about the runtime *)

Lemma reduce_add_sum (A : Type) (f : A -> Z) (l : list A) (init : Z) :
  JS.reduce (fun sum a => sum + f a) init l = init + Spec.sum (map f l).
Proof.
  unfold JS.reduce. revert init.
  induction l as [| a l IH]; intros init; simpl.
  - lia.
  - rewrite IH. lia.
Qed.

Lemma or_default_zero (x : option Z) : JS.or_default x 0 = Spec.allocation x.
Proof.
  destruct x as [v |]; simpl; [| reflexivity].
  destruct (Z.eqb_spec v 0); congruence.
Qed.

Lemma date_ge_onOrAfter (d : JS.Date) (now : Z) :
  JS.date_ge d (Some now) = true <-> Spec.onOrAfter d now.
Proof.
  unfold JS.date_ge, JS.date_le, Spec.onOrAfter.
  destruct d as [t |].
  - rewrite Z.leb_le. split.
    + intros H. exists t. auto.
    + intros (t' & Ht & H). inversion Ht. lia.
  - split; [discriminate | intros (t' & Ht & _); discriminate].
Qed.

Lemma filter_agree (A : Type) (p q : A -> bool) (l : list A) :
  (forall a, In a l -> p a = q a) -> filter p l = filter q l.
Proof.
  induction l as [| a l IH]; intros H; simpl.
  - reflexivity.
  - rewrite (H a (or_introl eq_refl)), IH; [reflexivity |].
    intros b Hb. apply H. right. exact Hb.
Qed.

Lemma bool_agree (b c : bool) (P : Prop) :
  (b = true <-> P) -> (c = true <-> P) -> b = c.
Proof.
  intros Hb Hc. destruct b, c; try reflexivity.
  - symmetry. apply Hc, Hb. reflexivity.
  - apply Hb, Hc. reflexivity.
Qed.

(* ================================================================= *)
(** ** Capacity of an engineer (Dashboard and Analytics) *)

Section Capacity.

Variable Date_parse : string -> JS.Date.
Variable now : Z.




Lemma analytics_currentCapacity (assigns : list Analytics.Assignment)
  (engineer : AuthContext.User) :
  Analytics.currentCapacity
    (Analytics.withCapacity Date_parse now assigns engineer)
  = Spec.sum
      (map (fun a => Spec.allocation (Analytics.allocationPercentage a))
         (Analytics.engineerAssignments Date_parse now assigns engineer)).
Proof.
  simpl. rewrite reduce_add_sum. simpl. f_equal.
  apply map_ext. intros a. apply or_default_zero.
Qed.

End Capacity.




(** Outside the stored values: an engineer whose [maxCapacity] is 0 is given
    the available capacity [100 - 70 = 30] on the Dashboard, where
    [max 0 (maxCapacity - currentCapacity)] is 0. *)
Lemma dashboard_zero_maxCapacity :
  Dashboard.currentCapacity
    (Dashboard.withCapacity JS.Date_of_iso_day Sample.now
       Sample.dashboardAssigns Sample.zeroCapacity) = 70
  /\ Dashboard.availableCapacity
       (Dashboard.withCapacity JS.Date_of_iso_day Sample.now
          Sample.dashboardAssigns Sample.zeroCapacity) = 30
  /\ Z.max 0
       (Spec.maxCapacity (AuthContext.maxCapacity Sample.zeroCapacity)
        - Dashboard.currentCapacity
            (Dashboard.withCapacity JS.Date_of_iso_day Sample.now
               Sample.dashboardAssigns Sample.zeroCapacity)) = 0.
Proof. vm_compute. repeat split. Qed.

(* ================================================================= *)
(** ** The overload and availability thresholds *)

(** [c > m * 0.9], with 0.9 the rational 9/10.  On integer percentages the
    product in doubles compares with [c] the same way: it is exact when
    [9 m] is a multiple of 10, and a tenth or more away from every integer
    otherwise. *)
Lemma gt_nine_tenths (c m : Z) :
  JS.gt (JS.of_Z c) (JS.mul (JS.of_Z m) (JS.Fin (9 # 10))) = true
  <-> 9 * m < 10 * c.
Proof.
  unfold JS.gt, JS.mul, JS.of_Z, Qcompare, Qmult, inject_Z.
  cbn [Qnum Qden]. change (Z.pos (1 * 10)) with 10.
  destruct (Z.compare_spec (c * 10) (m * 9 * 1)) as [H | H | H];
    split; intros H'; try discriminate; try reflexivity; lia.
Qed.

Lemma gt_nine_tenths_false (c m : Z) :
  JS.gt (JS.of_Z c) (JS.mul (JS.of_Z m) (JS.Fin (9 # 10))) = false
  <-> 10 * c <= 9 * m.
Proof.
  rewrite <- not_true_iff_false, gt_nine_tenths. lia.
Qed.

Lemma length_filter_cons (A : Type) (p : A -> bool) (x : A) (l : list A) :
  List.length (filter p (x :: l))
  = if p x then S (List.length (filter p l)) else List.length (filter p l).
Proof. simpl. destruct (p x); reflexivity. Qed.

(** C6.  [overloadedEngineers] counts exactly the engineers whose
    [currentCapacity] is strictly above nine tenths of [maxCapacity || 100],
    and [availableEngineers] / [underutilizedEngineers] exactly those whose
    [availableCapacity] is strictly above 20: an empty list counts 0, an
    engineer above the threshold adds one, and an engineer at or below it
    (so one exactly at it) adds nothing.  The first list is the Dashboard's,
    the second the Analytics page's. *)
Theorem threshold_counts :
  (Dashboard.overloadedEngineers [] = 0%nat
   /\ Dashboard.availableEngineers [] = 0%nat
   /\ Analytics.overloadedEngineers [] = 0%nat
   /\ Analytics.underutilizedEngineers [] = 0%nat)
  /\ (forall (e : Dashboard.EngineerWithCapacity) l,
        let cap :=
          JS.or_default (AuthContext.maxCapacity (Dashboard.engineer e)) 100 in
        (9 * cap < 10 * Dashboard.currentCapacity e ->
         Dashboard.overloadedEngineers (e :: l)
         = S (Dashboard.overloadedEngineers l))
        /\ (10 * Dashboard.currentCapacity e <= 9 * cap ->
            Dashboard.overloadedEngineers (e :: l)
            = Dashboard.overloadedEngineers l)
        /\ (20 < Dashboard.availableCapacity e ->
            Dashboard.availableEngineers (e :: l)
            = S (Dashboard.availableEngineers l))
        /\ (Dashboard.availableCapacity e <= 20 ->
            Dashboard.availableEngineers (e :: l)
            = Dashboard.availableEngineers l))
  /\ (forall (e : Analytics.Engineer) l,
        let cap := JS.or_default (Some (Analytics.maxCapacity e)) 100 in
        (9 * cap < 10 * Analytics.currentCapacity e ->
         Analytics.overloadedEngineers (e :: l)
         = S (Analytics.overloadedEngineers l))
        /\ (10 * Analytics.currentCapacity e <= 9 * cap ->
            Analytics.overloadedEngineers (e :: l)
            = Analytics.overloadedEngineers l)
        /\ (20 < Analytics.availableCapacity e ->
            Analytics.underutilizedEngineers (e :: l)
            = S (Analytics.underutilizedEngineers l))
        /\ (Analytics.availableCapacity e <= 20 ->
            Analytics.underutilizedEngineers (e :: l)
            = Analytics.underutilizedEngineers l)).
Proof.
  split; [repeat split |]. split.
  - intros e l cap.
    unfold Dashboard.overloadedEngineers, Dashboard.availableEngineers.
    rewrite !length_filter_cons.
    refine (conj _ (conj _ (conj _ _))); intros H.
    + apply gt_nine_tenths in H. unfold Dashboard.overloaded.
      fold cap. rewrite H. reflexivity.
    + apply gt_nine_tenths_false in H. unfold Dashboard.overloaded.
      fold cap. rewrite H. reflexivity.
    + apply Z.ltb_lt in H. rewrite H. reflexivity.
    + apply Z.ltb_ge in H. rewrite H. reflexivity.
  - intros e l cap.
    unfold Analytics.overloadedEngineers, Analytics.underutilizedEngineers.
    rewrite !length_filter_cons.
    refine (conj _ (conj _ (conj _ _))); intros H.
    + apply gt_nine_tenths in H. unfold Analytics.overloaded.
      fold cap. rewrite H. reflexivity.
    + apply gt_nine_tenths_false in H. unfold Analytics.overloaded.
      fold cap. rewrite H. reflexivity.
    + apply Z.ltb_lt in H. rewrite H. reflexivity.
    + apply Z.ltb_ge in H. rewrite H. reflexivity.
Qed.

(* ================================================================= *)
(** ** Averages and ratios (Analytics) *)

Lemma Qeq_bool_inject_Z (z : Z) : Qeq_bool (inject_Z z) 0 = (z =? 0).
Proof.
  unfold Qeq_bool, inject_Z. cbn [Qnum Qden].
  rewrite Z.mul_1_r. reflexivity.
Qed.

Lemma Qcompare_inject_Z_0 (z : Z) : (inject_Z z ?= 0)%Q = (z ?= 0).
Proof.
  unfold Qcompare, inject_Z. cbn [Qnum Qden].
  rewrite Z.mul_1_r. reflexivity.
Qed.

(** A division of integers: finite unless the divisor is 0. *)
Lemma div_of_Z (x y : Z) :
  JS.div (JS.of_Z x) (JS.of_Z y)
  = if y =? 0 then JS.signed_inf (x ?= 0)
    else JS.Fin (inject_Z x / inject_Z y).
Proof.
  unfold JS.div, JS.of_Z.
  rewrite Qeq_bool_inject_Z, Qcompare_inject_Z_0. reflexivity.
Qed.

Lemma averageUtilization_finite (engineers : list Analytics.Engineer) :
  exists q, Analytics.averageUtilization engineers = JS.Fin q.
Proof.
  unfold Analytics.averageUtilization.
  destruct engineers as [| e l].
  - exists (inject_Z 0). reflexivity.
  - change (0 <? List.length (e :: l))%nat with true. cbv iota.
    rewrite div_of_Z.
    destruct (Z.eqb_spec (Z.of_nat (List.length (e :: l))) 0) as [H | _].
    + simpl in H. lia.
    + eexists. reflexivity.
Qed.

Lemma coverage_formula (projects : list Analytics.Project)
  (engineers : list Analytics.Engineer) :
  Analytics.coverage (Analytics.skillGapAnalysis projects engineers)
  = JS.mul
      (JS.div
         (JS.of_Z
            (Analytics.totalAvailable
               (Analytics.skillGapAnalysis projects engineers)))
         (JS.of_Z
            (Analytics.totalRequired
               (Analytics.skillGapAnalysis projects engineers))))
      (JS.of_Z 100).
Proof. reflexivity. Qed.

(** C2.  The average utilization is a finite number for every engineer
    list, and 0 for the empty one.  The coverage is not guarded: when no
    project requires a skill it is NaN (no skill available either) or
    +Infinity (some skill available), never 0. *)
Theorem coverage_without_required_skills
  (projects : list Analytics.Project) (engineers : list Analytics.Engineer)
  (Hrequired :
     Analytics.totalRequired (Analytics.skillGapAnalysis projects engineers)
     = 0) :
  Analytics.averageUtilization [] = JS.of_Z 0
  /\ (exists q, Analytics.averageUtilization engineers = JS.Fin q)
  /\ (Analytics.totalAvailable (Analytics.skillGapAnalysis projects engineers)
      = 0 ->
      Analytics.coverage (Analytics.skillGapAnalysis projects engineers)
      = JS.NaN)
  /\ (Analytics.totalAvailable (Analytics.skillGapAnalysis projects engineers)
      <> 0 ->
      Analytics.coverage (Analytics.skillGapAnalysis projects engineers)
      = JS.PosInf).
Proof.
  refine (conj eq_refl (conj (averageUtilization_finite engineers) _)).
  rewrite coverage_formula, Hrequired, div_of_Z. cbv iota.
  change (0 =? 0) with true. cbv iota.
  split; intros H.
  - rewrite H. reflexivity.
  - assert (Hpos : 0 < Analytics.totalAvailable
                         (Analytics.skillGapAnalysis projects engineers)).
    { assert (0 <= Analytics.totalAvailable
                      (Analytics.skillGapAnalysis projects engineers))
        by (simpl; unfold JS.Set_size; lia).
      lia. }
    apply Z.compare_gt_iff in Hpos. rewrite Hpos. reflexivity.
Qed.

(** No project requires a skill: with no engineer the coverage is NaN, with
    one engineer who knows Go it is +Infinity. *)
Lemma coverage_without_required_skills_witness :
  Analytics.totalRequired
    (Analytics.skillGapAnalysis SampleTeam.idleProjects [SampleTeam.gopher])
  = 0
  /\ Analytics.coverage
       (Analytics.skillGapAnalysis SampleTeam.idleProjects [SampleTeam.gopher])
     = JS.PosInf
  /\ Analytics.coverage (Analytics.skillGapAnalysis [] []) = JS.NaN.
Proof.
  split; [reflexivity | split].
  - apply (coverage_without_required_skills SampleTeam.idleProjects
             [SampleTeam.gopher] eq_refl).
    vm_compute. discriminate.
  - apply (coverage_without_required_skills [] [] eq_refl). reflexivity.
Defined.

(** At and around the thresholds: 91 of 100 is overloaded and 90 is not; an
    available capacity of 21 counts and 20 does not. *)
Lemma threshold_counts_witness :
  Dashboard.overloadedEngineers
    [SampleTeam.dashboardEngineer None 91 9;
     SampleTeam.dashboardEngineer (Some 100) 90 10] = 1%nat
  /\ Dashboard.availableEngineers
       [SampleTeam.dashboardEngineer None 79 21;
        SampleTeam.dashboardEngineer None 80 20] = 1%nat
  /\ Analytics.overloadedEngineers
       [SampleTeam.engineer "e1" [] 50 46 4;
        SampleTeam.engineer "e2" [] 50 45 5] = 1%nat
  /\ Analytics.underutilizedEngineers
       [SampleTeam.engineer "e1" [] 100 79 21;
        SampleTeam.engineer "e2" [] 100 80 20] = 1%nat.
Proof.
  destruct threshold_counts as ((D0 & A0 & O0 & U0) & HD & HA).
  refine (conj _ (conj _ (conj _ _))).
  - destruct (HD (SampleTeam.dashboardEngineer None 91 9)
                [SampleTeam.dashboardEngineer (Some 100) 90 10])
      as (H & _). rewrite H by (vm_compute; reflexivity).
    destruct (HD (SampleTeam.dashboardEngineer (Some 100) 90 10) [])
      as (_ & H' & _). rewrite H' by (vm_compute; discriminate).
    rewrite D0. reflexivity.
  - destruct (HD (SampleTeam.dashboardEngineer None 79 21)
                [SampleTeam.dashboardEngineer None 80 20])
      as (_ & _ & H & _). rewrite H by (vm_compute; reflexivity).
    destruct (HD (SampleTeam.dashboardEngineer None 80 20) [])
      as (_ & _ & _ & H'). rewrite H' by (vm_compute; discriminate).
    rewrite A0. reflexivity.
  - destruct (HA (SampleTeam.engineer "e1" [] 50 46 4)
                [SampleTeam.engineer "e2" [] 50 45 5])
      as (H & _). rewrite H by (vm_compute; reflexivity).
    destruct (HA (SampleTeam.engineer "e2" [] 50 45 5) [])
      as (_ & H' & _). rewrite H' by (vm_compute; discriminate).
    rewrite O0. reflexivity.
  - destruct (HA (SampleTeam.engineer "e1" [] 100 79 21)
                [SampleTeam.engineer "e2" [] 100 80 20])
      as (_ & _ & H & _). rewrite H by (vm_compute; reflexivity).
    destruct (HA (SampleTeam.engineer "e2" [] 100 80 20) [])
      as (_ & _ & _ & H'). rewrite H' by (vm_compute; discriminate).
    rewrite U0. reflexivity.
Defined.

(* ================================================================= *)
(** ** Durations and progress (Projects, Assignments) *)

Lemma sub_of_Z (x y : Z) :
  JS.sub (JS.of_Z x) (JS.of_Z y) = JS.Fin (inject_Z x - inject_Z y).
Proof. reflexivity. Qed.

Lemma Qeq_bool_difference (x y : Z) :
  Qeq_bool (inject_Z x - inject_Z y) 0 = (x =? y).
Proof.
  unfold Qeq_bool, Qminus, Qplus, Qopp, inject_Z. cbn [Qnum Qden].
  destruct (Z.eqb_spec x y) as [H | H].
  - apply Z.eqb_eq. lia.
  - apply Z.eqb_neq. lia.
Qed.

Lemma Qcompare_difference (x y : Z) :
  (inject_Z x - inject_Z y ?= 0)%Q = (x ?= y).
Proof.
  unfold Qcompare, Qminus, Qplus, Qopp, inject_Z. cbn [Qnum Qden].
  destruct (Z.compare_spec x y) as [H | H | H].
  - apply Z.compare_eq_iff. lia.
  - apply Z.compare_lt_iff. lia.
  - apply Z.compare_gt_iff. lia.
Qed.

(** The ceiling of a difference of milliseconds in days. *)
Lemma ceiling_of_days (x y : Z) :
  let k := Qceiling ((inject_Z x - inject_Z y) / inject_Z (1000 * 60 * 60 * 24)) in
  (k - 1) * JS.msPerDay < x - y <= k * JS.msPerDay.
Proof.
  unfold Qceiling, Qfloor, Qdiv, Qmult, Qinv, Qminus, Qplus, Qopp, inject_Z.
  cbn [Qnum Qden]. unfold JS.msPerDay.
  change (1000 * 60 * 60 * 24) with 86400000. cbv iota beta.
  cbn [Qnum Qden].
  change (Z.pos (1 * 1 * 86400000)) with 86400000.
  replace (- ((x * 1 + - y * 1) * 1)) with (y - x) by lia.
  pose proof (Z.div_mod (y - x) 86400000 ltac:(lia)) as Hdm.
  pose proof (Z.mod_pos_bound (y - x) 86400000 ltac:(lia)) as Hb.
  cbv zeta. lia.
Qed.

Section Durations.

Variable Date_parse : string -> JS.Date.

Lemma getDuration_valid (startDate endDate : string) (ts te : Z) :
  Date_parse startDate = Some ts ->
  Date_parse endDate = Some te ->
  Projects.getDuration Date_parse startDate endDate
  = JS.of_Z
      (Qceiling ((inject_Z te - inject_Z ts) / inject_Z (1000 * 60 * 60 * 24))).
Proof.
  intros Hs He. unfold Projects.getDuration. rewrite Hs, He.
  cbn [JS.getTime]. rewrite sub_of_Z. reflexivity.
Qed.

Lemma duration_valid (a : Assignments.Assignment) (ts te : Z) :
  Assignments.startDate a <> "" ->
  Assignments.endDate a <> "" ->
  Date_parse (Assignments.startDate a) = Some ts ->
  Date_parse (Assignments.endDate a) = Some te ->
  Assignments.duration Date_parse a
  = Some
      (JS.of_Z
         (Qceiling
            ((inject_Z te - inject_Z ts) / inject_Z (1000 * 60 * 60 * 24)))).
Proof.
  intros Hs0 He0 Hs He. unfold Assignments.duration.
  apply String.eqb_neq in Hs0, He0. rewrite Hs0, He0, Hs, He.
  cbn [JS.getTime negb andb]. rewrite sub_of_Z. reflexivity.
Qed.

End Durations.

(** C3, as amended.  For valid start and end dates the duration is the
    ceiling of [(end - start)] in whole days, [k] with
    [(k - 1) days < end - start <= k days], on the Projects page and in the
    "Duration" row of the Assignments page alike.  It is not clamped: it is
    0 or more when the end is not before the start, and negative when the
    end is a day or more before the start. *)
Theorem duration_signed_ceiling
  (Date_parse : string -> JS.Date) (a : Assignments.Assignment) (ts te : Z)
  (Hstart : Date_parse (Assignments.startDate a) = Some ts)
  (Hend : Date_parse (Assignments.endDate a) = Some te)
  (Hshown : Assignments.startDate a <> "" /\ Assignments.endDate a <> "") :
  exists k : Z,
    Projects.getDuration Date_parse
      (Assignments.startDate a) (Assignments.endDate a) = JS.of_Z k
    /\ Assignments.duration Date_parse a = Some (JS.of_Z k)
    /\ (k - 1) * JS.msPerDay < te - ts <= k * JS.msPerDay
    /\ (ts <= te -> 0 <= k)
    /\ (te + JS.msPerDay <= ts -> k < 0).
Proof.
  destruct Hshown as [Hs0 He0].
  exists (Qceiling ((inject_Z te - inject_Z ts) / inject_Z (1000 * 60 * 60 * 24))).
  pose proof (ceiling_of_days te ts) as Hk. cbv zeta in Hk.
  refine (conj _ (conj _ (conj Hk _))).
  - apply getDuration_valid; assumption.
  - apply duration_valid; assumption.
  - unfold JS.msPerDay in *. split; intros H; nia.
Qed.

(** From 10 to 20 January 2024: ten days. *)
Lemma duration_signed_ceiling_witness :
  JS.Date_of_iso_day "2024-01-10" = Some SampleDates.jan10
  /\ JS.Date_of_iso_day "2024-01-20" = Some SampleDates.jan20
  /\ exists k : Z,
       Projects.getDuration JS.Date_of_iso_day "2024-01-10" "2024-01-20"
       = JS.of_Z k
       /\ Assignments.duration JS.Date_of_iso_day
            (SampleDates.assignment "2024-01-10" "2024-01-20")
          = Some (JS.of_Z k)
       /\ (k - 1) * JS.msPerDay < SampleDates.jan20 - SampleDates.jan10
          <= k * JS.msPerDay
       /\ (SampleDates.jan10 <= SampleDates.jan20 -> 0 <= k)
       /\ (SampleDates.jan20 + JS.msPerDay <= SampleDates.jan10 -> k < 0).
Proof.
  refine (conj eq_refl (conj eq_refl _)).
  apply (duration_signed_ceiling JS.Date_of_iso_day
           (SampleDates.assignment "2024-01-10" "2024-01-20")
           SampleDates.jan10 SampleDates.jan20 eq_refl eq_refl).
  split; discriminate.
Defined.

(** C3 as stated fails: from 20 January back to 10 January the duration is
    -10 days, below 0, on both pages. *)
Lemma duration_negative :
  Projects.getDuration JS.Date_of_iso_day "2024-01-20" "2024-01-10"
  = JS.of_Z (-10)
  /\ Assignments.duration JS.Date_of_iso_day
       (SampleDates.assignment "2024-01-20" "2024-01-10")
     = Some (JS.of_Z (-10))
  /\ JS.gt (JS.of_Z 0)
       (Projects.getDuration JS.Date_of_iso_day "2024-01-20" "2024-01-10")
     = true.
Proof. vm_compute. repeat split. Qed.

Section Progress.

Variable Date_parse : string -> JS.Date.
Variable now : Z.

(** The progress, for valid dates, case by case on [total]. *)
Lemma getProgress_valid (startDate endDate : string) (ts te : Z) :
  Date_parse startDate = Some ts ->
  Date_parse endDate = Some te ->
  Projects.getProgress Date_parse now startDate endDate
  = if te =? ts
    then match now ?= ts with
         | Gt => JS.of_Z 100
         | Lt => JS.of_Z 0
         | Eq => JS.NaN
         end
    else JS.Fin
           (Qmin
              (Qmax
                 ((inject_Z now - inject_Z ts) / (inject_Z te - inject_Z ts)
                  * inject_Z 100)
                 (inject_Z 0))
              (inject_Z 100)).
Proof.
  intros Hs He. unfold Projects.getProgress. rewrite Hs, He.
  cbn [JS.getTime]. rewrite !sub_of_Z. unfold JS.div.
  rewrite Qeq_bool_difference, Qcompare_difference.
  destruct (te =? ts).
  - destruct (now ?= ts); reflexivity.
  - reflexivity.
Qed.

End Progress.

(** C4, as amended.  For valid dates with [end <> start] the progress is
    [(now - start) / (end - start) * 100] clamped to the range from 0 to 100.
    When [end = start] it is 100 for every [now] after the start and 0 for
    every [now] before it. *)
Theorem progress_clamped
  (Date_parse : string -> JS.Date) (now : Z) (startDate endDate : string)
  (ts te : Z)
  (Hstart : Date_parse startDate = Some ts)
  (Hend : Date_parse endDate = Some te) :
  (te <> ts ->
   exists q : Q,
     Projects.getProgress Date_parse now startDate endDate = JS.Fin q
     /\ q = Qmin
              (Qmax
                 ((inject_Z now - inject_Z ts) / (inject_Z te - inject_Z ts)
                  * 100)
                 0)
              100
     /\ (0 <= q)%Q /\ (q <= 100)%Q)
  /\ (te = ts -> ts < now ->
      Projects.getProgress Date_parse now startDate endDate = JS.of_Z 100)
  /\ (te = ts -> now < ts ->
      Projects.getProgress Date_parse now startDate endDate = JS.of_Z 0).
Proof.
  rewrite (getProgress_valid Date_parse now startDate endDate ts te Hstart Hend).
  refine (conj _ (conj _ _)).
  - intros Hne. apply Z.eqb_neq in Hne. rewrite Hne.
    eexists. split; [reflexivity | split; [reflexivity | split]].
    + apply Q.min_glb; [apply Q.le_max_r | discriminate].
    + apply Q.le_min_r.
  - intros Heq Hlt. apply Z.eqb_eq in Heq. rewrite Heq.
    apply Z.compare_gt_iff in Hlt. rewrite Hlt. reflexivity.
  - intros Heq Hlt. apply Z.eqb_eq in Heq. rewrite Heq.
    apply Z.compare_lt_iff in Hlt. rewrite Hlt. reflexivity.
Qed.

(** A project from 10 to 20 January 2024, read on the 15th: half done. *)
Lemma progress_clamped_witness :
  JS.Date_of_iso_day "2024-01-10" = Some SampleDates.jan10
  /\ JS.Date_of_iso_day "2024-01-20" = Some SampleDates.jan20
  /\ SampleDates.jan20 <> SampleDates.jan10
  /\ exists q : Q,
       Projects.getProgress JS.Date_of_iso_day Sample.now
         "2024-01-10" "2024-01-20" = JS.Fin q
       /\ (q == 50)%Q.
Proof.
  refine (conj eq_refl (conj eq_refl _)).
  assert (Hne : SampleDates.jan20 <> SampleDates.jan10) by discriminate.
  refine (conj Hne _).
  destruct (progress_clamped JS.Date_of_iso_day Sample.now
              "2024-01-10" "2024-01-20" SampleDates.jan10 SampleDates.jan20
              eq_refl eq_refl) as (H & _).
  destruct (H Hne) as (q & Hq & Hval & _).
  exists q. split; [exact Hq |].
  rewrite Hval. vm_compute. reflexivity.
Defined.

(** C4 as stated fails when [end = start]: read before the start the
    progress is 0, not 100, and read at the very instant of the start it is
    NaN. *)
Lemma progress_of_one_instant :
  Projects.getProgress JS.Date_of_iso_day (SampleDates.jan10 - 1)
    "2024-01-10" "2024-01-10" = JS.of_Z 0
  /\ Projects.getProgress JS.Date_of_iso_day SampleDates.jan10
       "2024-01-10" "2024-01-10" = JS.NaN
  /\ Projects.getProgress JS.Date_of_iso_day (SampleDates.jan10 + 1)
       "2024-01-10" "2024-01-10" = JS.of_Z 100.
Proof. vm_compute. repeat split. Qed.

(* ================================================================= *)
(** ** The calendar of the Timeline page *)

Lemma date_interval (start end_ date : JS.Date) :
  JS.date_ge date start && JS.date_le date end_ = true
  <-> Spec.containsInstant start end_ date.
Proof.
  unfold JS.date_ge, JS.date_le, Spec.containsInstant.
  destruct start as [s |], end_ as [e |], date as [i |]; simpl;
    try (split; [discriminate | intros (s' & e' & i' & H1 & H2 & H3 & _);
                                discriminate]).
  - rewrite andb_true_iff, !Z.leb_le. split.
    + intros H. exists s, e, i. auto.
    + intros (s' & e' & i' & H1 & H2 & H3 & H).
      inversion H1; inversion H2; inversion H3. lia.
  - rewrite andb_false_r.
    split; [discriminate | intros (s' & e' & i' & H1 & H2 & H3 & _);
                           discriminate].
Qed.

(** The days of January 2024 at local midnight, in a zone within a day of
    UTC. *)
Lemma Date_local_january_2024 (LocalTZA d : Z) :
  - JS.msPerDay < LocalTZA < JS.msPerDay ->
  0 <= d <= 32 ->
  JS.Date_local LocalTZA 2024 0 d
  = Some ((19722 + d) * JS.msPerDay - LocalTZA).
Proof.
  intros Htz Hd. unfold JS.Date_local, JS.MakeDay.
  change ((0 <=? 2024) && (2024 <=? 99)) with false. cbv iota zeta.
  change (JS.days_from_civil (2024 + 0 / 12) (0 mod 12 + 1) 1) with 19723.
  unfold JS.TimeClip, JS.msPerDay in *.
  replace ((19723 + d - 1) * 86400000 - LocalTZA)
    with ((19722 + d) * 86400000 - LocalTZA) by lia.
  destruct (Z.leb_spec (Z.abs ((19722 + d) * 86400000 - LocalTZA))
              8640000000000000) as [_ | H]; [reflexivity | lia].
Qed.

Lemma getDaysInMonth_january_2024 (LocalTZA currentMonth : Z) :
  - JS.msPerDay < LocalTZA < JS.msPerDay ->
  JS.getFullYear LocalTZA currentMonth = 2024 ->
  JS.getMonth LocalTZA currentMonth = 0 ->
  Timeline.getDaysInMonth LocalTZA currentMonth = 31%nat.
Proof.
  intros Htz Hy Hm. unfold Timeline.getDaysInMonth. rewrite Hy, Hm.
  unfold JS.Date_local, JS.MakeDay.
  change ((0 <=? 2024) && (2024 <=? 99)) with false. cbv iota zeta.
  change (JS.days_from_civil (2024 + (0 + 1) / 12) ((0 + 1) mod 12 + 1) 1 + 0 - 1)
    with 19753.
  unfold JS.TimeClip, JS.msPerDay in *.
  destruct (Z.leb_spec (Z.abs (19753 * 86400000 - LocalTZA))
              8640000000000000) as [_ | H]; [| lia].
  unfold JS.getDate, JS.local_civil, JS.msPerDay.
  replace (19753 * 86400000 - LocalTZA + LocalTZA) with (19753 * 86400000)
    by lia.
  rewrite Z.div_mul by discriminate. reflexivity.
Qed.

Section Calendar.

Variable Date_parse : string -> JS.Date.
Variable LocalTZA : Z.
Variable assignments : list Timeline.Assignment.
Variable selectedProject selectedEngineer : string.
Variable currentMonth : Z.

Local Abbreviation filtered :=
  (Timeline.filteredAssignments assignments selectedProject selectedEngineer).

Local Abbreviation bucket :=
  (Timeline.getAssignmentsForDate Date_parse assignments
     selectedProject selectedEngineer).

Lemma bucket_spec (date : JS.Date) (a : Timeline.Assignment) :
  In a (bucket date)
  <-> In a filtered
      /\ Spec.containsInstant (Date_parse (Timeline.startDate a))
           (Date_parse (Timeline.endDate a)) date.
Proof.
  unfold Timeline.getAssignmentsForDate.
  rewrite filter_In, date_interval. reflexivity.
Qed.

Lemma calendarDays_cells (d : Z) (cell : list Timeline.Assignment) :
  In (d, cell)
    (Timeline.calendarDays Date_parse LocalTZA assignments
       selectedProject selectedEngineer currentMonth)
  <-> 1 <= d <= Z.of_nat (Timeline.getDaysInMonth LocalTZA currentMonth)
      /\ cell
         = bucket
             (JS.Date_local LocalTZA (JS.getFullYear LocalTZA currentMonth)
                (JS.getMonth LocalTZA currentMonth) d).
Proof.
  unfold Timeline.calendarDays. rewrite in_map_iff. split.
  - intros (i & Heq & Hi). apply in_seq in Hi. inversion Heq. subst.
    split; [lia | reflexivity].
  - intros (Hd & Hcell). exists (Z.to_nat (d - 1)). split.
    + replace (Z.of_nat (Z.to_nat (d - 1)) + 1) with d by lia.
      rewrite Hcell. reflexivity.
    + apply in_seq. lia.
Qed.

Lemma calendarDays_numbers :
  map fst
    (Timeline.calendarDays Date_parse LocalTZA assignments
       selectedProject selectedEngineer currentMonth)
  = map (fun i => Z.of_nat i + 1)
      (seq 0 (Timeline.getDaysInMonth LocalTZA currentMonth)).
Proof.
  unfold Timeline.calendarDays. rewrite map_map. reflexivity.
Qed.

End Calendar.

(** Bucketing on instants.  The cell of a day holds exactly the (filtered)
    assignments with [start <= day <= end], the day being the instant that
    the calendar builds for it and both ends included.  So on the calendar of
    January 2024, an assignment whose dates are the calendar's own instants
    of the 10th and the 20th is in the cells of the days 10 to 20 and in no
    other: not in the cell of the 9th, not in that of the 21st. *)
Theorem calendar_buckets
  (Date_parse : string -> JS.Date) (LocalTZA : Z)
  (assignments : list Timeline.Assignment)
  (selectedProject selectedEngineer : string) (currentMonth : Z) :
  let filtered :=
    Timeline.filteredAssignments assignments selectedProject selectedEngineer in
  let bucket :=
    Timeline.getAssignmentsForDate Date_parse assignments
      selectedProject selectedEngineer in
  let days :=
    Timeline.calendarDays Date_parse LocalTZA assignments
      selectedProject selectedEngineer currentMonth in
  (forall date a,
      In a (bucket date)
      <-> In a filtered
          /\ Spec.containsInstant (Date_parse (Timeline.startDate a))
               (Date_parse (Timeline.endDate a)) date)
  /\ (forall d cell,
        In (d, cell) days ->
        cell
        = bucket
            (JS.Date_local LocalTZA (JS.getFullYear LocalTZA currentMonth)
               (JS.getMonth LocalTZA currentMonth) d))
  /\ (- JS.msPerDay < LocalTZA < JS.msPerDay ->
      JS.getFullYear LocalTZA currentMonth = 2024 ->
      JS.getMonth LocalTZA currentMonth = 0 ->
      forall a,
        In a filtered ->
        Date_parse (Timeline.startDate a) = JS.Date_local LocalTZA 2024 0 10 ->
        Date_parse (Timeline.endDate a) = JS.Date_local LocalTZA 2024 0 20 ->
        map fst days = map Z.of_nat (seq 1 31)
        /\ (forall d cell, In (d, cell) days -> (In a cell <-> 10 <= d <= 20))
        /\ (forall cell, In (9, cell) days -> ~ In a cell)
        /\ (forall cell, In (21, cell) days -> ~ In a cell)).
Proof.
  intros filtered bucket days.
  assert (Hbucket : forall date a,
             In a (bucket date)
             <-> In a filtered
                 /\ Spec.containsInstant (Date_parse (Timeline.startDate a))
                      (Date_parse (Timeline.endDate a)) date)
    by (intros; apply bucket_spec).
  refine (conj Hbucket (conj _ _)).
  - intros d cell H.
    exact (proj2 (proj1 (calendarDays_cells Date_parse LocalTZA assignments
                           selectedProject selectedEngineer currentMonth
                           d cell) H)).
  - intros Htz Hy Hm a Ha Hs He.
    pose proof (getDaysInMonth_january_2024 LocalTZA currentMonth Htz Hy Hm)
      as Hn.
    assert (Hcell : forall d cell,
               In (d, cell) days -> (In a cell <-> 10 <= d <= 20)).
    { intros d cell H.
      apply (proj1 (calendarDays_cells Date_parse LocalTZA assignments
                      selectedProject selectedEngineer currentMonth d cell))
        in H.
      destruct H as (Hd & Hc). rewrite Hn in Hd. rewrite Hc, Hy, Hm.
      fold bucket. rewrite Hbucket, Hs, He.
      rewrite !Date_local_january_2024 by lia.
      unfold Spec.containsInstant, JS.msPerDay. split.
      - intros (_ & s & e & i & H1 & H2 & H3 & H).
        clear - H1 H2 H3 H Hd.
        assert (s = (19722 + 10) * 86400000 - LocalTZA) by congruence.
        assert (e = (19722 + 20) * 86400000 - LocalTZA) by congruence.
        assert (i = (19722 + d) * 86400000 - LocalTZA) by congruence.
        clear H1 H2 H3. lia.
      - intros H. split; [exact Ha |].
        do 3 eexists. repeat split; lia. }
    refine (conj _ (conj Hcell (conj _ _))).
    + unfold days. rewrite calendarDays_numbers, Hn. reflexivity.
    + intros cell H Hin. apply (Hcell 9 cell H) in Hin. lia.
    + intros cell H Hin. apply (Hcell 21 cell H) in Hin. lia.
Qed.

(** January 2024 seen from a zone at UTC, with the dates given as
    [2024-01-10] and [2024-01-20]. *)
Lemma calendar_buckets_witness :
  (- JS.msPerDay < 0 < JS.msPerDay
   /\ JS.getFullYear 0 SampleDates.jan10 = 2024
   /\ JS.getMonth 0 SampleDates.jan10 = 0
   /\ In SampleDates.tenToTwenty
        (Timeline.filteredAssignments [SampleDates.tenToTwenty] "all" "all")
   /\ JS.Date_of_iso_day (Timeline.startDate SampleDates.tenToTwenty)
      = JS.Date_local 0 2024 0 10
   /\ JS.Date_of_iso_day (Timeline.endDate SampleDates.tenToTwenty)
      = JS.Date_local 0 2024 0 20)
  /\ map fst
       (Timeline.calendarDays JS.Date_of_iso_day 0 [SampleDates.tenToTwenty]
          "all" "all" SampleDates.jan10)
     = map Z.of_nat (seq 1 31)
  /\ (forall d cell,
        In (d, cell)
          (Timeline.calendarDays JS.Date_of_iso_day 0
             [SampleDates.tenToTwenty] "all" "all" SampleDates.jan10) ->
        (In SampleDates.tenToTwenty cell <-> 10 <= d <= 20)).
Proof.
  assert (Htz : - JS.msPerDay < 0 < JS.msPerDay) by (split; reflexivity).
  assert (Hin : In SampleDates.tenToTwenty
                  (Timeline.filteredAssignments [SampleDates.tenToTwenty]
                     "all" "all")) by (left; reflexivity).
  refine (conj (conj Htz (conj eq_refl (conj eq_refl
            (conj Hin (conj eq_refl eq_refl))))) _).
  destruct (calendar_buckets JS.Date_of_iso_day 0 [SampleDates.tenToTwenty]
              "all" "all" SampleDates.jan10) as (_ & _ & H).
  destruct (H Htz eq_refl eq_refl SampleDates.tenToTwenty Hin eq_refl eq_refl)
    as (H1 & H2 & _).
  exact (conj H1 H2).
Defined.

(** The same assignment away from UTC.  A date-only string is read as
    midnight UTC, the cells are built at local midnight: five and a half
    hours east of UTC the cell of the 10th is empty, five hours west of UTC
    that of the 20th is. *)
Lemma calendar_away_from_UTC :
  SampleDates.busyDays
    (Timeline.calendarDays JS.Date_of_iso_day 19800000
       [SampleDates.tenToTwenty] "all" "all" SampleDates.jan10)
  = [11; 12; 13; 14; 15; 16; 17; 18; 19; 20]
  /\ SampleDates.busyDays
       (Timeline.calendarDays JS.Date_of_iso_day (-18000000)
          [SampleDates.tenToTwenty] "all" "all" SampleDates.jan10)
     = [10; 11; 12; 13; 14; 15; 16; 17; 18; 19]
  /\ SampleDates.busyDays
       (Timeline.calendarDays JS.Date_of_iso_day 0
          [SampleDates.tenToTwenty] "all" "all" SampleDates.jan10)
     = [10; 11; 12; 13; 14; 15; 16; 17; 18; 19; 20].
Proof. vm_compute. repeat split. Qed.

(** C5.  The claim's example on the page: the dates [2024-01-10] and
    [2024-01-20], read as the [Date] constructor reads a date without a time
    (midnight UTC), against the cells of January 2024, which the grid builds
    at local midnight.  At UTC the assignment is in the cells of the days 10
    to 20 and in no other, as the claim says.  East of UTC the cell of the
    10th does not hold it; west of UTC the cell of the 20th does not. *)
Theorem calendar_example_by_zone
  (Date_parse : string -> JS.Date) (LocalTZA : Z)
  (assignments : list Timeline.Assignment)
  (selectedProject selectedEngineer : string) (currentMonth : Z)
  (a : Timeline.Assignment) :
  - JS.msPerDay < LocalTZA < JS.msPerDay ->
  JS.getFullYear LocalTZA currentMonth = 2024 ->
  JS.getMonth LocalTZA currentMonth = 0 ->
  In a (Timeline.filteredAssignments assignments selectedProject
          selectedEngineer) ->
  Date_parse (Timeline.startDate a) = JS.Date_of_iso_day "2024-01-10" ->
  Date_parse (Timeline.endDate a) = JS.Date_of_iso_day "2024-01-20" ->
  let days :=
    Timeline.calendarDays Date_parse LocalTZA assignments
      selectedProject selectedEngineer currentMonth in
  map fst days = map Z.of_nat (seq 1 31)
  /\ forall d cell,
       In (d, cell) days ->
       (LocalTZA = 0 -> (In a cell <-> 10 <= d <= 20))
       /\ (0 < LocalTZA -> (In a cell <-> 11 <= d <= 20))
       /\ (LocalTZA < 0 -> (In a cell <-> 10 <= d <= 19)).
Proof.
  intros Htz Hy Hm Ha Hs He days.
  assert (E10 : JS.Date_of_iso_day "2024-01-10" = Some (19732 * JS.msPerDay))
    by (vm_compute; reflexivity).
  assert (E20 : JS.Date_of_iso_day "2024-01-20" = Some (19742 * JS.msPerDay))
    by (vm_compute; reflexivity).
  rewrite E10 in Hs. rewrite E20 in He. clear E10 E20.
  pose proof (getDaysInMonth_january_2024 LocalTZA currentMonth Htz Hy Hm)
    as Hn.
  split.
  - unfold days. rewrite calendarDays_numbers, Hn. reflexivity.
  - intros d cell H.
    apply (proj1 (calendarDays_cells Date_parse LocalTZA assignments
                    selectedProject selectedEngineer currentMonth d cell))
      in H.
    destruct H as (Hd & Hc). rewrite Hn in Hd.
    rewrite Hy, Hm in Hc. rewrite Date_local_january_2024 in Hc by lia.
    assert (Hmem : In a cell
                   <-> 19732 * JS.msPerDay
                       <= (19722 + d) * JS.msPerDay - LocalTZA
                       <= 19742 * JS.msPerDay).
    { rewrite Hc, bucket_spec, Hs, He. unfold Spec.containsInstant. split.
      - intros (_ & s & e & i & Es & Ee & Ei & Hb).
        assert (s = 19732 * JS.msPerDay) by congruence.
        assert (e = 19742 * JS.msPerDay) by congruence.
        assert (i = (19722 + d) * JS.msPerDay - LocalTZA) by congruence.
        subst s e i. exact Hb.
      - intros Hb. split; [exact Ha |].
        exists (19732 * JS.msPerDay), (19742 * JS.msPerDay),
          ((19722 + d) * JS.msPerDay - LocalTZA).
        refine (conj eq_refl (conj eq_refl (conj eq_refl Hb))). }
    clear Hc Hs He Ha Hy Hm Hn. unfold JS.msPerDay in *.
    refine (conj _ (conj _ _)); intros Hz; rewrite Hmem; lia.
Qed.

(** Five and a half hours east of UTC: the assignment from [2024-01-10] to
    [2024-01-20] is in the cells of the days 11 to 20, not in that of the
    10th. *)
Lemma calendar_example_by_zone_witness :
  (- JS.msPerDay < 19800000 < JS.msPerDay
   /\ JS.getFullYear 19800000 SampleDates.jan10 = 2024
   /\ JS.getMonth 19800000 SampleDates.jan10 = 0
   /\ In SampleDates.tenToTwenty
        (Timeline.filteredAssignments [SampleDates.tenToTwenty] "all" "all")
   /\ JS.Date_of_iso_day (Timeline.startDate SampleDates.tenToTwenty)
      = JS.Date_of_iso_day "2024-01-10"
   /\ JS.Date_of_iso_day (Timeline.endDate SampleDates.tenToTwenty)
      = JS.Date_of_iso_day "2024-01-20")
  /\ map fst
       (Timeline.calendarDays JS.Date_of_iso_day 19800000
          [SampleDates.tenToTwenty] "all" "all" SampleDates.jan10)
     = map Z.of_nat (seq 1 31)
  /\ (forall d cell,
        In (d, cell)
          (Timeline.calendarDays JS.Date_of_iso_day 19800000
             [SampleDates.tenToTwenty] "all" "all" SampleDates.jan10) ->
        (In SampleDates.tenToTwenty cell <-> 11 <= d <= 20)).
Proof.
  assert (Htz : - JS.msPerDay < 19800000 < JS.msPerDay)
    by (split; reflexivity).
  assert (Hy : JS.getFullYear 19800000 SampleDates.jan10 = 2024)
    by (vm_compute; reflexivity).
  assert (Hm : JS.getMonth 19800000 SampleDates.jan10 = 0)
    by (vm_compute; reflexivity).
  assert (Hin : In SampleDates.tenToTwenty
                  (Timeline.filteredAssignments [SampleDates.tenToTwenty]
                     "all" "all")) by (left; reflexivity).
  refine (conj (conj Htz (conj Hy (conj Hm (conj Hin (conj eq_refl eq_refl)))))
            _).
  destruct (calendar_example_by_zone JS.Date_of_iso_day 19800000
              [SampleDates.tenToTwenty] "all" "all" SampleDates.jan10
              SampleDates.tenToTwenty Htz Hy Hm Hin eq_refl eq_refl)
    as (Hdays & Hcells).
  split; [exact Hdays |].
  intros d cell H. destruct (Hcells d cell H) as (_ & Heast & _).
  apply Heast. reflexivity.
Defined.

(* ================================================================= *)
(** ** The three-month series of the engineer's dashboard *)

Section Monthly.

Variable Date_parse : string -> JS.Date.
Variable LocalTZA : Z.
Variable now : Z.




End Monthly.


(* ================================================================= *)
(** ** Suitable engineers *)

Lemma isCandidate_spec (requiredSkills : option (list string))
  (engineer : AuthContext.User) :
  Engine.isCandidate requiredSkills engineer = true
  <-> exists skill,
        In skill (Engine.skills_of (AuthContext.skills engineer))
        /\ In skill (Engine.skills_of requiredSkills).
Proof.
  unfold Engine.isCandidate. rewrite existsb_exists. split.
  - intros (skill & Hin & Hex). apply existsb_exists in Hex.
    destruct Hex as (r & Hr & Heq). apply String.eqb_eq in Heq. subst r.
    exists skill. auto.
  - intros (skill & Hin & Hr). exists skill. split; [exact Hin |].
    apply existsb_exists. exists skill. split; [exact Hr |].
    apply String.eqb_refl.
Qed.

(** C9.  For a project whose required-skills list is empty or absent,
    [findSuitableEngineers] returns the empty list, whatever the engineers:
    a candidate has a skill in common with the requirement. *)
Theorem no_requirement_no_candidate (engineers : list AuthContext.User) :
  Engine.findSuitableEngineers (Some []) engineers = []
  /\ Engine.findSuitableEngineers None engineers = []
  /\ (forall requiredSkills engineer,
        In engineer (Engine.findSuitableEngineers requiredSkills engineers)
        <-> In engineer engineers
            /\ exists skill,
                 In skill (Engine.skills_of (AuthContext.skills engineer))
                 /\ In skill (Engine.skills_of requiredSkills)).
Proof.
  assert (Hnone : forall required,
             Engine.skills_of required = [] ->
             Engine.findSuitableEngineers required engineers = []).
  { intros required Hreq. unfold Engine.findSuitableEngineers.
    induction engineers as [| e l IH]; [reflexivity |].
    cbn [filter].
    destruct (Engine.isCandidate required e) eqn:Hc; [| exact IH].
    apply isCandidate_spec in Hc. destruct Hc as (skill & _ & Hin).
    rewrite Hreq in Hin. destruct Hin. }
  refine (conj (Hnone (Some []) eq_refl) (conj (Hnone None eq_refl) _)).
  intros requiredSkills engineer. unfold Engine.findSuitableEngineers.
  rewrite filter_In, isCandidate_spec. reflexivity.
Qed.

(* ================================================================= *)
(** ** Sorting *)

Lemma positive_result_of_Z (z : Z) : JS.positive_result (JS.of_Z z) = (0 <? z).
Proof.
  unfold JS.positive_result, JS.gt, JS.of_Z, Qcompare, inject_Z.
  cbn [Qnum Qden]. rewrite !Z.mul_1_r. unfold Z.ltb.
  rewrite (Z.compare_antisym 0 z). destruct (0 ?= z); reflexivity.
Qed.

Lemma positive_result_difference (x y : Z) :
  JS.positive_result (JS.sub (JS.of_Z x) (JS.of_Z y)) = (y <? x).
Proof.
  rewrite sub_of_Z. unfold JS.positive_result, JS.gt, JS.of_Z.
  change (inject_Z 0) with 0%Q. rewrite Qcompare_difference.
  unfold Z.ltb. rewrite (Z.compare_antisym x y).
  destruct (x ?= y); reflexivity.
Qed.

Section StableSort.

Variable A : Type.
Variable after : A -> A -> bool.

Variable key : A -> Z.

Local Abbreviation sort := (fold_right (JS.sort_insert after) []).
Local Abbreviation by_key := (Spec.by_key after key).

Lemma sort_insert_perm (x : A) (l : list A) :
  Permutation (JS.sort_insert after x l) (x :: l).
Proof.
  induction l as [| y l IH]; simpl.
  - apply Permutation_refl.
  - destruct (after x y).
    + apply perm_trans with (y :: x :: l).
      * apply perm_skip. exact IH.
      * apply perm_swap.
    + apply Permutation_refl.
Qed.

Lemma sort_perm (l : list A) : Permutation (sort l) l.
Proof.
  induction l as [| x l IH]; simpl.
  - apply perm_nil.
  - apply perm_trans with (x :: sort l).
    + apply sort_insert_perm.
    + apply perm_skip. exact IH.
Qed.

Lemma sort_In (l : list A) (x : A) : In x (sort l) <-> In x l.
Proof.
  split; apply Permutation_in;
    [apply sort_perm | apply Permutation_sym, sort_perm].
Qed.

Lemma sort_insert_sorted (x : A) (l : list A) :
  (forall y, In y l -> after x y = (key y <? key x)) ->
  StronglySorted (fun a b => key a <= key b) l ->
  StronglySorted (fun a b => key a <= key b) (JS.sort_insert after x l).
Proof.
  intros Hafter Hsorted.
  induction Hsorted as [| y l Hl IH Hy]; simpl.
  - constructor; constructor.
  - rewrite (Hafter y (or_introl eq_refl)).
    destruct (Z.ltb_spec (key y) (key x)) as [Hlt | Hge].
    + constructor.
      * apply IH. intros z Hz. apply Hafter. right. exact Hz.
      * apply (Permutation_Forall (Permutation_sym (sort_insert_perm x l))).
        constructor; [lia | exact Hy].
    + constructor.
      * constructor; assumption.
      * constructor; [exact Hge |].
        apply Forall_forall. intros z Hz.
        rewrite Forall_forall in Hy. specialize (Hy z Hz). lia.
Qed.

Lemma sort_sorted (l : list A) :
  by_key l -> StronglySorted (fun a b => key a <= key b) (sort l).
Proof.
  induction l as [| x l IH]; intros Hkey; simpl.
  - constructor.
  - apply sort_insert_sorted.
    + intros y Hy. apply Hkey; [left; reflexivity |].
      right. apply sort_In. exact Hy.
    + apply IH. intros a b Ha Hb. apply Hkey; right; assumption.
Qed.

(** Stability: the elements of one key keep their order. *)
Lemma sort_insert_stable (k : Z) (x : A) (l : list A) :
  (forall y, In y l -> after x y = (key y <? key x)) ->
  filter (fun a => key a =? k) (JS.sort_insert after x l)
  = filter (fun a => key a =? k) (x :: l).
Proof.
  induction l as [| y l IH]; intros Hafter; [reflexivity |].
  cbn [JS.sort_insert]. rewrite (Hafter y (or_introl eq_refl)).
  destruct (Z.ltb_spec (key y) (key x)) as [Hlt | Hge]; [| reflexivity].
  cbn [filter]. rewrite IH by (intros z Hz; apply Hafter; right; exact Hz).
  cbn [filter].
  destruct (Z.eqb_spec (key y) k), (Z.eqb_spec (key x) k);
    try reflexivity; lia.
Qed.

Lemma sort_stable (k : Z) (l : list A) :
  by_key l ->
  filter (fun a => key a =? k) (sort l) = filter (fun a => key a =? k) l.
Proof.
  induction l as [| x l IH]; intros Hkey; [reflexivity |].
  cbn [fold_right]. rewrite sort_insert_stable.
  - cbn [filter].
    rewrite IH by (intros a b Ha Hb; apply Hkey; right; assumption).
    reflexivity.
  - intros y Hy. apply Hkey; [left; reflexivity |].
    right. apply sort_In. exact Hy.
Qed.

End StableSort.

Lemma In_firstn (A : Type) (n : nat) (l : list A) (x : A) :
  In x (firstn n l) -> In x l.
Proof.
  revert l. induction n as [| n IH]; intros [| y l] H; cbn [firstn] in H;
    try contradiction.
  destruct H as [H | H]; [left; exact H | right; apply IH, H].
Qed.

Lemma StronglySorted_weaken (A : Type) (R R' : A -> A -> Prop) (l : list A) :
  (forall a b, In a l -> In b l -> R a b -> R' a b) ->
  StronglySorted R l -> StronglySorted R' l.
Proof.
  intros HR Hs. induction Hs as [| x l Hl IH Hx].
  - constructor.
  - constructor.
    + apply IH. intros a b Ha Hb. apply HR; right; assumption.
    + apply Forall_forall. intros y Hy. rewrite Forall_forall in Hx.
      apply HR; [left; reflexivity | right; exact Hy | apply Hx; exact Hy].
Qed.

(* ================================================================= *)
(** ** Upcoming assignments (Timeline) *)

Section Upcoming.

Variable Date_parse : string -> JS.Date.
Variable now : Z.

Local Abbreviation start a := (Date_parse (Timeline.startDate a)).
Local Abbreviation compareStart :=
  (fun a b => JS.sub (JS.getTime (start a)) (JS.getTime (start b))).
Local Abbreviation startsLater :=
  (fun a b => JS.positive_result (compareStart a b)).
Local Abbreviation upcoming_test :=
  (fun a => JS.date_ge (start a) (Some now)).

Lemma compareStart_by_key (l : list Timeline.Assignment) :
  Spec.by_key startsLater (fun a => Spec.instant (start a))
    (filter upcoming_test l).
Proof.
  intros x y Hx Hy. apply filter_In in Hx, Hy.
  destruct Hx as (_ & Hx), Hy as (_ & Hy).
  apply date_ge_onOrAfter in Hx, Hy.
  destruct Hx as (s & Hs & _), Hy as (t & Ht & _).
  rewrite Hs, Ht. cbn [JS.getTime Spec.instant].
  apply positive_result_difference.
Qed.

End Upcoming.

(** C8.  The upcoming list is the first ten entries of an arrangement
    [sorted] of exactly the (filtered) assignments whose start date is on or
    after [now] ([sel] being any test for that), in ascending order of the
    start date, assignments with one start date keeping their order.  So
    every entry starts on or after [now], an assignment that starts before
    [now] is never in the list, and the list has ten entries at most. *)
Theorem upcoming_sorted
  (Date_parse : string -> JS.Date) (now : Z)
  (assignments : list Timeline.Assignment)
  (selectedProject selectedEngineer : string)
  (sel : Timeline.Assignment -> bool)
  (Hsel : forall a,
      sel a = true
      <-> Spec.onOrAfter (Date_parse (Timeline.startDate a)) now) :
  let filtered :=
    Timeline.filteredAssignments assignments selectedProject selectedEngineer in
  let upcoming :=
    Timeline.upcomingAssignments Date_parse now assignments
      selectedProject selectedEngineer in
  exists sorted : list Timeline.Assignment,
    upcoming = firstn 10 sorted
    /\ Permutation sorted (filter sel filtered)
    /\ StronglySorted
         (fun a b =>
            Spec.notAfter (Date_parse (Timeline.startDate a))
              (Date_parse (Timeline.startDate b)))
         sorted
    /\ (forall t,
          filter
            (fun a => Spec.instant (Date_parse (Timeline.startDate a)) =? t)
            sorted
          = filter
              (fun a => Spec.instant (Date_parse (Timeline.startDate a)) =? t)
              (filter sel filtered))
    /\ (forall a,
          In a upcoming ->
          In a filtered
          /\ Spec.onOrAfter (Date_parse (Timeline.startDate a)) now)
    /\ (forall a s,
          Date_parse (Timeline.startDate a) = Some s ->
          s < now ->
          ~ In a upcoming)
    /\ (List.length upcoming <= 10)%nat.
Proof.
  intros filtered upcoming.
  set (test := fun a => JS.date_ge (Date_parse (Timeline.startDate a)) (Some now)).
  assert (Htest : filter test filtered = filter sel filtered).
  { apply filter_agree. intros a _.
    eapply bool_agree; [apply date_ge_onOrAfter | apply Hsel]. }
  pose proof (compareStart_by_key Date_parse now filtered) as Hkey.
  fold test in Hkey.
  set (cmp := fun a b =>
                JS.sub (JS.getTime (Date_parse (Timeline.startDate a)))
                  (JS.getTime (Date_parse (Timeline.startDate b)))) in *.
  set (sorted := JS.Array_sort cmp (filter test filtered)).
  assert (Hperm : Permutation sorted (filter test filtered))
    by apply sort_perm.
  assert (Hin : forall a,
             In a sorted ->
             In a filtered
             /\ Spec.onOrAfter (Date_parse (Timeline.startDate a)) now).
  { intros a Ha. apply (Permutation_in _ Hperm) in Ha.
    apply filter_In in Ha. destruct Ha as (Ha & Ht).
    apply date_ge_onOrAfter in Ht. auto. }
  assert (Hup : forall a, In a upcoming -> In a sorted).
  { intros a Ha. apply (In_firstn _ _ _ _ Ha). }
  exists sorted. refine (conj eq_refl (conj _ (conj _ (conj _
                   (conj _ (conj _ _)))))).
  - rewrite <- Htest. exact Hperm.
  - apply StronglySorted_weaken
      with (R := fun a b =>
                   Spec.instant (Date_parse (Timeline.startDate a))
                   <= Spec.instant (Date_parse (Timeline.startDate b))).
    + intros a b Ha Hb Hle.
      destruct (Hin a Ha) as (_ & s & Hs & _).
      destruct (Hin b Hb) as (_ & t & Ht & _).
      rewrite Hs, Ht in Hle |- *. exists s, t. auto.
    + apply (sort_sorted _ _ _ _ Hkey).
  - intros t. rewrite <- Htest. apply (sort_stable _ _ _ t _ Hkey).
  - intros a Ha. apply Hin, Hup, Ha.
  - intros a s Hs Hlt Ha. destruct (Hin a (Hup a Ha)) as (_ & t & Ht & Hle).
    rewrite Hs in Ht. inversion Ht. lia.
  - apply firstn_le_length.
Qed.

(* ================================================================= *)
(** ** Objects as counters *)

Lemma own_put (o : JS.object) (k k' : string) (v : JS.value) :
  JS.own (JS.put o k v) k' = if (k =? k')%string then Some v else JS.own o k'.
Proof.
  induction o as [| [k0 v0] o IH]; cbn [JS.put JS.own].
  - reflexivity.
  - destruct (String.eqb_spec k0 k) as [-> | Hne]; cbn [JS.own].
    + destruct (String.eqb_spec k k'); reflexivity.
    + rewrite IH. destruct (String.eqb_spec k0 k') as [-> | Hne'].
      * destruct (String.eqb_spec k k'); [congruence | reflexivity].
      * reflexivity.
Qed.

Lemma own_tally (g : string -> JS.value) (ks : list string) (k : string) :
  JS.own (map (fun s => (s, g s)) ks) k
  = if existsb (String.eqb k) ks then Some (g k) else None.
Proof.
  induction ks as [| s ks IH]; cbn [map JS.own existsb].
  - reflexivity.
  - rewrite IH, (String.eqb_sym k s).
    destruct (String.eqb_spec s k) as [-> | _]; reflexivity.
Qed.

Lemma put_fresh (o : JS.object) (k : string) (v : JS.value) :
  JS.own o k = None -> JS.put o k v = o ++ [(k, v)].
Proof.
  induction o as [| [k0 v0] o IH]; cbn [JS.put JS.own app]; intros H.
  - reflexivity.
  - destruct (k0 =? k)%string; [discriminate |]. rewrite IH by exact H.
    reflexivity.
Qed.

Lemma put_tally (g : string -> JS.value) (ks : list string) (k : string)
  (v : JS.value) :
  NoDup ks ->
  In k ks ->
  JS.put (map (fun s => (s, g s)) ks) k v
  = map (fun s => (s, if (s =? k)%string then v else g s)) ks.
Proof.
  intros Hnd. induction Hnd as [| s ks Hs Hnd IH]; intros Hin.
  - destruct Hin.
  - cbn [map JS.put]. destruct (String.eqb_spec s k) as [-> | Hne].
    + f_equal. apply map_ext_in. intros s' Hs'.
      destruct (String.eqb_spec s' k) as [-> | _]; [contradiction | reflexivity].
    + f_equal. apply IH. destruct Hin as [Heq | Hin]; [congruence | exact Hin].
Qed.

(* ================================================================= *)
(** ** First occurrences *)

Lemma first_seen_In (l : list string) (x : string) :
  In x (Spec.first_seen l) <-> In x l.
Proof.
  induction l as [| y l IH]; cbn [Spec.first_seen]; [reflexivity |].
  cbn [In]. rewrite filter_In, IH, negb_true_iff, String.eqb_neq.
  destruct (string_dec y x) as [-> | Hne]; [tauto |].
  split.
  - intros [H | (H & _)]; [left; exact H | right; exact H].
  - intros [H | H]; [left; exact H | right].
    split; [exact H | congruence].
Qed.

Lemma first_seen_NoDup (l : list string) : NoDup (Spec.first_seen l).
Proof.
  induction l as [| y l IH]; cbn [Spec.first_seen]; constructor.
  - rewrite filter_In, String.eqb_refl. intros (_ & H). discriminate.
  - apply NoDup_filter. exact IH.
Qed.

Lemma first_seen_snoc (l : list string) (s : string) :
  Spec.first_seen (l ++ [s])
  = if existsb (String.eqb s) l then Spec.first_seen l
    else Spec.first_seen l ++ [s].
Proof.
  induction l as [| y l IH]; cbn [app Spec.first_seen existsb].
  - reflexivity.
  - rewrite IH. destruct (String.eqb_spec s y) as [-> | Hne]; cbn [orb].
    + destruct (existsb (String.eqb y) l); [reflexivity |].
      rewrite filter_app. cbn [filter]. rewrite String.eqb_refl. cbn [negb].
      rewrite app_nil_r. reflexivity.
    + destruct (existsb (String.eqb s) l); [reflexivity |].
      rewrite filter_app. cbn [filter].
      apply String.eqb_neq in Hne. rewrite Hne. reflexivity.
Qed.

Lemma existsb_eqb_In (l : list string) (s : string) :
  existsb (String.eqb s) l = true <-> In s l.
Proof.
  rewrite existsb_exists. split.
  - intros (x & Hx & Heq). apply String.eqb_eq in Heq. subst x. exact Hx.
  - intros H. exists s. split; [exact H | apply String.eqb_refl].
Qed.

Lemma count_occ_zero (l : list string) (s : string) :
  existsb (String.eqb s) l = false -> count_occ string_dec l s = 0%nat.
Proof.
  intros H. apply count_occ_not_In. intros Hin.
  apply existsb_eqb_In in Hin. congruence.
Qed.

Lemma count_occ_snoc (l : list string) (s k : string) :
  count_occ string_dec (l ++ [s]) k
  = (count_occ string_dec l k + if (k =? s)%string then 1 else 0)%nat.
Proof.
  rewrite count_occ_app. cbn [count_occ].
  destruct (string_dec s k) as [-> | Hne].
  - rewrite String.eqb_refl. reflexivity.
  - destruct (String.eqb_spec k s); [congruence | reflexivity].
Qed.

Lemma existsb_first_seen (l : list string) (s : string) :
  existsb (String.eqb s) (Spec.first_seen l) = existsb (String.eqb s) l.
Proof.
  apply bool_agree with (P := In s l).
  - rewrite existsb_eqb_In. apply first_seen_In.
  - apply existsb_eqb_In.
Qed.

(* ================================================================= *)
(** ** The skill demand (Analytics) *)

Section SkillDemand.

(** One step of the counting loop: [acc[skill] = (acc[skill] || 0) + 1]. *)
Local Abbreviation countSkill :=
  (fun (acc : JS.object) (skill : string) =>
     JS.set acc skill (JS.plus_one (JS.or_zero (JS.get acc skill)))).

Local Abbreviation tally l :=
  (map (fun s => (s, JS.VNum (Z.of_nat (count_occ string_dec l s))))
     (Spec.first_seen l)).

Lemma skillDemand_fold (projects : list Analytics.Project) :
  Analytics.skillDemand projects
  = fold_left countSkill (Spec.requiredLabels projects) [].
Proof.
  unfold Analytics.skillDemand, JS.reduce, Spec.requiredLabels.
  generalize (@nil (string * JS.value)) as acc.
  induction projects as [| p projects IH]; intros acc; cbn [fold_left map List.concat].
  - reflexivity.
  - rewrite fold_left_app, IH.
    destruct (Analytics.requiredSkills p); reflexivity.
Qed.

Lemma set_plain (o : JS.object) (k : string) (v : JS.value) :
  JS.inherited k = false -> JS.set o k v = JS.put o k v.
Proof.
  intros H. unfold JS.set.
  destruct (String.eqb_spec k "__proto__") as [-> | _];
    [discriminate | reflexivity].
Qed.

(** On labels that name no member of [Object.prototype], the loop builds the
    tally of the labels in the order of their first occurrence. *)
Lemma countSkill_tally (l : list string) :
  Forall (fun s => JS.inherited s = false) l ->
  fold_left countSkill l [] = tally l.
Proof.
  induction l as [| s l IH] using rev_ind; intros Hplain; [reflexivity |].
  apply Forall_app in Hplain. destruct Hplain as (Hl & Hs).
  inversion Hs as [| ? ? Hs' _]; subst.
  rewrite fold_left_app. cbn [fold_left]. rewrite (IH Hl).
  rewrite set_plain by exact Hs'. unfold JS.get.
  rewrite own_tally, existsb_first_seen, first_seen_snoc, Hs'.
  destruct (existsb (String.eqb s) l) eqn:Hin.
  - assert (Hpos : (0 < count_occ string_dec l s)%nat).
    { apply count_occ_In, existsb_eqb_In, Hin. }
    cbn [JS.or_zero].
    destruct (Z.eqb_spec (Z.of_nat (count_occ string_dec l s)) 0) as [H0 | _];
      [lia |].
    cbn [JS.plus_one]. rewrite put_tally.
    + apply map_ext. intros k. rewrite count_occ_snoc.
      destruct (k =? s)%string eqn:Hk.
      * apply String.eqb_eq in Hk. subst k. do 2 f_equal. lia.
      * do 3 f_equal. lia.
    + apply first_seen_NoDup.
    + apply first_seen_In, existsb_eqb_In, Hin.
  - cbn [JS.or_zero JS.plus_one]. rewrite put_fresh.
    + rewrite map_app. cbn [map]. f_equal.
      * apply map_ext_in. intros k Hk. rewrite count_occ_snoc.
        destruct (String.eqb_spec k s) as [-> | _].
        -- apply (proj1 (first_seen_In l s)) in Hk.
           apply (proj2 (existsb_eqb_In l s)) in Hk. congruence.
        -- do 3 f_equal. lia.
      * rewrite count_occ_snoc, String.eqb_refl, (count_occ_zero l s Hin).
        reflexivity.
    + rewrite own_tally, existsb_first_seen, Hin. reflexivity.
Qed.

End SkillDemand.

Lemma skillDemand_tally (projects : list Analytics.Project) :
  Forall (fun s => JS.inherited s = false) (Spec.requiredLabels projects) ->
  Analytics.skillDemand projects
  = map (fun skill => (skill, JS.VNum (Spec.occurrences skill projects)))
      (Spec.first_seen (Spec.requiredLabels projects)).
Proof.
  intros H. rewrite skillDemand_fold. apply countSkill_tally. exact H.
Qed.

(** A label that no list repeats occurs once per project that requires it. *)
Lemma occurrences_projects (skill : string)
  (projects : list Analytics.Project) :
  (forall p, In p projects ->
             NoDup (Spec.labels_of (Analytics.requiredSkills p))) ->
  Spec.occurrences skill projects = Spec.projectsRequiring skill projects.
Proof.
  unfold Spec.occurrences, Spec.projectsRequiring, Spec.requiredLabels.
  intros Hnd. f_equal.
  induction projects as [| p projects IH]; cbn [map List.concat filter];
    [reflexivity |].
  rewrite count_occ_app, IH by (intros q Hq; apply Hnd; right; exact Hq).
  specialize (Hnd p (or_introl eq_refl)). unfold Spec.requires.
  destruct (existsb (String.eqb skill)
              (Spec.labels_of (Analytics.requiredSkills p))) eqn:Hin.
  - apply existsb_eqb_In in Hin.
    rewrite (proj1 (NoDup_count_occ' string_dec _) Hnd skill Hin).
    reflexivity.
  - rewrite (count_occ_zero _ _ Hin). reflexivity.
Qed.

Lemma filter_none (A : Type) (p : A -> bool) (l : list A) :
  (forall a, In a l -> p a = false) -> filter p l = [].
Proof.
  induction l as [| a l IH]; intros H; cbn [filter]; [reflexivity |].
  rewrite (H a (or_introl eq_refl)). apply IH.
  intros b Hb. apply H. right. exact Hb.
Qed.

Lemma filter_all (A : Type) (p : A -> bool) (l : list A) :
  (forall a, In a l -> p a = true) -> filter p l = l.
Proof.
  induction l as [| a l IH]; intros H; cbn [filter]; [reflexivity |].
  rewrite (H a (or_introl eq_refl)). f_equal. apply IH.
  intros b Hb. apply H. right. exact Hb.
Qed.

Lemma filter_complement_perm (A : Type) (p : A -> bool) (l : list A) :
  Permutation (filter p l ++ filter (fun a => negb (p a)) l) l.
Proof.
  induction l as [| a l IH]; cbn [filter]; [constructor |].
  destruct (p a); cbn [negb app].
  - constructor. exact IH.
  - apply Permutation_sym, Permutation_cons_app, Permutation_sym, IH.
Qed.

Lemma Object_entries_perm (o : JS.object) :
  Permutation (JS.Object_entries o) o.
Proof.
  unfold JS.Object_entries.
  eapply perm_trans; [| apply (filter_complement_perm _ JS.is_index)].
  apply Permutation_app_tail, sort_perm.
Qed.

(** Without array-index keys, the entries come in creation order. *)
Lemma Object_entries_creation_order (o : JS.object) :
  (forall e, In e o -> JS.array_index (fst e) = None) ->
  JS.Object_entries o = o.
Proof.
  intros H. unfold JS.Object_entries.
  rewrite filter_none, filter_all; [reflexivity | |];
    intros e He; unfold JS.is_index; rewrite (H e He); reflexivity.
Qed.

Lemma descending_by_count (l : list (string * JS.value)) :
  (forall e, In e l -> exists n, snd e = JS.VNum n) ->
  Spec.by_key
    (fun x y => JS.positive_result (JS.value_sub (snd y) (snd x)))
    (fun e => - Spec.count e) l.
Proof.
  intros Hnum x y Hx Hy.
  destruct (Hnum x Hx) as (cx & Hcx), (Hnum y Hy) as (cy & Hcy).
  unfold Spec.count. rewrite Hcx, Hcy. cbn [JS.value_sub].
  rewrite positive_result_of_Z.
  destruct (Z.ltb_spec 0 (cy - cx)), (Z.ltb_spec (- cy) (- cx));
    try reflexivity; lia.
Qed.

(** C7, as amended.  On skill labels that name no member of
    [Object.prototype], [skillDemand] holds one entry for each distinct label
    of the projects' required-skills lists, with the number of occurrences of
    the label in those lists, which is the number of projects requiring it
    when no list repeats a label.  The ranking is a rearrangement of these
    entries in descending order of the count, entries of one count keeping
    the order of [Object.entries]; that order is the order of first
    occurrence when no label is an array index.  [topSkills] is the first five
    of the ranking. *)
Theorem skill_demand_ranking (projects : list Analytics.Project)
  (Hplain : Forall (fun s => JS.inherited s = false)
              (Spec.requiredLabels projects)) :
  let demand := Analytics.skillDemand projects in
  let ranking := Analytics.skillRanking projects in
  demand
  = map (fun skill => (skill, JS.VNum (Spec.occurrences skill projects)))
      (Spec.first_seen (Spec.requiredLabels projects))
  /\ (forall skill,
        In skill (Spec.requiredLabels projects) ->
        JS.own demand skill = Some (JS.VNum (Spec.occurrences skill projects)))
  /\ ((forall p, In p projects ->
                 NoDup (Spec.labels_of (Analytics.requiredSkills p))) ->
      forall skill,
        Spec.occurrences skill projects = Spec.projectsRequiring skill projects)
  /\ Permutation ranking demand
  /\ StronglySorted (fun x y => Spec.count y <= Spec.count x) ranking
  /\ (forall c,
        filter (fun e => Spec.count e =? c) ranking
        = filter (fun e => Spec.count e =? c) (JS.Object_entries demand))
  /\ ((forall skill, In skill (Spec.requiredLabels projects) ->
                     JS.array_index skill = None) ->
      JS.Object_entries demand = demand)
  /\ Analytics.topSkills projects = firstn 5 ranking.
Proof.
  intros demand ranking.
  pose proof (skillDemand_tally projects Hplain) as Hdemand.
  fold demand in Hdemand.
  assert (Hkeys : forall e, In e demand ->
                            In (fst e) (Spec.requiredLabels projects)
                            /\ exists n, snd e = JS.VNum n).
  { intros e He. rewrite Hdemand in He. apply in_map_iff in He.
    destruct He as (s & <- & Hs). apply (proj1 (first_seen_In _ s)) in Hs.
    split; [exact Hs | eexists; reflexivity]. }
  assert (Hkey : Spec.by_key
                   (fun x y => JS.positive_result (JS.value_sub (snd y) (snd x)))
                   (fun e => - Spec.count e) (JS.Object_entries demand)).
  { apply descending_by_count. intros e He.
    apply (Permutation_in _ (Object_entries_perm demand)) in He.
    apply Hkeys, He. }
  refine (conj Hdemand (conj _ (conj _ (conj _ (conj _ (conj _
            (conj _ eq_refl))))))).
  - intros skill Hin. rewrite Hdemand.
    rewrite (own_tally (fun s => JS.VNum (Spec.occurrences s projects))).
    rewrite existsb_first_seen.
    apply (proj2 (existsb_eqb_In _ skill)) in Hin. rewrite Hin. reflexivity.
  - intros Hnd skill. apply occurrences_projects, Hnd.
  - eapply perm_trans; [apply sort_perm | apply Object_entries_perm].
  - apply StronglySorted_weaken
      with (R := fun a b => - Spec.count a <= - Spec.count b).
    + intros a b _ _ H. lia.
    + apply (sort_sorted _ _ _ _ Hkey).
  - intros c.
    rewrite (filter_agree _ (fun e => Spec.count e =? c)
               (fun e => - Spec.count e =? - c) ranking),
            (filter_agree _ (fun e => Spec.count e =? c)
               (fun e => - Spec.count e =? - c) (JS.Object_entries demand)).
    + apply (sort_stable _ _ _ (- c) _ Hkey).
    + intros e _.
      destruct (Z.eqb_spec (Spec.count e) c),
               (Z.eqb_spec (- Spec.count e) (- c)); try reflexivity; lia.
    + intros e _.
      destruct (Z.eqb_spec (Spec.count e) c),
               (Z.eqb_spec (- Spec.count e) (- c)); try reflexivity; lia.
  - intros Hindex. apply Object_entries_creation_order.
    intros e He. apply Hindex, Hkeys, He.
Qed.

(** The three sample projects: React 3, Node 2, then Go and Rust with 1 each,
    Go first as it was seen first. *)
Lemma skill_demand_ranking_witness :
  Forall (fun s => JS.inherited s = false)
    (Spec.requiredLabels SampleTeam.projects)
  /\ Analytics.skillDemand SampleTeam.projects
     = map
         (fun skill =>
            (skill, JS.VNum (Spec.occurrences skill SampleTeam.projects)))
         (Spec.first_seen (Spec.requiredLabels SampleTeam.projects))
  /\ StronglySorted (fun x y => Spec.count y <= Spec.count x)
       (Analytics.skillRanking SampleTeam.projects)
  /\ Analytics.skillRanking SampleTeam.projects
     = [("React", JS.VNum 3); ("Node", JS.VNum 2);
        ("Go", JS.VNum 1); ("Rust", JS.VNum 1)].
Proof.
  assert (Hplain : Forall (fun s => JS.inherited s = false)
                     (Spec.requiredLabels SampleTeam.projects))
    by (repeat constructor).
  destruct (skill_demand_ranking SampleTeam.projects Hplain)
    as (H1 & _ & _ & _ & H5 & _).
  refine (conj Hplain (conj H1 (conj H5 _))).
  vm_compute. reflexivity.
Defined.

(** C7 as stated fails in three ways.  A project that lists React twice
    makes the count 2 with one project requiring it.  The labels "10" and
    "9", seen in this order and required once each, are ranked "9" first.
    The label "constructor" gets a value that is no number, and the label
    "__proto__" gets no entry. *)
Lemma skill_demand_exceptions :
  (Analytics.skillDemand
     [SampleTeam.project "p1" (Some ["React"; "React"])]
   = [("React", JS.VNum 2)]
   /\ Spec.projectsRequiring "React"
        [SampleTeam.project "p1" (Some ["React"; "React"])] = 1)
  /\ (Spec.first_seen
        (Spec.requiredLabels
           [SampleTeam.project "p1" (Some ["10"]);
            SampleTeam.project "p2" (Some ["9"])])
      = ["10"; "9"]
      /\ Analytics.skillRanking
           [SampleTeam.project "p1" (Some ["10"]);
            SampleTeam.project "p2" (Some ["9"])]
         = [("9", JS.VNum 1); ("10", JS.VNum 1)])
  /\ Analytics.skillDemand
       [SampleTeam.project "p1" (Some ["constructor"; "__proto__"])]
     = [("constructor", JS.VOther)].
Proof. vm_compute. repeat split. Qed.

(** On 15 January 2024: the assignment under way is left out, the two to
    come are listed by start date. *)
Lemma upcoming_sorted_witness :
  (forall a,
      JS.date_ge (JS.Date_of_iso_day (Timeline.startDate a))
        (Some Sample.now) = true
      <-> Spec.onOrAfter (JS.Date_of_iso_day (Timeline.startDate a))
            Sample.now)
  /\ (exists sorted,
         Timeline.upcomingAssignments JS.Date_of_iso_day Sample.now
           SampleDates.timelineAssigns "all" "all"
         = firstn 10 sorted
         /\ Permutation sorted
              (filter
                 (fun a =>
                    JS.date_ge (JS.Date_of_iso_day (Timeline.startDate a))
                      (Some Sample.now))
                 (Timeline.filteredAssignments SampleDates.timelineAssigns
                    "all" "all")))
  /\ map Timeline._id
       (Timeline.upcomingAssignments JS.Date_of_iso_day Sample.now
          SampleDates.timelineAssigns "all" "all")
     = ["a3"; "a2"].
Proof.
  assert (Hsel : forall a,
             JS.date_ge (JS.Date_of_iso_day (Timeline.startDate a))
               (Some Sample.now) = true
             <-> Spec.onOrAfter (JS.Date_of_iso_day (Timeline.startDate a))
                   Sample.now)
    by (intros a; apply date_ge_onOrAfter).
  refine (conj Hsel (conj _ _)).
  - destruct (upcoming_sorted JS.Date_of_iso_day Sample.now
                SampleDates.timelineAssigns "all" "all" _ Hsel)
      as (sorted & H1 & H2 & _).
    exists sorted. exact (conj H1 H2).
  - vm_compute. reflexivity.
Defined.


(* ================================================================= *)
(** ** The status of an assignment (Timeline, Assignments) *)

Lemma lt_difference (e now w : Z) :
  JS.lt (JS.sub (JS.getTime (Some e)) (JS.of_Z now)) (JS.of_Z w)
  = (e - now <? w).
Proof.
  cbn [JS.getTime]. rewrite sub_of_Z.
  unfold JS.lt, JS.gt, JS.of_Z, Qcompare, Qminus, Qplus, Qopp, inject_Z.
  cbn [Qnum Qden]. change (Z.pos (1 * 1)) with 1.
  replace (w * 1) with w by lia.
  replace ((e * 1 + - now * 1) * 1) with (e - now) by lia.
  unfold Z.ltb. rewrite (Z.compare_antisym w (e - now)).
  destruct (w ?= e - now); reflexivity.
Qed.

Section Status.

Variable Date_parse : string -> JS.Date.
Variable now : Z.

(** The three cases for a valid end date, and the case of an invalid one. *)
Lemma getStatusText_cases (endDate : string) :
  Timeline.getStatusText Date_parse now endDate
  = match Date_parse endDate with
    | Some e =>
        if e <? now then "Completed"
        else if e - now <? 7 * 24 * 60 * 60 * 1000 then "Ending Soon"
        else "Active"
    | None => "Active"
    end.
Proof.
  unfold Timeline.getStatusText.
  destruct (Date_parse endDate) as [e |].
  - rewrite lt_difference. reflexivity.
  - reflexivity.
Qed.

Lemma getStatusText_same (endDate : string) :
  Assignments.getStatusText Date_parse now endDate
  = Timeline.getStatusText Date_parse now endDate.
Proof. reflexivity. Qed.

Lemma getStatusColor_by_text (endDate : string) :
  Timeline.getStatusColor Date_parse now endDate
  = (let text := Timeline.getStatusText Date_parse now endDate in
     if (text =? "Completed")%string then "bg-gray-100 text-gray-800"
     else if (text =? "Ending Soon")%string
          then "bg-yellow-100 text-yellow-800"
          else "bg-green-100 text-green-800")
  /\ Assignments.getStatusColor Date_parse now endDate
     = (let text := Assignments.getStatusText Date_parse now endDate in
        if (text =? "Completed")%string then "bg-gray-100 text-gray-800"
        else if (text =? "Ending Soon")%string
             then "bg-yellow-100 text-yellow-800 hover:bg-yello-700 hover:text-white"
             else "bg-green-100 text-green-800 hover:bg-green-700 hover:text-white").
Proof.
  unfold Timeline.getStatusColor, Timeline.getStatusText,
    Assignments.getStatusColor, Assignments.getStatusText.
  cbv zeta.
  destruct (JS.date_lt (Date_parse endDate) (Some now)).
  - split; reflexivity.
  - destruct (JS.lt (JS.sub (JS.getTime (Date_parse endDate)) (JS.of_Z now))
                (JS.of_Z (7 * 24 * 60 * 60 * 1000))); split; reflexivity.
Qed.

End Status.

(** The status of an entry by its end date.  With a valid end date it is
    "Completed" when the end is before [now], "Ending Soon" when the end is
    less than seven days ahead, and "Active" from seven days on; with an end
    date that cannot be read it is "Active".  The Assignments page gives the
    same text as the Timeline page, and on both pages the colour is the one
    of the text. *)
Theorem status_by_end_date
  (Date_parse : string -> JS.Date) (now : Z) (endDate : string) :
  let text := Timeline.getStatusText Date_parse now endDate in
  (forall e,
      Date_parse endDate = Some e ->
      (e < now -> text = "Completed")
      /\ (now <= e < now + 7 * JS.msPerDay -> text = "Ending Soon")
      /\ (now + 7 * JS.msPerDay <= e -> text = "Active"))
  /\ (Date_parse endDate = None -> text = "Active")
  /\ Assignments.getStatusText Date_parse now endDate = text
  /\ Timeline.getStatusColor Date_parse now endDate
     = (if (text =? "Completed")%string then "bg-gray-100 text-gray-800"
        else if (text =? "Ending Soon")%string
             then "bg-yellow-100 text-yellow-800"
             else "bg-green-100 text-green-800")
  /\ Assignments.getStatusColor Date_parse now endDate
     = (if (text =? "Completed")%string then "bg-gray-100 text-gray-800"
        else if (text =? "Ending Soon")%string
             then "bg-yellow-100 text-yellow-800 hover:bg-yello-700 hover:text-white"
             else "bg-green-100 text-green-800 hover:bg-green-700 hover:text-white").
Proof.
  intros text.
  pose proof (getStatusText_cases Date_parse now endDate) as Hcases.
  fold text in Hcases.
  destruct (getStatusColor_by_text Date_parse now endDate) as (Hc1 & Hc2).
  refine (conj _ (conj _ (conj eq_refl (conj Hc1 Hc2)))).
  - intros e He. rewrite He in Hcases. unfold JS.msPerDay.
    refine (conj _ (conj _ _)); intros H; rewrite Hcases.
    + destruct (Z.ltb_spec e now); [reflexivity | lia].
    + destruct (Z.ltb_spec e now); [lia |].
      destruct (Z.ltb_spec (e - now) (7 * 24 * 60 * 60 * 1000));
        [reflexivity | lia].
    + destruct (Z.ltb_spec e now); [lia |].
      destruct (Z.ltb_spec (e - now) (7 * 24 * 60 * 60 * 1000));
        [lia | reflexivity].
  - intros He. rewrite He in Hcases. exact Hcases.
Qed.

(** The status and the capacity window agree on valid dates.  An assignment
    with a valid end date counts towards the capacity of its engineer on the
    Dashboard exactly when the Timeline does not show it as "Completed"; an
    assignment whose end date cannot be read counts for no engineer, though
    its status is "Active". *)
Theorem counted_unless_completed
  (Date_parse : string -> JS.Date) (now : Z)
  (assigns : list Dashboard.Assignment) (engineer : AuthContext.User)
  (a : Dashboard.Assignment) :
  (forall e,
      Date_parse (Dashboard.endDate a) = Some e ->
      (In a (Dashboard.engineerAssignments Date_parse now assigns engineer)
       <-> In a assigns
           /\ Dashboard.getEngineerId a = AuthContext._id engineer
           /\ Timeline.getStatusText Date_parse now (Dashboard.endDate a)
              <> "Completed"))
  /\ (Date_parse (Dashboard.endDate a) = None ->
      ~ In a (Dashboard.engineerAssignments Date_parse now assigns engineer)
      /\ Timeline.getStatusText Date_parse now (Dashboard.endDate a)
         = "Active").
Proof.
  unfold Dashboard.engineerAssignments. split.
  - intros e He.
    rewrite filter_In, andb_true_iff, String.eqb_eq, getStatusText_cases, He.
    cbn [JS.date_ge JS.date_le].
    destruct (Z.ltb_spec e now) as [Hlt | Hge].
    + destruct (Z.leb_spec now e) as [Hle | _]; [lia |].
      split.
      * intros (_ & _ & Hf). discriminate.
      * intros (_ & _ & Hn). exfalso. apply Hn. reflexivity.
    + destruct (Z.leb_spec now e) as [_ | Hgt]; [| lia].
      destruct (e - now <? 7 * 24 * 60 * 60 * 1000);
        (split; intros (H1 & H2 & _);
         refine (conj H1 (conj H2 _)); [discriminate | reflexivity]).
  - intros He. rewrite filter_In, getStatusText_cases, He.
    cbn [JS.date_ge JS.date_le]. rewrite andb_false_r.
    split; [intros (_ & H); discriminate | reflexivity].
Qed.

(* ================================================================= *)
(** ** Active and completed assignments (EngineerDashboard) *)

Lemma active_or_completed (d : JS.Date) (now : Z) :
  match d with
  | Some e =>
      JS.date_ge d (Some now) = negb (JS.date_lt d (Some now))
  | None =>
      JS.date_ge d (Some now) = false /\ JS.date_lt d (Some now) = false
  end.
Proof.
  destruct d as [e |]; cbn [JS.date_ge JS.date_le JS.date_lt].
  - destruct (Z.leb_spec now e), (Z.ltb_spec e now); try reflexivity; lia.
  - split; reflexivity.
Qed.

Lemma filter_split_count (A : Type) (p q v : A -> bool) (l : list A) :
  (forall a, v a = true -> p a = negb (q a)) ->
  (forall a, v a = false -> p a = false /\ q a = false) ->
  (List.length (filter p l) + List.length (filter q l)
   = List.length (filter v l))%nat.
Proof.
  intros Hvalid Hinvalid.
  induction l as [| a l IH]; [reflexivity |].
  cbn [filter]. destruct (v a) eqn:Hv.
  - rewrite (Hvalid a Hv).
    destruct (q a); cbn [negb List.length]; lia.
  - destruct (Hinvalid a Hv) as (Hp & Hq). rewrite Hp, Hq. exact IH.
Qed.

Lemma filter_length_le (A : Type) (p : A -> bool) (l : list A) :
  (List.length (filter p l) <= List.length l)%nat.
Proof.
  induction l as [| a l IH]; cbn [filter List.length]; [lia |].
  destruct (p a); cbn [List.length]; lia.
Qed.

(** The engineer's assignments split into active and completed ones: no
    assignment is both, the two numbers of the status chart add up to the
    number of assignments whose end date is valid, so to the number of all
    assignments exactly when every end date can be read. *)
Theorem active_completed_split
  (Date_parse : string -> JS.Date) (now : Z)
  (assignments : list EngineerDashboard.Assignment) :
  let active :=
    EngineerDashboard.activeAssignments Date_parse now assignments in
  let completed :=
    EngineerDashboard.completedAssignments Date_parse now assignments in
  let valid a :=
    match Date_parse (EngineerDashboard.endDate a) with
    | Some _ => true
    | None => false
    end in
  (forall a, In a active -> In a completed -> False)
  /\ (List.length active + List.length completed
      = List.length (filter valid assignments))%nat
  /\ (List.length active + List.length completed
      <= List.length assignments)%nat
  /\ (List.length active + List.length completed = List.length assignments
      <-> forall a, In a assignments ->
                    Date_parse (EngineerDashboard.endDate a) <> None)%nat
  /\ EngineerDashboard.assignmentStatusData Date_parse now assignments
     = [List.length active; List.length completed].
Proof.
  intros active completed valid.
  assert (Hcount : (List.length active + List.length completed
                    = List.length (filter valid assignments))%nat).
  { apply filter_split_count; intros a; unfold valid;
      pose proof (active_or_completed
                    (Date_parse (EngineerDashboard.endDate a)) now) as H;
      destruct (Date_parse (EngineerDashboard.endDate a));
      intros Hv; try discriminate; exact H. }
  pose proof (filter_length_le _ valid) as Hle.
  refine (conj _ (conj Hcount (conj _ (conj _ eq_refl)))).
  - intros a Ha Hc. unfold active, completed in *.
    apply filter_In in Ha, Hc. destruct Ha as (_ & Ha), Hc as (_ & Hc).
    pose proof (active_or_completed
                  (Date_parse (EngineerDashboard.endDate a)) now) as H.
    destruct (Date_parse (EngineerDashboard.endDate a)).
    + rewrite H, Hc in Ha. discriminate.
    + destruct H as (H & _). rewrite H in Ha. discriminate.
  - rewrite Hcount. apply Hle.
  - rewrite Hcount. clear Hcount. split.
    + induction assignments as [| a l IH]; intros H b Hb; [destruct Hb |].
      cbn [filter List.length] in H. specialize (Hle l).
      destruct (valid a) eqn:Hv; cbn [List.length] in H; [| lia].
      destruct Hb as [<- | Hb].
      * unfold valid in Hv.
        destruct (Date_parse (EngineerDashboard.endDate a));
          [discriminate | discriminate].
      * apply IH; [lia | exact Hb].
    + intros H. f_equal. apply filter_all. intros a Ha.
      specialize (H a Ha). unfold valid.
      destruct (Date_parse (EngineerDashboard.endDate a));
        [reflexivity | contradiction].
Qed.

(* ================================================================= *)
(** ** The engineer's own cards (Dashboard) *)

Lemma filter_filter_andb (A : Type) (p q : A -> bool) (l : list A) :
  filter q (filter p l) = filter (fun a => p a && q a) l.
Proof.
  induction l as [| a l IH]; [reflexivity |].
  cbn [filter]. destruct (p a); cbn [filter andb].
  - rewrite IH. reflexivity.
  - exact IH.
Qed.

(** Computed over the assignments of the list that belong to the engineer,
    the three cards of the engineer's own view show what the manager's row
    for this engineer shows: the same allocation, the same available
    capacity, the same number of current assignments. *)
Theorem engineer_cards_agree
  (Date_parse : string -> JS.Date) (now : Z)
  (assigns : list Dashboard.Assignment) (user : AuthContext.User) :
  let mine :=
    filter
      (fun a => (Dashboard.getEngineerId a =? AuthContext._id user)%string)
      assigns in
  let row := Dashboard.withCapacity Date_parse now assigns user in
  Dashboard.totalAllocation Date_parse now mine = Dashboard.currentCapacity row
  /\ Dashboard.myAvailableCapacity Date_parse now user mine
     = Dashboard.availableCapacity row
  /\ Dashboard.currentAssignments Date_parse now mine
     = List.length (Dashboard.assignments row).
Proof.
  intros mine row.
  assert (Hmine :
            filter
              (fun a => JS.date_ge (Date_parse (Dashboard.endDate a)) (Some now))
              mine
            = Dashboard.engineerAssignments Date_parse now assigns user).
  { unfold mine. rewrite filter_filter_andb. reflexivity. }
  unfold Dashboard.totalAllocation, Dashboard.myAvailableCapacity,
    Dashboard.currentAssignments.
  rewrite Hmine. repeat split.
Qed.

(* ================================================================= *)
(** ** The capacity bar (Dashboard) *)

(** [c / m * 100 >= k] for a positive [m], on exact rationals. *)
Lemma ge_percentage (c k : Z) (p : positive) :
  JS.ge (JS.mul (JS.div (JS.of_Z c) (JS.of_Z (Z.pos p))) (JS.of_Z 100))
    (JS.of_Z k)
  = (k * Z.pos p <=? 100 * c).
Proof.
  rewrite div_of_Z. change (Z.pos p =? 0) with false. cbv iota.
  unfold JS.mul, JS.ge, JS.of_Z, Qcompare, Qdiv, Qmult, Qinv, inject_Z.
  cbn [Qnum Qden]. rewrite Pos.mul_1_l, Pos.mul_1_r.
  replace (c * 1 * 100 * 1) with (100 * c) by lia.
  unfold Z.leb. rewrite (Z.compare_antisym (100 * c) (k * Z.pos p)).
  destruct (100 * c ?= k * Z.pos p); reflexivity.
Qed.

Lemma getCapacityColor_positive (c m : Z) :
  0 < m ->
  Dashboard.getCapacityColor c m
  = if 9 * m <=? 10 * c then "bg-red-500"
    else if 3 * m <=? 4 * c then "bg-yellow-500"
    else "bg-green-500".
Proof.
  intros Hm. destruct m as [| p | p]; try lia.
  unfold Dashboard.getCapacityColor. cbv zeta. rewrite !ge_percentage.
  destruct (Z.leb_spec (90 * Z.pos p) (100 * c)),
           (Z.leb_spec (9 * Z.pos p) (10 * c)); try lia; try reflexivity.
  destruct (Z.leb_spec (75 * Z.pos p) (100 * c)),
           (Z.leb_spec (3 * Z.pos p) (4 * c)); try lia; reflexivity.
Qed.

(** The colour of the bar for a positive maximum capacity: red from 90% of
    it, yellow from 75%, green below.  An engineer counted as overloaded has
    a red bar, and an engineer at exactly 90% has a red bar without being
    counted. *)
Theorem capacity_bar_colour (e : Dashboard.EngineerWithCapacity)
  (Hcap : 0 < JS.or_default (AuthContext.maxCapacity (Dashboard.engineer e))
               100) :
  let cap :=
    JS.or_default (AuthContext.maxCapacity (Dashboard.engineer e)) 100 in
  let cur := Dashboard.currentCapacity e in
  (Dashboard.capacityBar e = "bg-red-500" <-> 9 * cap <= 10 * cur)
  /\ (Dashboard.capacityBar e = "bg-yellow-500"
      <-> 3 * cap <= 4 * cur /\ 10 * cur < 9 * cap)
  /\ (Dashboard.capacityBar e = "bg-green-500" <-> 4 * cur < 3 * cap)
  /\ (Dashboard.overloaded e = true -> Dashboard.capacityBar e = "bg-red-500")
  /\ (10 * cur = 9 * cap ->
      Dashboard.capacityBar e = "bg-red-500"
      /\ Dashboard.overloaded e = false).
Proof.
  intros cap cur. unfold Dashboard.capacityBar. fold cap cur.
  rewrite (getCapacityColor_positive cur cap Hcap).
  assert (Hover : Dashboard.overloaded e = true <-> 9 * cap < 10 * cur)
    by apply gt_nine_tenths.
  destruct (Z.leb_spec (9 * cap) (10 * cur)) as [H9 | H9].
  - refine (conj _ (conj _ (conj _ (conj _ _)))).
    + split; [intros _; exact H9 | reflexivity].
    + split; [discriminate | lia].
    + split; [discriminate | lia].
    + reflexivity.
    + intros Heq. split; [reflexivity |].
      apply not_true_iff_false. rewrite Hover. lia.
  - destruct (Z.leb_spec (3 * cap) (4 * cur)) as [H3 | H3].
    + refine (conj _ (conj _ (conj _ (conj _ _)))).
      * split; [discriminate | lia].
      * split; [intros _; lia | reflexivity].
      * split; [discriminate | lia].
      * intros H. apply Hover in H. lia.
      * intros Heq. lia.
    + refine (conj _ (conj _ (conj _ (conj _ _)))).
      * split; [discriminate | lia].
      * split; [discriminate | lia].
      * split; [intros _; exact H3 | reflexivity].
      * intros H. apply Hover in H. lia.
      * intros Heq. lia.
Qed.

(** A half-time engineer at 45 of 50: the bar is red, the engineer is not
    counted as overloaded. *)
Lemma capacity_bar_colour_witness :
  0 < JS.or_default
        (AuthContext.maxCapacity
           (Dashboard.engineer (SampleTeam.dashboardEngineer (Some 50) 45 5)))
        100
  /\ Dashboard.capacityBar (SampleTeam.dashboardEngineer (Some 50) 45 5)
     = "bg-red-500"
  /\ Dashboard.overloaded (SampleTeam.dashboardEngineer (Some 50) 45 5)
     = false.
Proof.
  assert (Hcap : 0 < JS.or_default
                       (AuthContext.maxCapacity
                          (Dashboard.engineer
                             (SampleTeam.dashboardEngineer (Some 50) 45 5)))
                       100) by reflexivity.
  refine (conj Hcap _).
  apply (capacity_bar_colour (SampleTeam.dashboardEngineer (Some 50) 45 5) Hcap).
  reflexivity.
Defined.

(* ================================================================= *)
(** ** Counting with filters *)

Lemma filter_length_all (A : Type) (p : A -> bool) (l : list A) :
  List.length (filter p l) = List.length l
  <-> forall a, In a l -> p a = true.
Proof.
  split.
  - induction l as [| a l IH]; intros H b Hb; [destruct Hb |].
    cbn [filter List.length] in H. pose proof (filter_length_le A p l) as Hle.
    destruct (p a) eqn:Hp; cbn [List.length] in H; [| lia].
    destruct Hb as [<- | Hb]; [exact Hp | apply IH; [lia | exact Hb]].
  - intros H. rewrite (filter_all _ p l H). reflexivity.
Qed.

Lemma filter_disjoint_count (A : Type) (p q : A -> bool) (l : list A) :
  (forall a, In a l -> p a && q a = false) ->
  (List.length (filter p l) + List.length (filter q l)
   = List.length (filter (fun a => p a || q a) l))%nat.
Proof.
  induction l as [| a l IH]; intros H; [reflexivity |].
  cbn [filter]. specialize (IH (fun b Hb => H b (or_intror Hb))).
  specialize (H a (or_introl eq_refl)).
  destruct (p a), (q a); cbn [orb List.length] in *; try discriminate; lia.
Qed.

Lemma filter_status_count (status : string)
  (projects : list Analytics.Project) :
  List.length
    (filter (fun p => (Analytics.status p =? status)%string) projects)
  = count_occ string_dec (map Analytics.status projects) status.
Proof.
  induction projects as [| p projects IH]; [reflexivity |].
  cbn [filter map count_occ].
  destruct (String.eqb_spec (Analytics.status p) status) as [E | E],
           (string_dec (Analytics.status p) status) as [E' | E'];
    try contradiction; cbn [List.length]; rewrite IH; reflexivity.
Qed.

(** The project status chart.  Its three numbers are, in this order, the
    number of projects whose status is exactly "active", the number of those
    whose status is exactly "planning" and the number of those whose status
    is exactly "completed"; the first is also the "active projects" figure.
    A project is in one count at most, so they add up to the number of
    projects with one of these three statuses, and to the number of all
    projects exactly when every status is one of the three. *)
Theorem project_status_counts (projects : list Analytics.Project) :
  let statuses := map Analytics.status projects in
  let active := count_occ string_dec statuses "active" in
  let planning := count_occ string_dec statuses "planning" in
  let completed := count_occ string_dec statuses "completed" in
  Analytics.projectStatusData projects = [active; planning; completed]
  /\ Analytics.activeProjects projects = active
  /\ (active + planning + completed
      = List.length (filter Spec.knownStatus projects))%nat
  /\ (active + planning + completed <= List.length projects)%nat
  /\ ((active + planning + completed)%nat = List.length projects
      <-> forall p, In p projects -> Spec.knownStatus p = true).
Proof.
  intros statuses active planning completed.
  subst active planning completed statuses.
  rewrite <- !filter_status_count.
  split; [reflexivity |]. split; [reflexivity |].
  assert (Hsum :
            (List.length
               (filter (fun p => (Analytics.status p =? "active")%string)
                  projects)
             + List.length
                 (filter (fun p => (Analytics.status p =? "planning")%string)
                    projects)
             + List.length
                 (filter (fun p => (Analytics.status p =? "completed")%string)
                    projects)
             = List.length (filter Spec.knownStatus projects))%nat).
  { assert (Hone : forall p : Analytics.Project,
               (Analytics.status p =? "active")%string
               && (Analytics.status p =? "planning")%string = false
               /\ ((Analytics.status p =? "active")%string
                   || (Analytics.status p =? "planning")%string)
                  && (Analytics.status p =? "completed")%string = false).
    { intros p.
      destruct (String.eqb_spec (Analytics.status p) "active") as [E1 | _],
               (String.eqb_spec (Analytics.status p) "planning") as [E2 | _],
               (String.eqb_spec (Analytics.status p) "completed") as [E3 | _];
        split; try reflexivity; congruence. }
    rewrite (filter_disjoint_count _ _ _ projects (fun p _ => proj1 (Hone p))).
    rewrite (filter_disjoint_count _ _ _ projects (fun p _ => proj2 (Hone p))).
    reflexivity. }
  rewrite Hsum. split; [reflexivity |]. split.
  - apply filter_length_le.
  - apply filter_length_all.
Qed.

(* ================================================================= *)
(** ** Overloaded and available (Dashboard, Analytics) *)

Lemma filter_exclusive_count (A : Type) (p q : A -> bool) (l : list A) :
  (forall a, In a l -> p a && q a = false) ->
  (List.length (filter p l) + List.length (filter q l) <= List.length l)%nat.
Proof.
  intros H. rewrite (filter_disjoint_count A p q l H).
  apply filter_length_le.
Qed.

(** No engineer with a maximum capacity of 200 or less is counted both as
    overloaded and as available: over the rows that each page builds, the
    two counts together never exceed the number of engineers. *)
Theorem overloaded_or_available
  (Date_parse : string -> JS.Date) (now : Z) (engs : list AuthContext.User)
  (dashboardAssigns : list Dashboard.Assignment)
  (analyticsAssigns : list Analytics.Assignment)
  (Hcap : forall engineer m,
      In engineer engs -> AuthContext.maxCapacity engineer = Some m ->
      m <= 200) :
  let rows :=
    Dashboard.engineersWithCapacity Date_parse now engs dashboardAssigns in
  let engineers :=
    Analytics.engineersWithCapacity Date_parse now engs analyticsAssigns in
  (Dashboard.overloadedEngineers rows + Dashboard.availableEngineers rows
   <= List.length engs)%nat
  /\ (Analytics.overloadedEngineers engineers
      + Analytics.underutilizedEngineers engineers
      <= List.length engs)%nat.
Proof.
  intros rows engineers. split.
  - replace (List.length engs) with (List.length rows)
      by (unfold rows, Dashboard.engineersWithCapacity; apply length_map).
    apply filter_exclusive_count. intros row Hrow.
    unfold rows, Dashboard.engineersWithCapacity in Hrow.
    apply in_map_iff in Hrow. destruct Hrow as (engineer & <- & Hin).
    specialize (Hcap engineer).
    destruct (Dashboard.overloaded
                (Dashboard.withCapacity Date_parse now dashboardAssigns
                   engineer)) eqn:Hover; [| reflexivity].
    apply gt_nine_tenths in Hover. cbn [andb]. apply Z.ltb_ge.
    cbn [Dashboard.withCapacity Dashboard.engineer Dashboard.currentCapacity
           Dashboard.availableCapacity] in *.
    destruct (AuthContext.maxCapacity engineer) as [m |]; cbn [JS.or_default] in *.
    + specialize (Hcap m Hin eq_refl).
      destruct (Z.eqb_spec m 0); lia.
    + lia.
  - replace (List.length engs) with (List.length engineers)
      by (unfold engineers, Analytics.engineersWithCapacity; apply length_map).
    apply filter_exclusive_count. intros row Hrow.
    unfold engineers, Analytics.engineersWithCapacity in Hrow.
    apply in_map_iff in Hrow. destruct Hrow as (engineer & <- & Hin).
    specialize (Hcap engineer).
    destruct (Analytics.overloaded
                (Analytics.withCapacity Date_parse now analyticsAssigns
                   engineer)) eqn:Hover; [| reflexivity].
    apply gt_nine_tenths in Hover. cbn [andb]. apply Z.ltb_ge.
    cbn [Analytics.withCapacity Analytics.maxCapacity
           Analytics.currentCapacity Analytics.availableCapacity] in *.
    destruct (AuthContext.maxCapacity engineer) as [m |];
      cbn [JS.or_default JS.nullish] in *.
    + specialize (Hcap m Hin eq_refl).
      destruct (Z.eqb_spec m 0); lia.
    + change (100 =? 0) with false in Hover. cbv iota in Hover. lia.
Qed.

(** One part-time engineer and the sample assignments. *)
Lemma overloaded_or_available_witness :
  (forall engineer m,
      In engineer [Sample.partTime] ->
      AuthContext.maxCapacity engineer = Some m -> m <= 200)
  /\ (Dashboard.overloadedEngineers
        (Dashboard.engineersWithCapacity JS.Date_of_iso_day Sample.now
           [Sample.partTime] Sample.dashboardAssigns)
      + Dashboard.availableEngineers
          (Dashboard.engineersWithCapacity JS.Date_of_iso_day Sample.now
             [Sample.partTime] Sample.dashboardAssigns)
      <= 1)%nat.
Proof.
  assert (Hcap : forall engineer m,
             In engineer [Sample.partTime] ->
             AuthContext.maxCapacity engineer = Some m -> m <= 200).
  { intros engineer m [<- | []] H.
    assert (Hm : m = 50) by (cbn in H; congruence).
    rewrite Hm. discriminate. }
  refine (conj Hcap _).
  apply (overloaded_or_available JS.Date_of_iso_day Sample.now
           [Sample.partTime] Sample.dashboardAssigns Sample.analyticsAssigns
           Hcap).
Defined.

(* ================================================================= *)
(** ** The team's total allocation (Analytics) *)

Lemma sum_map_add (A : Type) (f g : A -> Z) (l : list A) :
  Spec.sum (map (fun a => f a + g a) l)
  = Spec.sum (map f l) + Spec.sum (map g l).
Proof.
  induction l as [| a l IH]; cbn [map Spec.sum fold_right]; [reflexivity |].
  fold (Spec.sum (map (fun a => f a + g a) l)) (Spec.sum (map f l))
    (Spec.sum (map g l)).
  rewrite IH. lia.
Qed.

Lemma sum_map_zero (A : Type) (l : list A) :
  Spec.sum (map (fun _ => 0) l) = 0.
Proof.
  induction l as [| a l IH]; cbn [map Spec.sum fold_right]; [reflexivity |].
  exact IH.
Qed.

(** Among engineers with distinct ids, one at most has the id [k]. *)
Lemma sum_of_one_id (engs : list AuthContext.User) (k : string) (x : Z) :
  NoDup (map AuthContext._id engs) ->
  Spec.sum
    (map (fun e => if (k =? AuthContext._id e)%string then x else 0) engs)
  = if existsb (fun e => (k =? AuthContext._id e)%string) engs then x else 0.
Proof.
  induction engs as [| e engs IH]; intros Hnd; [reflexivity |].
  cbn [map] in Hnd. apply NoDup_cons_iff in Hnd. destruct Hnd as (Hnotin & Hnd).
  cbn [map Spec.sum fold_right existsb].
  fold (Spec.sum
          (map (fun e => if (k =? AuthContext._id e)%string then x else 0)
             engs)).
  rewrite (IH Hnd).
  destruct (String.eqb_spec k (AuthContext._id e)) as [Hk | _]; cbn [orb].
  - destruct (existsb (fun e0 => (k =? AuthContext._id e0)%string) engs)
      eqn:Hex; [| lia].
    exfalso. apply Hnotin. apply existsb_exists in Hex.
    destruct Hex as (e' & He' & Heq). apply String.eqb_eq in Heq.
    rewrite <- Hk, Heq. apply in_map. exact He'.
  - lia.
Qed.

Section TeamTotal.

Variable Date_parse : string -> JS.Date.
Variable now : Z.
Variable engs : list AuthContext.User.

Local Abbreviation allocation a :=
  (Spec.allocation (Analytics.allocationPercentage a)).
Local Abbreviation current a :=
  (JS.date_ge (Date_parse (Analytics.endDate a)) (Some now)).
Local Abbreviation listed a :=
  (existsb
     (fun e =>
        (Analytics._id (Analytics.engineerId a) =? AuthContext._id e)%string)
     engs).

Lemma team_total_by_assignment (assigns : list Analytics.Assignment) :
  NoDup (map AuthContext._id engs) ->
  Spec.sum
    (map
       (fun e =>
          Spec.sum
            (map (fun a => allocation a)
               (Analytics.engineerAssignments Date_parse now assigns e)))
       engs)
  = Spec.sum
      (map (fun a => allocation a)
         (filter (fun a => listed a && current a) assigns)).
Proof.
  intros Hnd. unfold Analytics.engineerAssignments.
  induction assigns as [| a l IH]; cbn [filter].
  - apply sum_map_zero.
  - transitivity
      (Spec.sum
         (map
            (fun e =>
               (if (Analytics._id (Analytics.engineerId a)
                    =? AuthContext._id e)%string
                then if current a then allocation a else 0
                else 0)
               + Spec.sum
                   (map (fun a0 => allocation a0)
                      (filter
                         (fun a0 =>
                            (Analytics._id (Analytics.engineerId a0)
                             =? AuthContext._id e)%string
                            && current a0)
                         l)))
            engs)).
    + apply f_equal, map_ext. intros e.
      destruct (Analytics._id (Analytics.engineerId a) =? AuthContext._id e)%string;
        cbn [andb]; [| reflexivity].
      destruct (current a); reflexivity.
    + rewrite sum_map_add, IH, (sum_of_one_id engs _ _ Hnd).
      destruct (listed a); cbn [andb]; [| reflexivity].
      destruct (current a); reflexivity.
Qed.

End TeamTotal.

(** Over engineers with distinct ids, the current capacities of the rows add
    up to the allocation of the current assignments of listed engineers, each
    assignment counted once: no allocation is lost or counted twice.  The
    average utilization is this total divided by the number of engineers. *)
Theorem team_total_allocation
  (Date_parse : string -> JS.Date) (now : Z) (engs : list AuthContext.User)
  (assigns : list Analytics.Assignment)
  (Hids : NoDup (map AuthContext._id engs)) :
  let rows := Analytics.engineersWithCapacity Date_parse now engs assigns in
  let counted a :=
    existsb
      (fun e =>
         (Analytics._id (Analytics.engineerId a) =? AuthContext._id e)%string)
      engs
    && JS.date_ge (Date_parse (Analytics.endDate a)) (Some now) in
  let total :=
    Spec.sum
      (map (fun a => Spec.allocation (Analytics.allocationPercentage a))
         (filter counted assigns)) in
  Spec.sum (map Analytics.currentCapacity rows) = total
  /\ (engs <> [] ->
      Analytics.averageUtilization rows
      = JS.Fin (inject_Z total / inject_Z (Z.of_nat (List.length engs)))).
Proof.
  intros rows counted total.
  assert (Htotal : Spec.sum (map Analytics.currentCapacity rows) = total).
  { unfold rows, Analytics.engineersWithCapacity. rewrite map_map.
    rewrite (map_ext _ _ (analytics_currentCapacity Date_parse now assigns)).
    apply (team_total_by_assignment Date_parse now engs assigns Hids). }
  split; [exact Htotal |].
  intros Hne. unfold Analytics.averageUtilization.
  rewrite reduce_add_sum, Z.add_0_l, Htotal.
  replace (List.length rows) with (List.length engs)
    by (unfold rows, Analytics.engineersWithCapacity; symmetry; apply length_map).
  destruct engs as [| e l]; [contradiction |].
  change (0 <? List.length (e :: l))%nat with true. cbv iota.
  rewrite div_of_Z.
  destruct (Z.eqb_spec (Z.of_nat (List.length (e :: l))) 0) as [H | _];
    [cbn [List.length] in H; lia | reflexivity].
Qed.

(** A team of two with distinct ids.  Of the five sample assignments the
    running 40 and the coming 30 of "e1" and the running 25 of "e2" count,
    each once; the ended 30 of "e1" and the 70 of "e3", who is not listed, do
    not.  The rows hold 70 and 25, the total is 95 and the average 95/2. *)
Lemma team_total_allocation_witness :
  NoDup (map AuthContext._id [Sample.partTime; Sample.fullTime])
  /\ map Analytics.currentCapacity
       (Analytics.engineersWithCapacity JS.Date_of_iso_day Sample.now
          [Sample.partTime; Sample.fullTime] Sample.teamAssigns)
     = [70; 25]
  /\ Spec.sum
       (map Analytics.currentCapacity
          (Analytics.engineersWithCapacity JS.Date_of_iso_day Sample.now
             [Sample.partTime; Sample.fullTime] Sample.teamAssigns))
     = 40 + 25 + 30
  /\ Analytics.averageUtilization
       (Analytics.engineersWithCapacity JS.Date_of_iso_day Sample.now
          [Sample.partTime; Sample.fullTime] Sample.teamAssigns)
     = JS.Fin (95 # 2).
Proof.
  assert (Hids : NoDup (map AuthContext._id [Sample.partTime; Sample.fullTime])).
  { cbn [map]. constructor.
    - intros [H | []]. discriminate H.
    - constructor; [intros [] | constructor]. }
  destruct (team_total_allocation JS.Date_of_iso_day Sample.now
              [Sample.partTime; Sample.fullTime] Sample.teamAssigns Hids)
    as (Hsum & Havg).
  refine (conj Hids (conj _ (conj _ _))).
  - vm_compute. reflexivity.
  - rewrite Hsum. vm_compute. reflexivity.
  - rewrite Havg by discriminate. vm_compute. reflexivity.
Defined.

(* ================================================================= *)
(** ** The skill gap (Analytics) *)

Lemma Set_add_fold (l : list string) :
  fold_left JS.Set_add l [] = Spec.first_seen l.
Proof.
  induction l as [| x l IH] using rev_ind; [reflexivity |].
  rewrite fold_left_app. cbn [fold_left]. rewrite IH.
  unfold JS.Set_add, JS.Set_has.
  rewrite existsb_first_seen, first_seen_snoc. reflexivity.
Qed.

Lemma forEach_opt_fold (S : Type) (f : S -> string -> S)
  (projects : list Analytics.Project) (acc : S) :
  fold_left
    (fun acc project =>
       Analytics.forEach_opt (Analytics.requiredSkills project) f acc)
    projects acc
  = fold_left f (Spec.requiredLabels projects) acc.
Proof.
  unfold Spec.requiredLabels. revert acc.
  induction projects as [| p projects IH]; intros acc;
    cbn [fold_left map List.concat]; [reflexivity |].
  rewrite fold_left_app, IH.
  destruct (Analytics.requiredSkills p); reflexivity.
Qed.

Lemma allRequiredSkills_first_seen (projects : list Analytics.Project) :
  Analytics.allRequiredSkills projects
  = Spec.first_seen (Spec.requiredLabels projects).
Proof.
  unfold Analytics.allRequiredSkills.
  rewrite (forEach_opt_fold _ JS.Set_add). apply Set_add_fold.
Qed.

Lemma allAvailableSkills_first_seen (engineers : list Analytics.Engineer) :
  Analytics.allAvailableSkills engineers
  = Spec.first_seen (Spec.availableLabels engineers).
Proof.
  unfold Analytics.allAvailableSkills, Spec.availableLabels.
  rewrite <- Set_add_fold. generalize (@nil string) as acc.
  induction engineers as [| e engineers IH]; intros acc;
    cbn [fold_left map List.concat]; [reflexivity |].
  rewrite fold_left_app, IH. reflexivity.
Qed.

Lemma own_app (o o' : JS.object) (k : string) :
  JS.own (o ++ o') k
  = match JS.own o k with
    | Some v => Some v
    | None => JS.own o' k
    end.
Proof.
  induction o as [| [k0 v0] o IH]; cbn [app JS.own]; [reflexivity |].
  destruct (k0 =? k)%string; [reflexivity | exact IH].
Qed.

(** Setting each label of a duplicate-free list once appends one entry per
    label, except for the label that the object does not take. *)
Lemma set_each_once (g : string -> JS.value) (l : list string) :
  NoDup l ->
  forall o : JS.object,
    (forall s, In s l -> JS.own o s = None) ->
    fold_left (fun cov s => JS.set cov s (g s)) l o
    = o ++ map (fun s => (s, g s))
             (filter (fun s => negb (s =? "__proto__")%string) l).
Proof.
  intros Hnd. induction Hnd as [| s l Hs Hnd IH]; intros o Ho.
  - cbn [fold_left filter map]. rewrite app_nil_r. reflexivity.
  - cbn [fold_left filter]. unfold JS.set at 2.
    destruct (String.eqb_spec s "__proto__") as [Hp | Hp]; cbn [negb].
    + apply IH. intros s' Hs'. apply Ho. right. exact Hs'.
    + rewrite (put_fresh o s (g s) (Ho s (or_introl eq_refl))), IH.
      * rewrite <- app_assoc. reflexivity.
      * intros s' Hs'. rewrite own_app, (Ho s' (or_intror Hs')).
        cbn [JS.own]. destruct (String.eqb_spec s s') as [-> | _];
          [contradiction | reflexivity].
Qed.

Lemma engineersWith_none (skill : string)
  (engineers : list Analytics.Engineer) :
  (forall e, In e engineers -> ~ In skill (Analytics.skills e)) ->
  Spec.engineersWith skill engineers = 0.
Proof.
  intros H. unfold Spec.engineersWith. rewrite filter_none; [reflexivity |].
  intros e He. apply not_true_iff_false. intros Hex.
  apply (H e He). apply existsb_eqb_In. exact Hex.
Qed.

Lemma insufficientSkills_entries (projects : list Analytics.Project)
  (engineers : list Analytics.Engineer) :
  Analytics.insufficientSkills (Analytics.skillGapAnalysis projects engineers)
  = map fst
      (filter (fun entry => JS.value_lt (snd entry) 2)
         (JS.Object_entries
            (fold_left
               (fun cov s =>
                  JS.set cov s (JS.VNum (Spec.engineersWith s engineers)))
               (Analytics.allRequiredSkills projects) []))).
Proof. reflexivity. Qed.

(** The two lists of the skill gap.  A skill is reported missing exactly
    when some project requires it and no engineer lists it; the missing
    skills come without repetition.  A skill is reported as insufficiently
    covered exactly when some project requires it, fewer than two engineers
    list it, and it is not the label "__proto__"; so every missing skill
    other than "__proto__" is also reported as insufficiently covered.  The
    two totals count distinct labels. *)
Theorem skill_gap_lists (projects : list Analytics.Project)
  (engineers : list Analytics.Engineer) :
  let gap := Analytics.skillGapAnalysis projects engineers in
  (forall skill,
      In skill (Analytics.missingSkills gap)
      <-> In skill (Spec.requiredLabels projects)
          /\ forall e, In e engineers -> ~ In skill (Analytics.skills e))
  /\ NoDup (Analytics.missingSkills gap)
  /\ (forall skill,
        In skill (Analytics.insufficientSkills gap)
        <-> In skill (Spec.requiredLabels projects)
            /\ Spec.engineersWith skill engineers < 2
            /\ skill <> "__proto__")
  /\ (forall skill,
        In skill (Analytics.missingSkills gap) ->
        skill <> "__proto__" ->
        In skill (Analytics.insufficientSkills gap))
  /\ Analytics.totalRequired gap
     = Z.of_nat
         (List.length (Spec.first_seen (Spec.requiredLabels projects)))
  /\ Analytics.totalAvailable gap
     = Z.of_nat
         (List.length (Spec.first_seen (Spec.availableLabels engineers))).
Proof.
  intros gap.
  assert (Hmissing : forall skill,
             In skill (Analytics.missingSkills gap)
             <-> In skill (Spec.requiredLabels projects)
                 /\ forall e, In e engineers -> ~ In skill (Analytics.skills e)).
  { intros skill. unfold gap, Analytics.skillGapAnalysis.
    cbn [Analytics.missingSkills].
    rewrite filter_In, allRequiredSkills_first_seen,
      allAvailableSkills_first_seen, first_seen_In, negb_true_iff.
    unfold JS.Set_has. rewrite existsb_first_seen.
    rewrite <- not_true_iff_false, existsb_eqb_In.
    unfold Spec.availableLabels. rewrite in_concat.
    split; intros (Hreq & Hnone); (split; [exact Hreq |]).
    - intros e He Hin. apply Hnone. exists (Analytics.skills e).
      split; [apply in_map; exact He | exact Hin].
    - intros (l & Hl & Hin). apply in_map_iff in Hl.
      destruct Hl as (e & <- & He). exact (Hnone e He Hin). }
  assert (Hinsufficient : forall skill,
             In skill (Analytics.insufficientSkills gap)
             <-> In skill (Spec.requiredLabels projects)
                 /\ Spec.engineersWith skill engineers < 2
                 /\ skill <> "__proto__").
  { intros skill. unfold gap.
    rewrite insufficientSkills_entries, allRequiredSkills_first_seen.
    rewrite (set_each_once
               (fun s => JS.VNum (Spec.engineersWith s engineers))
               (Spec.first_seen (Spec.requiredLabels projects))
               (first_seen_NoDup _) [] (fun _ _ => eq_refl)).
    cbn [app]. rewrite in_map_iff. split.
    - intros ((k & v) & Hk & Hin). cbn [fst] in Hk. subst k.
      apply filter_In in Hin. destruct Hin as (Hin & Hlt).
      apply (Permutation_in _ (Object_entries_perm _)) in Hin.
      apply in_map_iff in Hin. destruct Hin as (s & Heq & Hs).
      apply filter_In in Hs. destruct Hs as (Hs & Hp).
      apply (proj1 (first_seen_In _ s)) in Hs.
      apply negb_true_iff, String.eqb_neq in Hp.
      assert (Hskill : s = skill) by congruence.
      assert (Hv : v = JS.VNum (Spec.engineersWith s engineers)) by congruence.
      subst s v. cbn [snd JS.value_lt] in Hlt. apply Z.ltb_lt in Hlt. auto.
    - intros (Hreq & Hlt & Hp).
      exists (skill, JS.VNum (Spec.engineersWith skill engineers)).
      split; [reflexivity |]. apply filter_In. split.
      + apply (Permutation_in _ (Permutation_sym (Object_entries_perm _))).
        apply in_map_iff. exists skill. split; [reflexivity |].
        apply filter_In. split.
        * apply (proj2 (first_seen_In _ skill)). exact Hreq.
        * apply negb_true_iff, String.eqb_neq. exact Hp.
      + cbn [snd JS.value_lt]. apply Z.ltb_lt. exact Hlt. }
  refine (conj Hmissing (conj _ (conj Hinsufficient (conj _ (conj _ _))))).
  - unfold gap, Analytics.skillGapAnalysis. cbn [Analytics.missingSkills].
    apply NoDup_filter. rewrite allRequiredSkills_first_seen.
    apply first_seen_NoDup.
  - intros skill Hm Hp. apply Hmissing in Hm. destruct Hm as (Hreq & Hnone).
    apply Hinsufficient. refine (conj Hreq (conj _ Hp)).
    rewrite (engineersWith_none skill engineers Hnone). reflexivity.
  - unfold gap, Analytics.skillGapAnalysis. cbn [Analytics.totalRequired].
    rewrite allRequiredSkills_first_seen. reflexivity.
  - unfold gap, Analytics.skillGapAnalysis. cbn [Analytics.totalAvailable].
    rewrite allAvailableSkills_first_seen. reflexivity.
Qed.

(** The coverage is a ratio of two counts.  When some skill is required, it
    is the number of distinct skills of the team over the number of distinct
    required skills, times 100, whether or not the team's skills are the
    required ones: it is 100 or more as soon as the team has as many distinct
    skills as the projects require, even with every required skill missing. *)
Theorem coverage_ratio (projects : list Analytics.Project)
  (engineers : list Analytics.Engineer)
  (Hrequired :
     Analytics.totalRequired (Analytics.skillGapAnalysis projects engineers)
     <> 0) :
  let gap := Analytics.skillGapAnalysis projects engineers in
  exists q : Q,
    Analytics.coverage gap = JS.Fin q
    /\ q = (inject_Z (Analytics.totalAvailable gap)
            / inject_Z (Analytics.totalRequired gap) * 100)%Q
    /\ (Analytics.totalRequired gap <= Analytics.totalAvailable gap ->
        (100 <= q)%Q)
    /\ (Analytics.totalAvailable gap < Analytics.totalRequired gap ->
        (q < 100)%Q).
Proof.
  intros gap. fold gap in Hrequired.
  assert (Hpos : 0 < Analytics.totalRequired gap).
  { assert (0 <= Analytics.totalRequired gap)
      by (unfold gap, Analytics.skillGapAnalysis;
          cbn [Analytics.totalRequired]; unfold JS.Set_size; lia).
    lia. }
  unfold gap at 1. rewrite coverage_formula. fold gap.
  rewrite div_of_Z.
  destruct (Z.eqb_spec (Analytics.totalRequired gap) 0) as [H0 | _];
    [contradiction |].
  eexists. split; [reflexivity |]. split; [reflexivity |].
  destruct (Analytics.totalRequired gap) as [| p | p]; try lia.
  unfold Qle, Qlt, Qmult, Qdiv, Qinv, inject_Z. cbn [Qnum Qden].
  unfold Qmult. cbn [Qnum Qden].
  rewrite Pos.mul_1_l, Pos.mul_1_r. split; intros H; lia.
Qed.

(** One project requires Go, the one engineer knows Rust: Go is missing and
    the coverage is 100. *)
Lemma coverage_ratio_witness :
  Analytics.totalRequired
    (Analytics.skillGapAnalysis [SampleTeam.goProject] [SampleTeam.rustacean])
  <> 0
  /\ Analytics.missingSkills
       (Analytics.skillGapAnalysis [SampleTeam.goProject]
          [SampleTeam.rustacean])
     = ["Go"]
  /\ exists q : Q,
       Analytics.coverage
         (Analytics.skillGapAnalysis [SampleTeam.goProject]
            [SampleTeam.rustacean])
       = JS.Fin q
       /\ (100 <= q)%Q.
Proof.
  assert (Hreq : Analytics.totalRequired
                   (Analytics.skillGapAnalysis [SampleTeam.goProject]
                      [SampleTeam.rustacean]) <> 0) by discriminate.
  refine (conj Hreq (conj eq_refl _)).
  destruct (coverage_ratio [SampleTeam.goProject] [SampleTeam.rustacean] Hreq)
    as (q & Hq & _ & Hle & _).
  exists q. split; [exact Hq |]. apply Hle. discriminate.
Defined.

(* ================================================================= *)
(** ** Runs of cells (Timeline) *)

Lemma MakeDay_linear (year month date : Z) :
  JS.MakeDay year month date = JS.MakeDay year month 0 + date.
Proof. unfold JS.MakeDay. lia. Qed.

(** The instants of the days of one month increase with the day, and a day
    between two days with a valid instant has a valid instant. *)
Lemma Date_local_between (LocalTZA year month d1 d2 d3 t1 t3 : Z) :
  d1 <= d2 <= d3 ->
  JS.Date_local LocalTZA year month d1 = Some t1 ->
  JS.Date_local LocalTZA year month d3 = Some t3 ->
  exists t2,
    JS.Date_local LocalTZA year month d2 = Some t2 /\ t1 <= t2 <= t3.
Proof.
  unfold JS.Date_local. cbv zeta.
  set (yr := if (0 <=? year) && (year <=? 99) then 1900 + year else year).
  rewrite (MakeDay_linear yr month d1), (MakeDay_linear yr month d2),
    (MakeDay_linear yr month d3).
  generalize (JS.MakeDay yr month 0) as base. intros base Hd H1 H3.
  unfold JS.TimeClip, JS.msPerDay in *.
  destruct (Z.leb_spec (Z.abs ((base + d1) * 86400000 - LocalTZA))
              8640000000000000) as [B1 | _]; [| discriminate].
  destruct (Z.leb_spec (Z.abs ((base + d3) * 86400000 - LocalTZA))
              8640000000000000) as [B3 | _]; [| discriminate].
  assert (E1 : t1 = (base + d1) * 86400000 - LocalTZA) by congruence.
  assert (E3 : t3 = (base + d3) * 86400000 - LocalTZA) by congruence.
  clear H1 H3.
  exists ((base + d2) * 86400000 - LocalTZA).
  destruct (Z.leb_spec (Z.abs ((base + d2) * 86400000 - LocalTZA))
              8640000000000000) as [_ | B2]; [split; [reflexivity | lia] | lia].
Qed.

(** On the calendar an assignment fills a run of cells: when it is in the
    cells of two days of the month, it is in the cell of every day between
    them. *)
Theorem calendar_run
  (Date_parse : string -> JS.Date) (LocalTZA : Z)
  (assignments : list Timeline.Assignment)
  (selectedProject selectedEngineer : string) (currentMonth : Z)
  (a : Timeline.Assignment) (d1 d2 d3 : Z)
  (cell1 cell2 cell3 : list Timeline.Assignment)
  (Hdays : d1 <= d2 <= d3) :
  let days :=
    Timeline.calendarDays Date_parse LocalTZA assignments
      selectedProject selectedEngineer currentMonth in
  In (d1, cell1) days -> In (d2, cell2) days -> In (d3, cell3) days ->
  In a cell1 -> In a cell3 -> In a cell2.
Proof.
  intros days H1 H2 H3 Ha1 Ha3. unfold days in *.
  apply (proj1 (calendarDays_cells Date_parse LocalTZA assignments
                  selectedProject selectedEngineer currentMonth d1 cell1))
    in H1.
  apply (proj1 (calendarDays_cells Date_parse LocalTZA assignments
                  selectedProject selectedEngineer currentMonth d2 cell2))
    in H2.
  apply (proj1 (calendarDays_cells Date_parse LocalTZA assignments
                  selectedProject selectedEngineer currentMonth d3 cell3))
    in H3.
  destruct H1 as (_ & ->), H2 as (_ & ->), H3 as (_ & ->).
  apply (proj1 (bucket_spec Date_parse assignments selectedProject
                  selectedEngineer _ a)) in Ha1.
  apply (proj1 (bucket_spec Date_parse assignments selectedProject
                  selectedEngineer _ a)) in Ha3.
  apply (proj2 (bucket_spec Date_parse assignments selectedProject
                  selectedEngineer _ a)).
  destruct Ha1 as (Hin & s & e & t1 & Hs & He & Ht1 & Hb1).
  destruct Ha3 as (_ & s' & e' & t3 & Hs' & He' & Ht3 & Hb3).
  assert (Es : s' = s) by congruence. assert (Ee : e' = e) by congruence.
  subst s' e'.
  destruct (Date_local_between LocalTZA _ _ d1 d2 d3 t1 t3 Hdays Ht1 Ht3)
    as (t2 & Ht2 & Hb2).
  split; [exact Hin |]. exists s, e, t2.
  refine (conj Hs (conj He (conj Ht2 _))). lia.
Qed.

(** Days 10, 15 and 20 of January 2024 for the sample assignment. *)
Lemma calendar_run_witness :
  10 <= 15 <= 20
  /\ In (10, [SampleDates.tenToTwenty])
       (Timeline.calendarDays JS.Date_of_iso_day 0 [SampleDates.tenToTwenty]
          "all" "all" SampleDates.jan10)
  /\ In (15, [SampleDates.tenToTwenty])
       (Timeline.calendarDays JS.Date_of_iso_day 0 [SampleDates.tenToTwenty]
          "all" "all" SampleDates.jan10)
  /\ In (20, [SampleDates.tenToTwenty])
       (Timeline.calendarDays JS.Date_of_iso_day 0 [SampleDates.tenToTwenty]
          "all" "all" SampleDates.jan10)
  /\ In SampleDates.tenToTwenty [SampleDates.tenToTwenty].
Proof.
  assert (Hdays : 10 <= 15 <= 20) by (split; discriminate).
  assert (H10 : In (10, [SampleDates.tenToTwenty])
                  (Timeline.calendarDays JS.Date_of_iso_day 0
                     [SampleDates.tenToTwenty] "all" "all" SampleDates.jan10))
    by (apply (nth_error_In _ 9); vm_compute; reflexivity).
  assert (H15 : In (15, [SampleDates.tenToTwenty])
                  (Timeline.calendarDays JS.Date_of_iso_day 0
                     [SampleDates.tenToTwenty] "all" "all" SampleDates.jan10))
    by (apply (nth_error_In _ 14); vm_compute; reflexivity).
  assert (H20 : In (20, [SampleDates.tenToTwenty])
                  (Timeline.calendarDays JS.Date_of_iso_day 0
                     [SampleDates.tenToTwenty] "all" "all" SampleDates.jan10))
    by (apply (nth_error_In _ 19); vm_compute; reflexivity).
  refine (conj Hdays (conj H10 (conj H15 (conj H20 _)))).
  apply (calendar_run JS.Date_of_iso_day 0 [SampleDates.tenToTwenty]
           "all" "all" SampleDates.jan10 SampleDates.tenToTwenty 10 15 20
           [SampleDates.tenToTwenty] [SampleDates.tenToTwenty]
           [SampleDates.tenToTwenty] Hdays H10 H15 H20);
    left; reflexivity.
Defined.

(* ================================================================= *)
(** ** Splitting and joining *)

Lemma split_cons (separator : ascii) (s : string) :
  exists piece pieces, JS.split separator s = piece :: pieces.
Proof.
  destruct s as [| c s]; cbn [JS.split]; [eexists; eexists; reflexivity |].
  destruct (c =? separator)%char; [eexists; eexists; reflexivity |].
  destruct (JS.split separator s); eexists; eexists; reflexivity.
Qed.

Lemma split_String (separator c : ascii) (s : string) :
  (c =? separator)%char = false ->
  exists piece pieces,
    JS.split separator s = piece :: pieces
    /\ JS.split separator (String c s) = String c piece :: pieces.
Proof.
  intros Hc. destruct (split_cons separator s) as (piece & pieces & Hs).
  exists piece, pieces. split; [exact Hs |].
  cbn [JS.split]. rewrite Hc, Hs. reflexivity.
Qed.

Lemma split_without (separator : ascii) (s : string) :
  Spec.contains separator s = false -> JS.split separator s = [s].
Proof.
  induction s as [| c s IH]; cbn [Spec.contains JS.split]; [reflexivity |].
  intros H. apply orb_false_iff in H. destruct H as (Hc & Hs).
  rewrite Hc, (IH Hs). reflexivity.
Qed.

Lemma split_at_first (separator : ascii) (a b : string) :
  Spec.contains separator a = false ->
  JS.split separator (a ++ String separator b) = a :: JS.split separator b.
Proof.
  induction a as [| c a IH]; cbn [Spec.contains append JS.split].
  - intros _. rewrite Ascii.eqb_refl. reflexivity.
  - intros H. apply orb_false_iff in H. destruct H as (Hc & Ha).
    rewrite Hc, (IH Ha). reflexivity.
Qed.

Lemma split_length (separator : ascii) (s : string) :
  List.length (JS.split separator s) = S (Spec.countChar separator s).
Proof.
  induction s as [| c s IH]; cbn [JS.split Spec.countChar]; [reflexivity |].
  destruct (c =? separator)%char; cbn [List.length].
  - rewrite IH. reflexivity.
  - destruct (split_cons separator s) as (piece & pieces & Hs).
    rewrite Hs in IH |- *. exact IH.
Qed.

Lemma concat_cons (separator piece : string) (pieces : list string) :
  pieces <> [] ->
  String.concat separator (piece :: pieces)
  = (piece ++ separator ++ String.concat separator pieces)%string.
Proof. destruct pieces; [contradiction | reflexivity]. Qed.

(** Joining the pieces with the separator gives the string back. *)
Lemma join_split (separator : ascii) (s : string) :
  JS.join (String separator EmptyString) (JS.split separator s) = s.
Proof.
  unfold JS.join. induction s as [| c s IH]; cbn [JS.split]; [reflexivity |].
  destruct (split_cons separator s) as (piece & pieces & Hs).
  rewrite Hs in IH |- *.
  destruct (c =? separator)%char eqn:Hc.
  - apply Ascii.eqb_eq in Hc. subst c.
    rewrite concat_cons by discriminate. rewrite IH. reflexivity.
  - destruct pieces as [| p pieces].
    + cbn [String.concat] in *. rewrite IH. reflexivity.
    + rewrite concat_cons in IH |- * by discriminate.
      rewrite <- IH. reflexivity.
Qed.

(** The pieces are free of the separator. *)
Lemma split_pieces_free (separator : ascii) (s piece : string) :
  In piece (JS.split separator s) -> Spec.contains separator piece = false.
Proof.
  revert piece. induction s as [| c s IH]; intros piece; cbn [JS.split].
  - intros [<- | []]. reflexivity.
  - destruct (c =? separator)%char eqn:Hc.
    + intros [<- | Hin]; [reflexivity | exact (IH _ Hin)].
    + destruct (split_cons separator s) as (p & ps & Hs).
      rewrite Hs in IH |- *.
      intros [<- | Hin].
      * cbn [Spec.contains]. rewrite Hc. exact (IH p (or_introl eq_refl)).
      * exact (IH piece (or_intror Hin)).
Qed.

(** What follows a separator is split on its own. *)
Lemma split_after (separator : ascii) (a b : string) :
  exists front,
    front <> []
    /\ JS.split separator (a ++ String separator b)
       = front ++ JS.split separator b.
Proof.
  induction a as [| c a (front & Hne & IH)]; cbn [append JS.split].
  - exists [EmptyString]. rewrite Ascii.eqb_refl.
    split; [discriminate | reflexivity].
  - destruct (c =? separator)%char.
    + exists (EmptyString :: front). rewrite IH.
      split; [discriminate | reflexivity].
    + destruct front as [| f fs]; [contradiction |].
      exists (String c f :: fs). rewrite IH.
      split; [discriminate | reflexivity].
Qed.

(* ================================================================= *)
(** ** Reversal *)

Lemma append_empty (s : string) : (s ++ "")%string = s.
Proof. induction s as [| c s IH]; cbn [append]; [| rewrite IH]; reflexivity. Qed.

Lemma append_associative (a b c : string) :
  ((a ++ b) ++ c)%string = (a ++ (b ++ c))%string.
Proof. induction a as [| x a IH]; cbn [append]; [| rewrite IH]; reflexivity. Qed.

Lemma append_length (a b : string) :
  String.length (a ++ b) = (String.length a + String.length b)%nat.
Proof.
  induction a as [| x a IH]; cbn [append String.length]; [| rewrite IH];
    reflexivity.
Qed.

Lemma reverse_onto_twice (s acc acc' : string) :
  JS.reverse_onto (JS.reverse_onto s acc) acc'
  = JS.reverse_onto acc (s ++ acc').
Proof.
  revert acc. induction s as [| c s IH]; intros acc; cbn [JS.reverse_onto append].
  - reflexivity.
  - rewrite IH. reflexivity.
Qed.

Lemma reverse_reverse (s : string) : JS.reverse (JS.reverse s) = s.
Proof.
  unfold JS.reverse. rewrite reverse_onto_twice. cbn [JS.reverse_onto].
  apply append_empty.
Qed.

Lemma reverse_onto_append (s acc : string) :
  JS.reverse_onto s acc = (JS.reverse s ++ acc)%string.
Proof.
  unfold JS.reverse. revert acc.
  induction s as [| c s IH]; intros acc; cbn [JS.reverse_onto append].
  - reflexivity.
  - rewrite (IH (String c acc)), (IH (String c EmptyString)).
    rewrite append_associative. reflexivity.
Qed.

Lemma reverse_append (a b : string) :
  JS.reverse (a ++ b) = (JS.reverse b ++ JS.reverse a)%string.
Proof.
  unfold JS.reverse at 1. revert b.
  assert (H : forall acc b,
             JS.reverse_onto (a ++ b) acc
             = JS.reverse_onto b (JS.reverse_onto a acc)).
  { induction a as [| c a IH]; intros acc b; cbn [append JS.reverse_onto];
      [reflexivity | apply IH]. }
  intros b. rewrite H. rewrite reverse_onto_append. reflexivity.
Qed.

Lemma reverse_length (s : string) :
  String.length (JS.reverse s) = String.length s.
Proof.
  assert (H : forall acc,
             String.length (JS.reverse_onto s acc)
             = (String.length s + String.length acc)%nat).
  { induction s as [| c s IH]; intros acc; cbn [JS.reverse_onto String.length];
      [reflexivity | rewrite IH; cbn [String.length]; lia]. }
  unfold JS.reverse. rewrite H. cbn [String.length]. lia.
Qed.

(* ================================================================= *)
(** ** Trimming *)

Lemma strip_prefix_append (codes : list nat) (s s' t : string) :
  JS.strip_prefix codes s = Some s' ->
  JS.strip_prefix codes (s ++ t) = Some (s' ++ t)%string.
Proof.
  revert s. induction codes as [| n codes IH]; intros s; cbn [JS.strip_prefix].
  - intros H. assert (s = s') by congruence. subst s'. reflexivity.
  - destruct s as [| c s]; [discriminate |]. cbn [append].
    destruct (nat_of_ascii c =? n)%nat; [apply IH | discriminate].
Qed.

Lemma strip_prefix_rest (codes : list nat) (s s' : string) :
  JS.strip_prefix codes s = Some s' ->
  exists pre,
    s = (pre ++ s')%string /\ String.length pre = List.length codes.
Proof.
  revert s. induction codes as [| n codes IH]; intros s; cbn [JS.strip_prefix].
  - intros H. assert (s = s') by congruence. subst s'.
    exists EmptyString. split; reflexivity.
  - destruct s as [| c s]; [discriminate |].
    destruct (nat_of_ascii c =? n)%nat; [| discriminate].
    intros H. destruct (IH _ H) as (pre & -> & Hlen).
    exists (String c pre). cbn [append String.length List.length].
    rewrite Hlen. split; reflexivity.
Qed.

Lemma strip_one_rest (patterns : list (list nat)) (s s' : string) :
  Forall (fun p => p <> []) patterns ->
  JS.strip_one patterns s = Some s' ->
  exists pre,
    s = (pre ++ s')%string /\ (String.length s' < String.length s)%nat.
Proof.
  induction patterns as [| p patterns IH]; cbn [JS.strip_one]; [discriminate |].
  intros Hne. apply Forall_cons_iff in Hne. destruct Hne as (Hp & Hne).
  destruct (JS.strip_prefix p s) as [r |] eqn:Hr; [| exact (IH Hne)].
  intros H. assert (r = s') by congruence. subst r.
  destruct (strip_prefix_rest _ _ _ Hr) as (pre & -> & Hlen).
  exists pre. split; [reflexivity |]. rewrite append_length, Hlen.
  destruct p; [contradiction | cbn [List.length]; lia].
Qed.

(** A string that starts with no pattern has no prefix that does. *)
Lemma strip_one_prefix (patterns : list (list nat)) (a b : string) :
  JS.strip_one patterns (a ++ b) = None -> JS.strip_one patterns a = None.
Proof.
  induction patterns as [| p patterns IH]; cbn [JS.strip_one]; [reflexivity |].
  destruct (JS.strip_prefix p a) as [r |] eqn:Hr.
  - rewrite (strip_prefix_append _ _ _ b Hr). discriminate.
  - destruct (JS.strip_prefix p (a ++ b)); [discriminate | exact IH].
Qed.

Lemma strip_one_empty (patterns : list (list nat)) :
  Forall (fun p => p <> []) patterns ->
  JS.strip_one patterns EmptyString = None.
Proof.
  induction 1 as [| p patterns Hp _ IH]; cbn [JS.strip_one]; [reflexivity |].
  destruct p; [contradiction | exact IH].
Qed.

Lemma strip_all_rest (fuel : nat) (patterns : list (list nat)) (s : string) :
  Forall (fun p => p <> []) patterns ->
  exists pre, s = (pre ++ JS.strip_all fuel patterns s)%string.
Proof.
  intros Hne. revert s.
  induction fuel as [| fuel IH]; intros s; cbn [JS.strip_all].
  - exists EmptyString. reflexivity.
  - destruct (JS.strip_one patterns s) as [s' |] eqn:Hs.
    + destruct (strip_one_rest _ _ _ Hne Hs) as (pre & Heq & _).
      destruct (IH s') as (pre' & Heq').
      exists (pre ++ pre')%string.
      rewrite append_associative, <- Heq'. exact Heq.
    + exists EmptyString. reflexivity.
Qed.

(** With the length of the string as fuel nothing is left to strip. *)
Lemma strip_all_done (fuel : nat) (patterns : list (list nat)) (s : string) :
  Forall (fun p => p <> []) patterns ->
  (String.length s <= fuel)%nat ->
  JS.strip_one patterns (JS.strip_all fuel patterns s) = None.
Proof.
  intros Hne. revert s.
  induction fuel as [| fuel IH]; intros s Hlen; cbn [JS.strip_all].
  - destruct s; [| cbn [String.length] in Hlen; lia].
    apply strip_one_empty, Hne.
  - destruct (JS.strip_one patterns s) as [s' |] eqn:Hs; [| exact Hs].
    destruct (strip_one_rest _ _ _ Hne Hs) as (_ & _ & Hlt).
    apply IH. lia.
Qed.

Lemma strip_all_fixed (fuel : nat) (patterns : list (list nat)) (s : string) :
  JS.strip_one patterns s = None -> JS.strip_all fuel patterns s = s.
Proof. intros H. destruct fuel; cbn [JS.strip_all]; [| rewrite H]; reflexivity. Qed.

Lemma whiteSpace_patterns : Forall (fun p : list nat => p <> []) JS.whiteSpace.
Proof. unfold JS.whiteSpace. repeat constructor; discriminate. Qed.

Lemma whiteSpace_reversed :
  Forall (fun p : list nat => p <> []) (map (@rev nat) JS.whiteSpace).
Proof.
  unfold JS.whiteSpace. cbn [map rev app]. repeat constructor; discriminate.
Qed.

Lemma trimStart_rest (s : string) :
  (exists pre, s = (pre ++ JS.trimStart s)%string)
  /\ JS.strip_one JS.whiteSpace (JS.trimStart s) = None.
Proof.
  unfold JS.trimStart. split.
  - apply strip_all_rest, whiteSpace_patterns.
  - apply strip_all_done; [apply whiteSpace_patterns | lia].
Qed.

Lemma trimEnd_rest (s : string) :
  (exists post, s = (JS.trimEnd s ++ post)%string)
  /\ JS.strip_one (map (@rev nat) JS.whiteSpace) (JS.reverse (JS.trimEnd s))
     = None.
Proof.
  unfold JS.trimEnd. split.
  - destruct (strip_all_rest (String.length s) _ (JS.reverse s)
                whiteSpace_reversed) as (pre & Heq).
    exists (JS.reverse pre).
    rewrite <- reverse_append, <- Heq, reverse_reverse. reflexivity.
  - rewrite reverse_reverse.
    apply strip_all_done; [apply whiteSpace_reversed |].
    rewrite reverse_length. lia.
Qed.

(** [trim] keeps a middle part of the string. *)
Lemma trim_within (s : string) :
  exists pre post, s = (pre ++ JS.trim s ++ post)%string.
Proof.
  unfold JS.trim.
  destruct (trimStart_rest s) as ((pre & Hpre) & _).
  destruct (trimEnd_rest (JS.trimStart s)) as ((post & Hpost) & _).
  exists pre, post. rewrite <- Hpost. exact Hpre.
Qed.

(** Trimming a trimmed string changes nothing. *)
Lemma trim_trim (s : string) : JS.trim (JS.trim s) = JS.trim s.
Proof.
  unfold JS.trim.
  destruct (trimStart_rest s) as (_ & Hstart).
  destruct (trimEnd_rest (JS.trimStart s)) as ((post & Hpost) & Hend).
  assert (Hfront : JS.trimStart (JS.trimEnd (JS.trimStart s))
                   = JS.trimEnd (JS.trimStart s)).
  { unfold JS.trimStart at 1. apply strip_all_fixed.
    apply (strip_one_prefix _ _ post). rewrite <- Hpost. exact Hstart. }
  rewrite Hfront.
  unfold JS.trimEnd at 1. rewrite (strip_all_fixed _ _ _ Hend).
  apply reverse_reverse.
Qed.

Lemma trim_space (s : string) : JS.trim (String " " s) = JS.trim s.
Proof. reflexivity. Qed.

Lemma contains_append (c : ascii) (a b : string) :
  Spec.contains c (a ++ b) = Spec.contains c a || Spec.contains c b.
Proof.
  induction a as [| x a IH]; cbn [append Spec.contains]; [reflexivity |].
  rewrite IH. apply orb_assoc.
Qed.

Lemma trim_free (c : ascii) (s : string) :
  Spec.contains c s = false -> Spec.contains c (JS.trim s) = false.
Proof.
  destruct (trim_within s) as (pre & post & Heq).
  intros H. rewrite Heq in H. rewrite !contains_append in H.
  apply orb_false_iff in H. destruct H as (_ & H).
  apply orb_false_iff in H. exact (proj1 H).
Qed.

(* ================================================================= *)
(** ** The skills field of the profile form *)

Lemma initialSkills_join (skills : list string) :
  Profile.initialSkills (Some skills) = JS.join ", " skills.
Proof.
  unfold Profile.initialSkills. cbv zeta.
  destruct (String.eqb_spec (JS.join ", " skills) "") as [-> | _]; reflexivity.
Qed.

Lemma trimmed_pieces_space (s : string) :
  map (fun p => JS.trim p) (JS.split "," (String " " s))
  = map (fun p => JS.trim p) (JS.split "," s).
Proof.
  destruct (split_String "," " " s eq_refl) as (piece & pieces & Hs & ->).
  rewrite Hs. cbn [map]. rewrite trim_space. reflexivity.
Qed.

Lemma submit_joined (skills : list string) :
  Forall Spec.cleanLabel skills ->
  Profile.handleSubmit_skills (JS.join ", " skills) = skills.
Proof.
  unfold Profile.handleSubmit_skills, JS.join.
  induction 1 as [| a l (Hne & Hfree & Htrim) _ IH]; [reflexivity |].
  assert (Hkeep : negb (a =? "")%string = true).
  { destruct (String.eqb_spec a ""); [contradiction | reflexivity]. }
  destruct l as [| b l].
  - cbn [String.concat]. rewrite (split_without _ _ Hfree).
    cbn [map filter]. rewrite Htrim, Hkeep. reflexivity.
  - rewrite concat_cons by discriminate.
    change (", " ++ String.concat ", " (b :: l))%string
      with (String "," (String " " (String.concat ", " (b :: l)))).
    rewrite (split_at_first _ _ _ Hfree). cbn [map filter].
    rewrite Htrim, Hkeep, trimmed_pieces_space, IH. reflexivity.
Qed.

Lemma submitted_clean (text : string) :
  Forall Spec.cleanLabel (Profile.handleSubmit_skills text).
Proof.
  apply Forall_forall. intros x Hx. unfold Profile.handleSubmit_skills in Hx.
  apply filter_In in Hx. destruct Hx as (Hx & Hkeep).
  apply in_map_iff in Hx. destruct Hx as (p & <- & Hp).
  refine (conj _ (conj _ _)).
  - intros Heq. rewrite Heq in Hkeep. discriminate.
  - apply trim_free. exact (split_pieces_free _ _ _ Hp).
  - apply trim_trim.
Qed.

Section ProfileForm.

Local Abbreviation initialSkills := Profile.initialSkills.
Local Abbreviation handleSubmit_skills := Profile.handleSubmit_skills.

(** Profile form, load then save: when every skill of the user is a
    non-empty label without a comma and without white space around it,
    submitting the form as it was filled in sends the user's skills back, in
    the same order.  *)
Theorem profile_skills_round_trip (skills : list string) :
  Forall Spec.cleanLabel skills ->
  handleSubmit_skills (initialSkills (Some skills)) = skills.
Proof.
  intros Hclean. rewrite initialSkills_join. exact (submit_joined _ Hclean).
Qed.

Lemma profile_skills_round_trip_witness :
  Forall Spec.cleanLabel ["React"; "Node.js"; "Machine Learning"]
  /\ handleSubmit_skills
       (initialSkills (Some ["React"; "Node.js"; "Machine Learning"]))
     = ["React"; "Node.js"; "Machine Learning"].
Proof.
  assert (H : Forall Spec.cleanLabel ["React"; "Node.js"; "Machine Learning"]).
  { repeat constructor; try discriminate; reflexivity. }
  split; [exact H | exact (profile_skills_round_trip _ H)].
Defined.

(** Profile form, save then load then save: whatever text the field holds,
    the skills that are sent are non-empty, comma-free and trimmed; a user
    without a skills list sends none; and once saved, opening the form again
    and submitting it unchanged sends the same list.  *)
Theorem profile_resubmission (text : string) :
  Forall Spec.cleanLabel (handleSubmit_skills text)
  /\ handleSubmit_skills (initialSkills None) = []
  /\ handleSubmit_skills (initialSkills (Some (handleSubmit_skills text)))
     = handleSubmit_skills text.
Proof.
  refine (conj (submitted_clean text) (conj eq_refl _)).
  rewrite initialSkills_join. exact (submit_joined _ (submitted_clean text)).
Qed.

End ProfileForm.

(* ================================================================= *)
(** ** The required skills of a new project *)

Section CreateProject.

Local Abbreviation handleCreate_requiredSkills :=
  Projects.handleCreate_requiredSkills.

(** Projects page, [handleCreate]: the new project gets one required skill
    per comma of the field and one more, so never an empty list; each is
    trimmed and comma-free; nothing filters the blanks, so a text that ends
    with a comma requires the empty label among the others.  *)
Theorem created_required_skills (text : string) :
  List.length (handleCreate_requiredSkills text)
  = S (Spec.countChar "," text)
  /\ Forall (fun skill => JS.trim skill = skill
                          /\ Spec.contains "," skill = false)
       (handleCreate_requiredSkills text)
  /\ In EmptyString (handleCreate_requiredSkills (text ++ ",")).
Proof.
  unfold Projects.handleCreate_requiredSkills.
  refine (conj _ (conj _ _)).
  - rewrite length_map. apply split_length.
  - apply Forall_forall. intros x Hx.
    apply in_map_iff in Hx. destruct Hx as (p & <- & Hp).
    split; [apply trim_trim |].
    apply trim_free. exact (split_pieces_free _ _ _ Hp).
  - destruct (split_after "," text EmptyString) as (front & _ & ->).
    rewrite map_app. apply in_or_app. right. left. reflexivity.
Qed.

End CreateProject.

(* ================================================================= *)
(** ** The dates of the edit form *)

Section EditAssignment.

Local Abbreviation openEditModal_date := Assignments.openEditModal_date.

(** Assignments page, [openEditModal]: the date shown in the form is what
    comes before the first [T] of the stored one: it holds no [T], and the
    stored date is either that text itself, having no [T], or that text, a
    [T] and the rest.  *)
Theorem edit_form_day (date : string) :
  Spec.contains "T" (openEditModal_date date) = false
  /\ ((Spec.contains "T" date = false /\ openEditModal_date date = date)
      \/ exists time,
           date = (openEditModal_date date ++ String "T" time)%string).
Proof.
  unfold Assignments.openEditModal_date.
  induction date as [| c date (IHfree & IH)]; cbn [JS.split hd Spec.contains].
  - split; [reflexivity | left; split; reflexivity].
  - destruct (c =? "T")%char eqn:Hc.
    + apply Ascii.eqb_eq in Hc. subst c. cbn [hd Spec.contains].
      split; [reflexivity | right; exists date; reflexivity].
    + destruct (split_cons "T" date) as (p & ps & Hs).
      rewrite Hs in IHfree, IH |- *. cbn [hd Spec.contains] in *.
      rewrite Hc, IHfree. split; [reflexivity |].
      destruct IH as [(Hfree & Hp) | (time & Htime)].
      * left. rewrite Hfree, Hp. split; reflexivity.
      * right. exists time. cbn [append]. rewrite <- Htime. reflexivity.
Qed.

End EditAssignment.

(* ================================================================= *)
(** ** The calendar away from UTC (Timeline) *)

Lemma Date_local_midnight (LocalTZA year month d t : Z) :
  JS.Date_local LocalTZA year month d = Some t ->
  exists day, t + LocalTZA = day * JS.msPerDay.
Proof.
  unfold JS.Date_local, JS.TimeClip. cbv zeta.
  set (yr := if (0 <=? year) && (year <=? 99) then 1900 + year else year).
  generalize (JS.MakeDay yr month d) as day. intros day.
  destruct (Z.abs (day * JS.msPerDay - LocalTZA) <=? 8640000000000000);
    [| discriminate].
  intros H. exists day.
  assert (E : t = day * JS.msPerDay - LocalTZA) by congruence. lia.
Qed.

(** Timeline calendar, dates stored as days.  Let the start and the end of an
    assignment be midnight UTC of the days [first] and [last], as a date
    without a time is read, and let the cell be that of local midnight of the
    day [day].  At UTC the assignment is in the cell exactly from [first] to
    [last].  East of UTC, by less than a day, it is missing from the cell of
    its first day; west of UTC it is missing from the cell of its last day. *)
Theorem calendar_zone_shift
  (Date_parse : string -> JS.Date) (LocalTZA : Z)
  (assignments : list Timeline.Assignment)
  (selectedProject selectedEngineer : string) (currentMonth : Z)
  (a : Timeline.Assignment) (first last d t : Z)
  (cell : list Timeline.Assignment) :
  In a (Timeline.filteredAssignments assignments selectedProject
          selectedEngineer) ->
  Date_parse (Timeline.startDate a) = Some (first * JS.msPerDay) ->
  Date_parse (Timeline.endDate a) = Some (last * JS.msPerDay) ->
  In (d, cell)
    (Timeline.calendarDays Date_parse LocalTZA assignments
       selectedProject selectedEngineer currentMonth) ->
  JS.Date_local LocalTZA (JS.getFullYear LocalTZA currentMonth)
    (JS.getMonth LocalTZA currentMonth) d = Some t ->
  exists day,
    t + LocalTZA = day * JS.msPerDay
    /\ (LocalTZA = 0 -> (In a cell <-> first <= day <= last))
    /\ (0 < LocalTZA < JS.msPerDay -> (In a cell <-> first < day <= last))
    /\ (- JS.msPerDay < LocalTZA < 0 -> (In a cell <-> first <= day < last)).
Proof.
  intros Hin Hs He Hcell Ht.
  destruct (Date_local_midnight _ _ _ _ _ Ht) as (day & Hday).
  exists day. split; [exact Hday |].
  apply (proj1 (calendarDays_cells Date_parse LocalTZA assignments
                  selectedProject selectedEngineer currentMonth d cell))
    in Hcell.
  destruct Hcell as (_ & Hcell). rewrite Ht in Hcell.
  assert (Hmem : In a cell <-> first * JS.msPerDay <= t <= last * JS.msPerDay).
  { rewrite Hcell, bucket_spec, Hs, He. unfold Spec.containsInstant. split.
    - intros (_ & s & e & i & Es & Ee & Ei & Hb).
      assert (s = first * JS.msPerDay) by congruence.
      assert (e = last * JS.msPerDay) by congruence.
      assert (i = t) by congruence. subst s e i. exact Hb.
    - intros Hb. split; [exact Hin |].
      exists (first * JS.msPerDay), (last * JS.msPerDay), t.
      refine (conj eq_refl (conj eq_refl (conj eq_refl Hb))). }
  clear Hcell Ht Hs He Hin. unfold JS.msPerDay in *.
  refine (conj _ (conj _ _)); intros Htz; rewrite Hmem; lia.
Qed.

(** Five and a half hours east of UTC, the cell of 10 January 2024 for the
    assignment from [2024-01-10] to [2024-01-20]. *)
Lemma calendar_zone_shift_witness :
  (In SampleDates.tenToTwenty
     (Timeline.filteredAssignments [SampleDates.tenToTwenty] "all" "all")
   /\ JS.Date_of_iso_day (Timeline.startDate SampleDates.tenToTwenty)
      = Some (19732 * JS.msPerDay)
   /\ JS.Date_of_iso_day (Timeline.endDate SampleDates.tenToTwenty)
      = Some (19742 * JS.msPerDay)
   /\ In (10, [])
        (Timeline.calendarDays JS.Date_of_iso_day 19800000
           [SampleDates.tenToTwenty] "all" "all" SampleDates.jan10)
   /\ JS.Date_local 19800000 (JS.getFullYear 19800000 SampleDates.jan10)
        (JS.getMonth 19800000 SampleDates.jan10) 10
      = Some 1704825000000)
  /\ exists day,
       1704825000000 + 19800000 = day * JS.msPerDay
       /\ (19800000 = 0 ->
           (In SampleDates.tenToTwenty [] <-> 19732 <= day <= 19742))
       /\ (0 < 19800000 < JS.msPerDay ->
           (In SampleDates.tenToTwenty [] <-> 19732 < day <= 19742))
       /\ (- JS.msPerDay < 19800000 < 0 ->
           (In SampleDates.tenToTwenty [] <-> 19732 <= day < 19742)).
Proof.
  assert (Hin : In SampleDates.tenToTwenty
                  (Timeline.filteredAssignments [SampleDates.tenToTwenty]
                     "all" "all")) by (left; reflexivity).
  assert (Hs : JS.Date_of_iso_day (Timeline.startDate SampleDates.tenToTwenty)
               = Some (19732 * JS.msPerDay)) by (vm_compute; reflexivity).
  assert (He : JS.Date_of_iso_day (Timeline.endDate SampleDates.tenToTwenty)
               = Some (19742 * JS.msPerDay)) by (vm_compute; reflexivity).
  assert (Hcell : In (10, [])
                    (Timeline.calendarDays JS.Date_of_iso_day 19800000
                       [SampleDates.tenToTwenty] "all" "all"
                       SampleDates.jan10))
    by (apply (nth_error_In _ 9); vm_compute; reflexivity).
  assert (Ht : JS.Date_local 19800000
                 (JS.getFullYear 19800000 SampleDates.jan10)
                 (JS.getMonth 19800000 SampleDates.jan10) 10
               = Some 1704825000000) by (vm_compute; reflexivity).
  refine (conj (conj Hin (conj Hs (conj He (conj Hcell Ht)))) _).
  exact (calendar_zone_shift JS.Date_of_iso_day 19800000
           [SampleDates.tenToTwenty] "all" "all" SampleDates.jan10
           SampleDates.tenToTwenty 19732 19742 10 1704825000000 []
           Hin Hs He Hcell Ht).
Defined.
